(** * discogs-to-musicbrainz: the exporter and the loader, embedded in Rocq

    [export-from-discogs.py] scrapes a user's ratings, collection and
    wantlist from Discogs; [load-into-musicbrainz.py] resolves every exported
    record to a MusicBrainz release group and submits ratings and collection
    memberships.  Both scripts work on JSON-shaped Python values, raise
    exceptions and talk to remote services.  The embedding keeps all three:
    values are a small inductive type, every function lives in a state and
    exception monad, and the remote services are oracles whose calls are
    logged. *)

From Stdlib Require Import List String Ascii ZArith Bool Arith Lia DecimalString.
Import ListNotations.
Open Scope string_scope.
Set Warnings "-register-all".

(* ===================================================================== *)
(** ** Python values, exceptions and the effect monad                     *)
(* ===================================================================== *)

Module Py.

(** The exceptions the two scripts can meet.  A value of a shape the code
    does not expect (indexing [None], joining non-strings, ...) raises
    [TypeError] in the model; Python raises [TypeError], [KeyError] or
    [AttributeError] depending on the shape. *)
Inductive exn : Type :=
| KeyError (key : string)
| IndexError
| NameError (name : string)
| AttributeError (name : string)
| TypeError
| ValueError
| ResponseError
| OtherError (what : string).

(** What running a piece of code gives: a value, an exception, or nothing
    because the loop bound given to the model was used up. *)
Inductive outcome (A : Type) : Type :=
| Ret (a : A)
| Raise (e : exn)
| OutOfFuel.
Arguments Ret {A} a.
Arguments Raise {A} e.
Arguments OutOfFuel {A}.

(** JSON-shaped values: what [json.load] returns and what the MusicBrainz
    client hands back.  A dict is an association list in insertion order;
    lookup takes the first binding of a key. *)
Inductive value : Type :=
| VNone
| VStr (s : string)
| VInt (z : Z)
| VList (items : list value)
| VDict (fields : list (string * value)).

(** [bool(v)] *)
Definition truthy (v : value) : bool :=
  match v with
  | VNone => false
  | VStr s => negb (s =? "")
  | VInt z => negb (z =? 0)%Z
  | VList items => match items with [] => false | _ :: _ => true end
  | VDict fields => match fields with [] => false | _ :: _ => true end
  end.

Fixpoint assoc {V : Type} (k : string) (d : list (string * V)) : option V :=
  match d with
  | [] => None
  | (k', v) :: rest => if k' =? k then Some v else assoc k rest
  end.

(** [v[k]] for a string key. *)
Definition getitem (v : value) (k : string) : outcome value :=
  match v with
  | VDict fields =>
      match assoc k fields with
      | Some x => Ret x
      | None => Raise (KeyError k)
      end
  | _ => Raise TypeError
  end.

(** [v.get(k)] *)
Definition dict_get (v : value) (k : string) : outcome value :=
  match v with
  | VDict fields =>
      match assoc k fields with
      | Some x => Ret x
      | None => Ret VNone
      end
  | _ => Raise (AttributeError "get")
  end.

(** Iterating over a value: only lists are iterated by the scripts. *)
Definition as_list (v : value) : outcome (list value) :=
  match v with
  | VList items => Ret items
  | _ => Raise TypeError
  end.

(** [l[0]] and [l[-1]] on a Python list. *)
Definition list_first {A : Type} (l : list A) : outcome A :=
  match l with
  | [] => Raise IndexError
  | x :: _ => Ret x
  end.

Fixpoint list_last {A : Type} (l : list A) : outcome A :=
  match l with
  | [] => Raise IndexError
  | [x] => Ret x
  | _ :: rest => list_last rest
  end.

(** [l[i:j]] for [0 <= i <= j]. *)
Definition slice {A : Type} (l : list A) (i j : nat) : list A :=
  firstn (j - i) (skipn i l).

(** [range(start, stop, step)] for a positive step. *)
Fixpoint range_fuel (fuel start stop step : nat) : list nat :=
  match fuel with
  | O => []
  | S fuel' =>
      if (start <? stop)%nat then start :: range_fuel fuel' (start + step) stop step
      else []
  end.

Definition range (start stop step : nat) : list nat :=
  range_fuel stop start stop step.

(** *** Strings *)

Fixpoint join (sep : string) (pieces : list string) : string :=
  match pieces with
  | [] => ""
  | [p] => p
  | p :: rest => p ++ sep ++ join sep rest
  end.

(** [sep.join(l)]: every element has to be a string. *)
Fixpoint strings_of (l : list value) : outcome (list string) :=
  match l with
  | [] => Ret []
  | VStr s :: rest =>
      match strings_of rest with
      | Ret ss => Ret (s :: ss)
      | other => other
      end
  | _ :: _ => Raise TypeError
  end.

Definition str_join (sep : string) (l : list value) : outcome string :=
  match strings_of l with
  | Ret ss => Ret (join sep ss)
  | Raise e => Raise e
  | OutOfFuel => OutOfFuel
  end.

(** [s.split(c)] for a one-character separator: never the empty list. *)
Fixpoint split (c : ascii) (s : string) : list string :=
  match s with
  | EmptyString => [""]
  | String a rest =>
      if Ascii.eqb a c then "" :: split c rest
      else match split c rest with
           | [] => [String a ""]
           | p :: ps => String a p :: ps
           end
  end.

(** [s.split(c, 1)[0]]: the part of [s] before the first [c]. *)
Fixpoint before_first (c : ascii) (s : string) : string :=
  match s with
  | EmptyString => ""
  | String a rest => if Ascii.eqb a c then "" else String a (before_first c rest)
  end.

Definition startswith (p s : string) : bool := String.prefix p s.

(** [c in s] *)
Fixpoint contains (c : ascii) (s : string) : bool :=
  match s with
  | EmptyString => false
  | String a rest => Ascii.eqb a c || contains c rest
  end.

(** [s.replace(old, new)] and [s.replace(old, new, count)] for a non-empty
    [old]: occurrences are replaced from the left, without overlap.  [skip]
    counts the characters of an occurrence already replaced. *)
Fixpoint replace_from (old new : string) (count : option nat) (skip : nat)
    (s : string) : string :=
  match s with
  | EmptyString => ""
  | String a rest =>
      match skip with
      | S k => replace_from old new count k rest
      | O =>
          let allowed := match count with Some O => false | _ => true end in
          if allowed && String.prefix old s then
            new ++ replace_from old new (option_map Nat.pred count)
                     (String.length old - 1) rest
          else String a (replace_from old new count 0 rest)
      end
  end.

Definition replace (old new s : string) : string :=
  replace_from old new None 0 s.

Definition replace_first (old new s : string) : string :=
  replace_from old new (Some 1) 0 s.

(** [posixpath.join(a, b)] *)
Definition ends_with_slash (s : string) : bool :=
  match String.get (String.length s - 1) s with
  | Some c => Ascii.eqb c "/"
  | None => false
  end.

Definition os_path_join (a b : string) : string :=
  if startswith "/" b then b
  else if (a =? "") || ends_with_slash a then a ++ b
  else a ++ "/" ++ b.

(** [d[k] = v] on the fields of a dict. *)
Fixpoint set_field (d : list (string * value)) (k : string) (v : value)
    : list (string * value) :=
  match d with
  | [] => [(k, v)]
  | (k', v') :: rest =>
      if k' =? k then (k', v) :: rest else (k', v') :: set_field rest k v
  end.

(** *** Dicts keyed by values, as built by a dict comprehension: insertion
    order is kept and a key set again keeps its place. *)

Definition hashable (k : value) : bool :=
  match k with
  | VList _ | VDict _ => false
  | _ => true
  end.

Definition key_eqb (a b : value) : bool :=
  match a, b with
  | VNone, VNone => true
  | VStr s, VStr t => s =? t
  | VInt x, VInt y => (x =? y)%Z
  | _, _ => false
  end.

Fixpoint dict_update {V : Type} (d : list (value * V)) (k : value) (v : V)
    : list (value * V) :=
  match d with
  | [] => [(k, v)]
  | (k', v') :: rest =>
      if key_eqb k' k then (k', v) :: rest else (k', v') :: dict_update rest k v
  end.

Definition dict_set {V : Type} (d : list (value * V)) (k : value) (v : V)
    : outcome (list (value * V)) :=
  if hashable k then Ret (dict_update d k v) else Raise TypeError.

Fixpoint dict_lookup {V : Type} (d : list (value * V)) (k : value) : option V :=
  match d with
  | [] => None
  | (k', v) :: rest => if key_eqb k' k then Some v else dict_lookup rest k
  end.

(** *** The monad: a state (the log of remote calls, the files) threaded
    through code that may raise. *)

Definition M (S A : Type) : Type := S -> S * outcome A.

Definition ret {S A : Type} (a : A) : M S A := fun st => (st, Ret a).

Definition bind {S A B : Type} (m : M S A) (f : A -> M S B) : M S B :=
  fun st =>
    match m st with
    | (st', Ret a) => f a st'
    | (st', Raise e) => (st', Raise e)
    | (st', OutOfFuel) => (st', OutOfFuel)
    end.

Definition lift {S A : Type} (o : outcome A) : M S A := fun st => (st, o).

Definition raise {S A : Type} (e : exn) : M S A := lift (Raise e).

Definition modify {S : Type} (f : S -> S) : M S unit :=
  fun st => (f st, Ret tt).

Definition gets {S A : Type} (f : S -> A) : M S A :=
  fun st => (st, Ret (f st)).

(** [for x in l: body(x)] *)
Fixpoint for_each {S A : Type} (l : list A) (body : A -> M S unit) : M S unit :=
  match l with
  | [] => ret tt
  | x :: rest => bind (body x) (fun _ => for_each rest body)
  end.

(** A list comprehension [[f(x) for x in l if c(x)]] where the condition
    and the element expression are evaluated in one go: [f x] returns
    [None] when the condition fails. *)
Fixpoint comprehension {S A B : Type} (l : list A) (f : A -> M S (option B))
    : M S (list B) :=
  match l with
  | [] => ret []
  | x :: rest =>
      bind (f x) (fun o =>
      bind (comprehension rest f) (fun ys =>
      ret (match o with Some y => y :: ys | None => ys end)))
  end.

(** [urllib.parse.ParseResult] *)
Record ParseResult : Type := {
  scheme : string;
  netloc : string;
  path : string;
  params : string;
  query : string;
  fragment : string }.

(** Library functions of Python both scripts call. *)
Record Builtins : Type := {
  py_int : string -> option Z;          (* int(s); None is ValueError *)
  py_str : value -> string;             (* str(v), also inside f-strings *)
  urlparse : string -> ParseResult;
  urlunparse : ParseResult -> string }.

End Py.

Declare Scope py_scope.
Delimit Scope py_scope with py.
Notation "x <- m ;; k" := (Py.bind m (fun x => k))
  (at level 61, m at next level, right associativity) : py_scope.
Notation "m ;;; k" := (Py.bind m (fun _ => k))
  (at level 61, right associativity) : py_scope.

(* ===================================================================== *)
(** ** export-from-discogs.py                                             *)
(* ===================================================================== *)

Module ExportFromDiscogs.
Import Py.
Open Scope py_scope.

Definition URL_BASE : string := "https://www.discogs.com".

(** A request sent to Discogs. *)
Inductive request : Type :=
| GetRatings (username : value) (pagenum : Z)
| GetCollection (username : value) (pagenum : Z)
| GetWantlist (username : value) (pagenum : Z)
| GetRelease (release_id : string).

(** The exporter's surroundings: the requests sent so far and the files of
    the export directory, each holding the JSON document last dumped.
    Console output and the creation of the directory are left out; the
    pause and retry of [_get] on a 429 answer happen below the answers of
    the site. *)
Record state : Type := {
  sent : list request;
  files : list (string * value) }.

Definition X (A : Type) : Type := M state A.

Definition send {A : Type} (r : request) (answer : outcome A) : X A :=
  modify (fun st => {| sent := (sent st ++ [r])%list; files := files st |}) ;;;
  lift answer.

(** [json.dump(v, open(path, 'w'))] and [json.load(open(path))] *)
Definition write_json (path : string) (v : value) : X unit :=
  modify (fun st => {| sent := sent st; files := (path, v) :: files st |}).

Definition load_json (path : string) : X value :=
  contents <- gets (fun st => assoc path (files st)) ;;
  match contents with
  | Some v => ret v
  | None => raise (OtherError "FileNotFoundError")
  end.

(** An anchor and a table row of the ratings page, as the selectors of
    [BeautifulSoup] see them. *)
Record anchor : Type := {
  href : string;
  anchor_text : string }.

Record row : Type := {
  release_anchors : list anchor;           (* a[href^="/release"] *)
  artist_anchors : list anchor;            (* a[href^="/artist"] *)
  rating_tags : list (list (string * string))   (* span.rating, attributes *) }.

(** The Discogs site: the answer to each request, and the rows
    [table.release_list_table tbody tr] of a ratings page. *)
Record Discogs : Type := {
  ratings_page : value -> Z -> outcome string;
  list_collection : value -> Z -> outcome value;
  list_wantlist : value -> Z -> outcome value;
  release_json : string -> outcome value;
  select_rows : string -> list row }.

Fixpoint map_last {A : Type} (f : A -> A) (l : list A) : list A :=
  match l with
  | [] => []
  | [x] => [f x]
  | x :: rest => x :: map_last f rest
  end.

Module DiscogsHtmlClient.

(** [pieces[-1] = pieces[-1].split("-", 1)[0]] *)
Definition url_short_form (url_path : string) : string :=
  let pieces := split "/" url_path in
  join "/" (map_last (before_first "-") pieces).

Definition _parse_release_info (r : row) : outcome value :=
  match list_last (release_anchors r) with
  | Ret release_anchor =>
      let release_path := url_short_form (href release_anchor) in
      Ret (VDict [("name", VStr (anchor_text release_anchor));
                  ("url", VStr (URL_BASE ++ release_path))])
  | Raise e => Raise e
  | OutOfFuel => OutOfFuel
  end.

Definition _parse_artists_info (r : row) : value :=
  VList (map (fun artist_anchor =>
                VDict [("name", VStr (anchor_text artist_anchor));
                       ("url", VStr (URL_BASE ++ url_short_form (href artist_anchor)))])
             (artist_anchors r)).

Fixpoint parse_rows (rows : list row) : outcome (list value) :=
  match rows with
  | [] => Ret []
  | r :: rest =>
      match list_last (rating_tags r) with
      | Ret rating_tag =>
          match _parse_release_info r with
          | Ret release =>
              match assoc "data-value" rating_tag with
              | Some rating =>
                  match parse_rows rest with
                  | Ret info =>
                      Ret (VDict [("artists", _parse_artists_info r);
                                  ("release", release);
                                  ("rating", VStr rating)] :: info)
                  | other => other
                  end
              | None => Raise (KeyError "data-value")
              end
          | Raise e => Raise e
          | OutOfFuel => OutOfFuel
          end
      | Raise e => Raise e
      | OutOfFuel => OutOfFuel
      end
  end.

Definition _parse_release_ratings_html (site : Discogs) (page_html : string)
    : outcome (list value) :=
  parse_rows (select_rows site page_html).

(** The [while True] loop of [_iter_pages]; [fuel] bounds the number of
    pages fetched. *)
Fixpoint iter_pages_loop {T A : Type} (fuel : nat) (username : value)
    (api_func : value -> Z -> X T) (process_page_func : T -> X (list A))
    (all_items : list A) (pagenum : Z) : X (list A) :=
  match fuel with
  | O => lift OutOfFuel
  | S fuel' =>
      page_text <- api_func username pagenum ;;
      page_items <- process_page_func page_text ;;
      match page_items with
      | [] => ret all_items
      | _ :: _ =>
          iter_pages_loop fuel' username api_func process_page_func
            (all_items ++ page_items)%list (pagenum + 1)%Z
      end
  end.

Definition _iter_pages {T A : Type} (fuel : nat) (username : value)
    (api_func : value -> Z -> X T) (process_page_func : T -> X (list A))
    : X (list A) :=
  iter_pages_loop fuel username api_func process_page_func [] 1%Z.

Definition export_release_ratings (site : Discogs) (fuel : nat)
    (username : value) (export_dir : string) : X string :=
  rating_info <- _iter_pages fuel username
                   (fun u n => send (GetRatings u n) (ratings_page site u n))
                   (fun html => lift (_parse_release_ratings_html site html)) ;;
  let dest_filepath := os_path_join export_dir "release-ratings.json" in
  write_json dest_filepath (VList rating_info) ;;;
  ret dest_filepath.

End DiscogsHtmlClient.

Module DiscogsRestClient.

Definition release_master_url (site : Discogs) (release_id : string) : X value :=
  release_info <- send (GetRelease release_id) (release_json site release_id) ;;
  lift (dict_get release_info "master_url").

(** The generator [_iter_pages], drained by its consumer: the entries
    yielded so far are [yielded]. *)
Fixpoint iter_pages_loop (fuel : nat) (username : value)
    (api_func : value -> Z -> X value) (root_key : string)
    (yielded : list value) (pagenum : Z) : X (list value) :=
  match fuel with
  | O => lift OutOfFuel
  | S fuel' =>
      resp_json <- api_func username pagenum ;;
      entries <- lift (getitem resp_json root_key) ;;
      page_entries <- lift (as_list entries) ;;
      pagination <- lift (getitem resp_json "pagination") ;;
      pages <- lift (getitem pagination "pages") ;;
      if key_eqb (VInt pagenum) pages then ret (yielded ++ page_entries)%list
      else iter_pages_loop fuel' username api_func root_key
             (yielded ++ page_entries)%list (pagenum + 1)%Z
  end.

Definition _iter_pages (fuel : nat) (username : value)
    (api_func : value -> Z -> X value) (root_key : string) : X (list value) :=
  iter_pages_loop fuel username api_func root_key [] 1%Z.

Definition _collection (site : Discogs) (fuel : nat) (username : value) :=
  _iter_pages fuel username
    (fun u n => send (GetCollection u n) (list_collection site u n)) "releases".

Definition _wantlist (site : Discogs) (fuel : nat) (username : value) :=
  _iter_pages fuel username
    (fun u n => send (GetWantlist u n) (list_wantlist site u n)) "wants".

End DiscogsRestClient.

(** What a module-level name of [export-from-discogs.py] is bound to: a
    plain value, a REST client, or something else (a module, a class, a
    function). *)
Inductive binding : Type :=
| BValue (v : value)
| BRestClient
| BOther.

(** The names bound at module level when the script runs, in source
    order: the imports, the constants, the classes, the functions, and
    [args] of the [__main__] block. *)
Definition module_globals : list (string * binding) :=
  [ ("argparse", BOther); ("json", BOther); ("os", BOther); ("time", BOther);
    ("urllib", BOther); ("requests", BOther); ("BeautifulSoup", BOther);
    ("USER_AGENT", BValue (VStr "discogs-export/1.0"));
    ("URL_BASE", BValue (VStr "https://www.discogs.com"));
    ("API_BASE", BValue (VStr "https://api.discogs.com"));
    ("RATINGS_URL_FMT", BOther); ("RELEASE_URL_FMT", BOther);
    ("IDENTITY_URL_FMT", BOther); ("WANTLIST_URL_FMT", BOther);
    ("COLLECTION_URL_FMT", BOther);
    ("_DiscogsApiBase", BOther); ("DiscogsHtmlApi", BOther);
    ("DiscogsRestApi", BOther); ("DiscogsHtmlClient", BOther);
    ("DiscogsRestClient", BOther);
    ("_get_master_url", BOther); ("export_release_ratings", BOther);
    ("export", BOther); ("parse_args", BOther); ("args", BOther) ].

(** A name read inside a function: its locals first, then the globals
    (no builtin is called [rest_client] or [relase_info]). *)
Definition load_name (locals : list (string * binding)) (name : string)
    : outcome binding :=
  match assoc name locals with
  | Some b => Ret b
  | None =>
      match assoc name module_globals with
      | Some b => Ret b
      | None => Raise (NameError name)
      end
  end.

Section Script.

Variable py : Builtins.
Variable site : Discogs.

(** [rest_client] and [relase_info] are read as written in the source;
    neither is a local of the function.  The 0.75 s pause after each
    record is not modelled. *)
Definition _get_master_url (release_info : value) : X value :=
  release <- lift (getitem release_info "release") ;;
  release_url <- lift (getitem release "url") ;;
  url <- lift (match release_url with VStr s => Ret s | _ => Raise TypeError end) ;;
  let release_path := path (urlparse py url) in
  release_id <- lift (list_last (split "/" release_path)) ;;
  let locals := [("release_info", BValue release_info);
                 ("release_url", BValue release_url);
                 ("release_path", BValue (VStr release_path));
                 ("release_id", BValue (VStr release_id))] in
  rest_client <- lift (load_name locals "rest_client") ;;
  master_url <- match rest_client with
                | BRestClient => DiscogsRestClient.release_master_url site release_id
                | _ => raise (AttributeError "release_master_url")
                end ;;
  relase_info <- lift (load_name (locals ++ [("master_url", BValue master_url)])%list
                         "relase_info") ;;
  match relase_info with
  | BValue (VDict fields) =>
      ret (VDict (set_field fields "master_url" master_url))
  | _ => raise TypeError
  end.

(** [for entry in ratings_json: updated_ratings_json.append(...)] *)
Fixpoint augment (ratings_json : list value) (updated_ratings_json : list value)
    : X (list value) :=
  match ratings_json with
  | [] => ret updated_ratings_json
  | entry :: rest =>
      updated <- _get_master_url entry ;;
      augment rest (updated_ratings_json ++ [updated])%list
  end.

Definition export_release_ratings (fuel : nat) (html_username : value)
    (export_dir : string) (include_master : bool) : X unit :=
  ratings_filepath <- DiscogsHtmlClient.export_release_ratings site fuel
                        html_username export_dir ;;
  if include_master then
    ratings_json <- load_json ratings_filepath ;;
    entries <- lift (as_list ratings_json) ;;
    updated_ratings_json <- augment entries [] ;;
    write_json ratings_filepath (VList updated_ratings_json)
  else ret tt.

End Script.
End ExportFromDiscogs.

(* ===================================================================== *)
(** ** load-into-musicbrainz.py                                           *)
(* ===================================================================== *)

Module LoadIntoMusicbrainz.
Import Py.
Open Scope py_scope.

(** The MusicBrainz web service behind [musicbrainzngs]: what each request
    answers.  A request may raise ([ResponseError] for a 4xx answer). *)
Record MusicBrainz : Type := {
  browse_urls : string -> list string -> outcome value;
  get_release_by_id : value -> list string -> outcome value;
  search_release_groups : value -> value -> outcome value;
  do_mb_put : string -> outcome value;
  submit_ratings : list (value * Z) -> outcome value }.

(** Everything the loader does to the outside, in order. *)
Inductive event : Type :=
| BrowseUrls (uri : string) (includes : list string)
| GetReleaseById (release_id : value) (includes : list string)
| SearchReleaseGroups (query arid : value)
| MbPut (path : string)
| SubmitRatings (release_group_ratings : list (value * Z))
| Print (line : string).

Definition trace : Type := list event.
Definition L (A : Type) : Type := M trace A.

Definition emit (e : event) : L unit := modify (fun tr => (tr ++ [e])%list).

Definition print (line : string) : L unit := emit (Print line).

Section Script.

Variable py : Builtins.
Variable mb : MusicBrainz.
(** [json.load(open(path))] *)
Variable read_json : string -> outcome value.

(** A remote call: logged, then answered by the service. *)
Definition call {A : Type} (e : event) (answer : outcome A) : L A :=
  emit e ;;; lift answer.

(** [int(v)] *)
Definition int_of (v : value) : outcome Z :=
  match v with
  | VInt z => Ret z
  | VStr s => match py_int py s with Some z => Ret z | None => Raise ValueError end
  | _ => Raise TypeError
  end.

Definition add_release_groups_to_collection (collection : value)
    (release_groups : list value) : L unit :=
  let chunk_size := 200 in
  for_each (range 0 (List.length release_groups) chunk_size) (fun index =>
    let chunk := slice release_groups index (index + chunk_size + 1) in
    last <- lift (list_last chunk) ;;
    print (py_str py last) ;;;
    release_group_list <- lift (str_join ";" chunk) ;;
    call (MbPut ("collection/" ++ py_str py collection ++ "/release-groups/"
                   ++ release_group_list))
         (do_mb_put mb ("collection/" ++ py_str py collection
                          ++ "/release-groups/" ++ release_group_list)) ;;;
    ret tt).

Definition discog_api_url_to_www (api_url : string) : string :=
  let parsed := urlparse py api_url in
  let www := replace "api" "www" (netloc parsed) in
  let with_path (p : string) :=
    {| scheme := scheme parsed; netloc := www; path := p;
       params := params parsed; query := query parsed;
       fragment := fragment parsed |} in
  let fixed :=
    if startswith "/releases" (path parsed) then
      with_path (replace_first "releases" "release" (path parsed))
    else if startswith "/masters" (path parsed) then
      with_path (replace_first "masters" "master" (path parsed))
    else if startswith "/artists" (path parsed) then
      with_path (replace_first "artists" "artist" (path parsed))
    else with_path (path parsed) in
  urlunparse py fixed.

Definition release_group_info (release_group : value) : outcome value :=
  match getitem release_group "title" with
  | Ret title =>
      match getitem release_group "artist-credit-phrase" with
      | Ret phrase =>
          match getitem release_group "id" with
          | Ret id =>
              Ret (VDict [("name", title); ("artist", phrase); ("id", id)])
          | other => other
          end
      | other => other
      end
  | other => other
  end.

(** [int(rg["ext:score"])] *)
Definition ext_score (rg : value) : outcome Z :=
  match getitem rg "ext:score" with
  | Ret s => int_of s
  | Raise e => Raise e
  | OutOfFuel => OutOfFuel
  end.

(** [sorted(l, key=..., reverse=True)]: the key of every element is
    computed first, in order; the sort is stable. *)
Fixpoint keyed (key : value -> outcome Z) (l : list value)
    : outcome (list (Z * value)) :=
  match l with
  | [] => Ret []
  | x :: rest =>
      match key x with
      | Ret k =>
          match keyed key rest with
          | Ret ks => Ret ((k, x) :: ks)
          | other => other
          end
      | Raise e => Raise e
      | OutOfFuel => OutOfFuel
      end
  end.

Fixpoint insert_desc (x : Z * value) (l : list (Z * value)) : list (Z * value) :=
  match l with
  | [] => [x]
  | y :: rest =>
      if (fst x <? fst y)%Z then y :: insert_desc x rest else x :: l
  end.

Definition sorted_desc (key : value -> outcome Z) (l : list value)
    : outcome (list value) :=
  match keyed key l with
  | Ret ks => Ret (map snd (fold_right insert_desc [] ks))
  | Raise e => Raise e
  | OutOfFuel => OutOfFuel
  end.

(** The body of the [for artist_mbid in artist_mbids] loop, with the list
    [rg_results] built so far; a [return] inside the loop ends it. *)
Fixpoint search_loop (discog_entry : value) (artist_mbids : list value)
    (rg_results : list value) : L (list value) :=
  match artist_mbids with
  | [] => lift (sorted_desc ext_score rg_results)
  | artist_mbid :: rest =>
      release <- lift (getitem discog_entry "release") ;;
      name <- lift (getitem release "name") ;;
      search_results <- call (SearchReleaseGroups name artist_mbid)
                             (search_release_groups mb name artist_mbid) ;;
      release_group_list <- lift (getitem search_results "release-group-list") ;;
      first <- lift (match release_group_list with
                     | VList items => list_first items
                     | _ => Raise TypeError
                     end) ;;
      top <- lift (ext_score first) ;;
      if (top >? 95)%Z then
        info <- lift (release_group_info first) ;;
        ret [info]
      else
        items <- lift (as_list release_group_list) ;;
        found <- comprehension items (fun rg =>
                   score <- lift (ext_score rg) ;;
                   if (score >=? 75)%Z then
                     info <- lift (release_group_info rg) ;;
                     ret (Some info)
                   else ret None) ;;
        search_loop discog_entry rest (rg_results ++ found)%list
  end.

Definition search_release_group_by_artists (discog_entry : value)
    (artist_mbids : list value) : L (list value) :=
  search_loop discog_entry artist_mbids [].

(** [next((r for r in relation_list if r["type"] == "discogs"), None)] *)
Fixpoint first_discogs (relation_list : list value) : outcome value :=
  match relation_list with
  | [] => Ret VNone
  | relation :: rest =>
      match getitem relation "type" with
      | Ret (VStr "discogs") => Ret relation
      | Ret _ => first_discogs rest
      | other => other
      end
  end.

Definition lookup_mbid_by_discog_url (url : value) (type_name : string)
    : L value :=
  api_url <- lift (match url with VStr s => Ret s | _ => Raise TypeError end) ;;
  let uri := discog_api_url_to_www api_url in
  let includes := [type_name ++ "-rels"] in
  emit (BrowseUrls uri includes) ;;;
  match browse_urls mb uri includes with
  | Raise ResponseError => ret VNone
  | answer =>
      result <- lift answer ;;
      u <- lift (getitem result "url") ;;
      relations <- lift (getitem u (replace "-" "_" type_name ++ "-relation-list")) ;;
      relation_list <- lift (as_list relations) ;;
      connection <- lift (first_discogs relation_list) ;;
      if truthy connection then
        entity <- lift (getitem connection type_name) ;;
        lift (getitem entity "id")
      else ret VNone
  end.

Definition lookup_artist_mbids (discog_entry : value) : L (list value) :=
  artists <- lift (getitem discog_entry "artists") ;;
  artist_list <- lift (as_list artists) ;;
  comprehension artist_list (fun artist =>
    url <- lift (getitem artist "url") ;;
    mbid <- lookup_mbid_by_discog_url url "artist" ;;
    ret (Some mbid)).

Definition lookup_release_mbid (discog_entry : value) : L value :=
  release <- lift (getitem discog_entry "release") ;;
  url <- lift (getitem release "url") ;;
  lookup_mbid_by_discog_url url "release".

Definition _get_master_mbid (master_url : value) : L value :=
  lookup_mbid_by_discog_url master_url "release-group".

Definition lookup_master_mbid (discog_entry : value) : L value :=
  let master_id := VNone in
  release <- lift (getitem discog_entry "release") ;;
  master_url <- lift (dict_get release "master_url") ;;
  master_id <- (if truthy master_url then _get_master_mbid master_url
                else ret master_id) ;;
  master_id <- (if negb (truthy master_id) then
                  release_id <- lookup_release_mbid discog_entry ;;
                  if truthy release_id then
                    result <- call (GetReleaseById release_id ["release-groups"])
                                (get_release_by_id mb release_id ["release-groups"]) ;;
                    found <- lift (getitem result "release") ;;
                    group <- lift (getitem found "release-group") ;;
                    lift (getitem group "id")
                  else ret master_id
                else ret master_id) ;;
  if negb (truthy master_id) then
    artist_ids <- lookup_artist_mbids discog_entry ;;
    results <- search_release_group_by_artists discog_entry artist_ids ;;
    if (List.length results =? 1)%nat then
      only <- lift (list_first results) ;;
      lift (getitem only "id")
    else
      release <- lift (getitem discog_entry "release") ;;
      name <- lift (getitem release "name") ;;
      artist <- lift (getitem discog_entry "artist") ;;
      artist_name <- lift (getitem artist "name") ;;
      print ("Candidates for " ++ py_str py name ++ " by "
               ++ py_str py artist_name ++ ":") ;;;
      for_each results (fun info =>
        info_name <- lift (getitem info "name") ;;
        info_artist <- lift (getitem info "artist") ;;
        info_id <- lift (getitem info "id") ;;
        print (py_str py info_name ++ " by " ++ py_str py info_artist ++ ": "
                 ++ py_str py info_id)) ;;;
      ret master_id
  else ret master_id.

Definition load_discogs_releases (import_dir filename : string) : L value :=
  lift (read_json (os_path_join import_dir filename)).

(** The dict comprehension of [import_ratings], with the dict built so
    far. *)
Fixpoint ratings_loop (entries : list value) (ratings : list (value * Z))
    : L (list (value * Z)) :=
  match entries with
  | [] => ret ratings
  | entry :: rest =>
      master_mbid <- lookup_master_mbid entry ;;
      if truthy master_mbid then
        rating <- lift (getitem entry "rating") ;;
        stars <- lift (int_of rating) ;;
        ratings' <- lift (dict_set ratings master_mbid (stars * 20)%Z) ;;
        ratings_loop rest ratings'
      else ratings_loop rest ratings
  end.

Definition import_ratings (import_dir : string) : L unit :=
  discogs_ratings <- load_discogs_releases import_dir "release-ratings.json" ;;
  entries <- lift (as_list discogs_ratings) ;;
  release_group_ratings <- ratings_loop entries [] ;;
  call (SubmitRatings release_group_ratings)
       (submit_ratings mb release_group_ratings) ;;;
  ret tt.

End Script.
End LoadIntoMusicbrainz.

(* ===================================================================== *)
(** ** Concrete surroundings, for running the scripts on examples         *)
(* ===================================================================== *)

Module Samples.
Import Py.

Definition digit_of (c : ascii) : option Z :=
  let n := nat_of_ascii c in
  if ((48 <=? n) && (n <=? 57))%nat then Some (Z.of_nat (n - 48)) else None.

Fixpoint decimal_from (acc : Z) (s : string) : option Z :=
  match s with
  | EmptyString => Some acc
  | String c rest =>
      match digit_of c with
      | Some d => decimal_from (10 * acc + d) rest
      | None => None
      end
  end.

(** [int(s)] on strings of decimal digits. *)
Definition decimal_int (s : string) : option Z :=
  match s with
  | EmptyString => None
  | _ => decimal_from 0 s
  end.

Definition plain_str (v : value) : string :=
  match v with
  | VNone => "None"
  | VStr s => s
  | VInt z => NilZero.string_of_int (Z.to_int z)
  | VList _ => "[...]"
  | VDict _ => "{...}"
  end.

(** [s.partition(sep)] when [sep] occurs in [s]. *)
Fixpoint cut (sep s : string) : option (string * string) :=
  if String.prefix sep s then
    Some ("", String.substring (String.length sep)
                (String.length s - String.length sep) s)
  else
    match s with
    | EmptyString => None
    | String c rest =>
        match cut sep rest with
        | Some (a, b) => Some (String c a, b)
        | None => None
        end
    end.

(** [urlparse] and [urlunparse] on URLs [scheme://netloc/path?query]. *)
Definition simple_urlparse (url : string) : ParseResult :=
  let (sch, rest) := match cut "://" url with
                     | Some (a, b) => (a, b)
                     | None => ("", url)
                     end in
  let loc := match cut "://" url with
             | Some _ => before_first "/" rest
             | None => ""
             end in
  let tail := String.substring (String.length loc)
                (String.length rest - String.length loc) rest in
  let (p, q) := match cut "?" tail with
                | Some (a, b) => (a, b)
                | None => (tail, "")
                end in
  {| scheme := sch; netloc := loc; path := p; params := ""; query := q;
     fragment := "" |}.

Definition simple_urlunparse (r : ParseResult) : string :=
  (if scheme r =? "" then "" else scheme r ++ "://")
  ++ netloc r ++ path r ++ (if query r =? "" then "" else "?" ++ query r).

Definition python : Builtins :=
  {| py_int := decimal_int; py_str := plain_str;
     urlparse := simple_urlparse; urlunparse := simple_urlunparse |}.

End Samples.

Module LoaderSamples.
Import Py LoadIntoMusicbrainz.

(** A MusicBrainz server given by three tables: the URLs it knows, its
    releases, and the search results per artist.  A URL it does not know is
    answered 404; PUT and rating submissions succeed. *)
Fixpoint table_lookup (k : value) (t : list (value * value)) : option value :=
  match t with
  | [] => None
  | (k', v) :: rest => if key_eqb k' k then Some v else table_lookup k rest
  end.

Definition server (urls : list (string * value))
    (releases searches : list (value * value)) : MusicBrainz :=
  {| browse_urls := fun uri _ =>
       match assoc uri urls with
       | Some answer => Ret answer
       | None => Raise ResponseError
       end;
     get_release_by_id := fun release_id _ =>
       match table_lookup release_id releases with
       | Some answer => Ret answer
       | None => Raise ResponseError
       end;
     search_release_groups := fun _ arid =>
       match table_lookup arid searches with
       | Some answer => Ret answer
       | None => Ret (VDict [("release-group-count", VInt 0);
                             ("release-group-list", VList [])])
       end;
     do_mb_put := fun _ => Ret VNone;
     submit_ratings := fun _ => Ret VNone |}.

(** The answer to [browse_urls] for a URL linked to one entity. *)
Definition linked (key type_name relation_type mbid : string) : value :=
  VDict [("url",
          VDict [("id", VStr "url-id");
                 (key, VList [VDict [("type", VStr relation_type);
                                     ("target", VStr mbid);
                                     (type_name, VDict [("id", VStr mbid)])]])])].

(** One release group of a search answer, and the answer. *)
Definition scored (mbid title artist score : string) : value :=
  VDict [("id", VStr mbid); ("title", VStr title);
         ("artist-credit-phrase", VStr artist); ("ext:score", VStr score)].

Definition found (groups : list value) : value :=
  VDict [("release-group-count", VInt (Z.of_nat (List.length groups)));
         ("release-group-list", VList groups)].

(** An exported record, as the exporter writes it. *)
Definition artist_of (name url : string) : value :=
  VDict [("name", VStr name); ("url", VStr url)].

Definition rated (artists : list value) (name url rating : string) : value :=
  VDict [("artists", VList artists);
         ("release", VDict [("name", VStr name); ("url", VStr url)]);
         ("rating", VStr rating)].

Definition collected (artists : list value) (name url : string)
    (master_url : value) : value :=
  VDict [("artists", VList artists);
         ("release", VDict [("name", VStr name); ("url", VStr url);
                            ("master_url", master_url)])].

Definition no_files (path : string) : outcome value :=
  Raise (OtherError "FileNotFoundError").

(** 450 identifiers, "rg0" ... "rg449". *)
Definition many_ids (n : nat) : list value :=
  map (fun i => VStr ("rg" ++ NilZero.string_of_uint (Nat.to_uint i))) (seq 0 n).

(** The identifiers of each [MbPut] request of a trace: the last path
    segment, split at the semicolons. *)
Definition batch_of (e : event) : list (list string) :=
  match e with
  | MbPut path =>
      match list_last (split "/" path) with
      | Ret ids => [split ";" ids]
      | _ => []
      end
  | _ => []
  end.

Definition batches (tr : trace) : list (list string) := flat_map batch_of tr.

Definition quiet_server : MusicBrainz := server [] [] [].

(** A rated release by one artist Discogs and MusicBrainz both know. *)
Definition the_artist : value :=
  artist_of "Artist" "https://www.discogs.com/artist/1".

Definition artist_link : string * value :=
  ("https://www.discogs.com/artist/1",
   linked "artist-relation-list" "artist" "discogs" "ar-1").

Definition album : value :=
  rated [the_artist] "Album" "https://www.discogs.com/release/5" "4".

(** MusicBrainz knows the artist, not the release; the search by the
    artist answers [groups]. *)
Definition searching (groups : list value) : MusicBrainz :=
  server [artist_link] [] [(VStr "ar-1", found groups)].

Definition candidate (score : string) : value :=
  scored ("rg-" ++ score) "Album" "Artist" score.

(** A collection record with a master URL MusicBrainz has a link for. *)
Definition with_master : value :=
  collected [the_artist] "Album" "https://api.discogs.com/releases/5"
    (VStr "https://api.discogs.com/masters/77").

Definition master_known : MusicBrainz :=
  server [("https://www.discogs.com/master/77",
           linked "release_group-relation-list" "release-group" "discogs" "rg-77")]
         [] [].

(** A release by two artists, the first one unknown to MusicBrainz; the
    search without artist answers an unrelated release group. *)
Definition duo : value :=
  rated [artist_of "Stranger" "https://www.discogs.com/artist/2"; the_artist]
        "Album" "https://www.discogs.com/release/5" "4".

Definition one_known : MusicBrainz :=
  server [artist_link] []
         [(VNone, found [scored "rg-x" "Other" "Somebody" "40"]);
          (VStr "ar-1", found [candidate "100"])].

(** Two searches: the first inconclusive, the second with a sure first
    result. *)
Definition two_artists : MusicBrainz :=
  server [] []
         [(VStr "ar-0", found [candidate "92"; candidate "78"]);
          (VStr "ar-1", found [candidate "96"; candidate "80"])].

(** Two pressings of one album, rated 4 and 5, and a single. *)
Definition pressing_4 : value :=
  rated [the_artist] "Album" "https://www.discogs.com/release/5" "4".

Definition pressing_5 : value :=
  rated [the_artist] "Album (reissue)" "https://www.discogs.com/release/6" "5".

Definition single_3 : value :=
  rated [the_artist] "Single" "https://www.discogs.com/release/7" "3".

Definition in_group (mbid : string) : value :=
  VDict [("release", VDict [("id", VStr "release");
                            ("release-group", VDict [("id", VStr mbid)])])].

Definition pressings_known : MusicBrainz :=
  server [("https://www.discogs.com/release/5",
           linked "release-relation-list" "release" "discogs" "rel-5");
          ("https://www.discogs.com/release/6",
           linked "release-relation-list" "release" "discogs" "rel-6");
          ("https://www.discogs.com/release/7",
           linked "release-relation-list" "release" "discogs" "rel-7")]
         [(VStr "rel-5", in_group "rg-9"); (VStr "rel-6", in_group "rg-9");
          (VStr "rel-7", in_group "rg-3")]
         [].

Definition ratings_file (entries : list value) (path : string) : outcome value :=
  if path =? "export/release-ratings.json" then Ret (VList entries)
  else Raise (OtherError "FileNotFoundError").

End LoaderSamples.

Module LoaderVocabulary.
Import Py LoadIntoMusicbrainz.

(** How often an identifier is submitted by the requests of a trace. *)
Definition occurrences (id : string) (bs : list (list string)) : nat :=
  List.length (filter (String.eqb id) (List.concat bs)).

(** A computation whose result does not depend on the requests sent
    before it: the service is asked, never the log. *)
Definition oblivious {A : Type} (m : L A) : Prop :=
  forall tr tr', snd (m tr) = snd (m tr').

Section Server.
Variable py : Builtins.
Variable mb : MusicBrainz.

(** A release group of a search answer the loader can read: its score is
    a number and it has a title, an artist credit and an id. *)
Definition readable_group (rg : value) : Prop :=
  (exists score, ext_score py rg = Ret score)
  /\ (exists info, release_group_info rg = Ret info).

(** The search for [name] by [artist_mbid] answers the release groups
    [groups], in this order. *)
Definition search_gives (name artist_mbid : value) (groups : list value) : Prop :=
  exists answer,
    search_release_groups mb name artist_mbid = Ret answer
    /\ getitem answer "release-group-list" = Ret (VList groups).

(** The search by [artist_mbid] gives a readable, non-empty answer whose
    first release group scores at most 95. *)
Definition inconclusive (name artist_mbid : value) : Prop :=
  exists first rest score,
    search_gives name artist_mbid (first :: rest)
    /\ Forall readable_group (first :: rest)
    /\ ext_score py first = Ret score
    /\ (score <= 95)%Z.

(** An answer ranked by score, best first, as the search service orders
    its results. *)
Definition ranked (groups : list value) : Prop :=
  forall i j gi gj si sj,
    (i <= j)%nat ->
    nth_error groups i = Some gi -> nth_error groups j = Some gj ->
    ext_score py gi = Ret si -> ext_score py gj = Ret sj ->
    (sj <= si)%Z.

(** The cascade resolves [entry] to [id], whatever was sent before. *)
Definition resolves_to (entry id : value) : Prop :=
  forall tr, snd (lookup_master_mbid py mb entry tr) = Ret id.

(** The source rating of [entry], read as a number. *)
Definition stars_of (entry : value) (stars : Z) : Prop :=
  exists rating,
    getitem entry "rating" = Ret rating /\ int_of py rating = Ret stars.

(** A record of the ratings file [import_ratings] gets through: the cascade
    returns, and when it finds an identifier the record has a rating. *)
Definition rateable (entry : value) : Prop :=
  exists id,
    resolves_to entry id
    /\ (truthy id = true ->
        hashable id = true /\ exists stars, stars_of entry stars).

End Server.
End LoaderVocabulary.

Module ExporterVocabulary.
Import Py ExportFromDiscogs.

(** The requests for the pages [first], [first + 1], ... ([count] of
    them), in this order. *)
Definition page_requests (req : Z -> request) (first count : nat) : list request :=
  map (fun n => req (Z.of_nat n)) (seq first count).

Definition after_requests (st : state) (rs : list request) : state :=
  {| sent := (sent st ++ rs)%list; files := files st |}.

(** An HTML listing of the non-empty pages [pages]: page [i + 1] parses to
    the [i]-th of them, and the page after the last one has no rows. *)
Definition html_listing {T A : Type} (answer : Z -> outcome T)
    (parse : T -> outcome (list A)) (pages : list (list A)) : Prop :=
  (forall i page, nth_error pages i = Some page ->
     page <> []
     /\ exists text, answer (Z.of_nat (S i)) = Ret text /\ parse text = Ret page)
  /\ exists text,
       answer (Z.of_nat (S (List.length pages))) = Ret text
       /\ parse text = Ret [].

(** A REST listing of the pages [pages]: the answer for page [i + 1] holds
    the [i]-th of them under [root_key] and reports their number as the
    page count. *)
Definition rest_listing (answer : Z -> outcome value) (root_key : string)
    (pages : list (list value)) : Prop :=
  forall i page, nth_error pages i = Some page ->
    exists resp_json pagination,
      answer (Z.of_nat (S i)) = Ret resp_json
      /\ getitem resp_json root_key = Ret (VList page)
      /\ getitem resp_json "pagination" = Ret pagination
      /\ getitem pagination "pages" = Ret (VInt (Z.of_nat (List.length pages))).

(** A ratings record as [_parse_release_ratings_html] builds it. *)
Definition scraped (entry : value) : Prop :=
  exists artists name url rating,
    entry = VDict [("artists", artists);
                   ("release", VDict [("name", name); ("url", VStr url)]);
                   ("rating", rating)].

End ExporterVocabulary.

Module ExporterSamples.
Import Py ExportFromDiscogs.

(** A user with two rated releases on the first ratings page. *)
Definition first_row : row :=
  {| release_anchors := [ {| href := "/release/12345-Album-Name";
                             anchor_text := "Album Name" |} ];
     artist_anchors := [ {| href := "/artist/98765-Some-Artist";
                            anchor_text := "Some Artist" |} ];
     rating_tags := [[("class", "rating"); ("data-value", "4")]] |}.

Definition second_row : row :=
  {| release_anchors := [ {| href := "/release/777-Other";
                             anchor_text := "Other" |} ];
     artist_anchors := [];
     rating_tags := [[("class", "rating"); ("data-value", "5")]] |}.

Definition release_entry (title : string) : value :=
  VDict [("basic_information",
          VDict [("title", VStr title);
                 ("resource_url", VStr "https://api.discogs.com/releases/1");
                 ("master_url", VNone); ("artists", VList [])])].

Definition collection_page (releases : list value) (pages : Z) : value :=
  VDict [("pagination", VDict [("page", VInt 1); ("pages", VInt pages)]);
         ("releases", VList releases)].

Definition small_site : Discogs :=
  {| ratings_page := fun _ n =>
       if (n =? 1)%Z then Ret "<table>two rows</table>" else Ret "<table></table>";
     list_collection := fun _ n =>
       if (n =? 1)%Z then
         Ret (collection_page [release_entry "A"; release_entry "B"] 2)
       else if (n =? 2)%Z then Ret (collection_page [release_entry "C"] 2)
       else Raise (OtherError "JSONDecodeError");
     list_wantlist := fun _ _ => Ret (VDict [("pagination", VDict [("pages", VInt 1)]);
                                             ("wants", VList [])]);
     release_json := fun _ => Ret (VDict [("master_url", VNone)]);
     select_rows := fun html =>
       if html =? "<table>two rows</table>" then [first_row; second_row] else [] |}.

Definition fresh : state := {| sent := []; files := [] |}.

Definition me : value := VStr "me".

(** The two records of the first ratings page, and the state the HTML
    export leaves behind. *)
Definition scraped_ratings : list value :=
  [VDict [("artists",
           VList [VDict [("name", VStr "Some Artist");
                         ("url", VStr "https://www.discogs.com/artist/98765")]]);
          ("release",
           VDict [("name", VStr "Album Name");
                  ("url", VStr "https://www.discogs.com/release/12345")]);
          ("rating", VStr "4")];
   VDict [("artists", VList []);
          ("release",
           VDict [("name", VStr "Other");
                  ("url", VStr "https://www.discogs.com/release/777")]);
          ("rating", VStr "5")]].

Definition ratings_exported : state :=
  {| sent := [GetRatings me 1; GetRatings me 2];
     files := [("export/release-ratings.json", VList scraped_ratings)] |}.

End ExporterSamples.

Module CascadeVocabulary.
Import Py LoadIntoMusicbrainz.

(** [old in s] *)
Fixpoint occurs (old s : string) : bool :=
  String.prefix old s
  || match s with
     | EmptyString => false
     | String _ rest => occurs old rest
     end.

(** The events that only read from MusicBrainz or write to the console. *)
Definition reads_only (e : event) : bool :=
  match e with
  | BrowseUrls _ _ | GetReleaseById _ _ | SearchReleaseGroups _ _ | Print _ => true
  | MbPut _ | SubmitRatings _ => false
  end.

(** A computation that adds only such events to the log. *)
Definition read_only {A : Type} (m : L A) : Prop :=
  forall tr, exists added,
    fst (m tr) = (tr ++ added)%list /\ forallb reads_only added = true.

(** A relation of another type than "discogs". *)
Definition foreign_relation (relation : value) : Prop :=
  exists type, getitem relation "type" = Ret type /\ type <> VStr "discogs".

End CascadeVocabulary.

(* ===================================================================== *)
(** ** export-from-discogs.py: the clients and the export as a whole      *)
(* ===================================================================== *)

Module ExportClients.
Import Py ExportFromDiscogs.
Open Scope py_scope.

(** [o1 then o2] for code that only computes. *)
Definition and_then {A B : Type} (o : outcome A) (f : A -> outcome B) : outcome B :=
  match o with
  | Ret a => f a
  | Raise e => Raise e
  | OutOfFuel => OutOfFuel
  end.

(** *** [_DiscogsApiBase._get] *)

Record response : Type := {
  status_code : Z;
  text : string }.

(** The line to the site: the URLs requested so far, the seconds slept,
    the lines printed. *)
Record line : Type := {
  requested : list string;
  slept : Z;
  console : list string }.

Section Get.

(** The answer of the site to a request for [url], given the number of
    requests sent before; [requests.get] may raise. *)
Variable answers : nat -> string -> outcome response.

Definition requests_get (url : string) : M line response :=
  fun st =>
    ({| requested := (requested st ++ [url])%list; slept := slept st;
        console := console st |},
     answers (List.length (requested st)) url).

Definition say (message : string) : M line unit :=
  modify (fun st => {| requested := requested st; slept := slept st;
                       console := (console st ++ [message])%list |}).

Definition time_sleep (seconds : Z) : M line unit :=
  modify (fun st => {| requested := requested st;
                       slept := (slept st + seconds)%Z;
                       console := console st |}).

(** The recursion of [_get] has no bound in the source; [fuel] bounds it
    here. *)
Fixpoint _get (fuel : nat) (url : string) : M line response :=
  match fuel with
  | O => lift OutOfFuel
  | S fuel' =>
      resp <- requests_get url ;;
      if (status_code resp =? 429)%Z then
        say "Making requests too quickly. Taking a break, then continuing..." ;;;
        time_sleep 60 ;;;
        say "Continuing..." ;;;
        _get fuel' url
      else ret resp
  end.

End Get.

(** *** [DiscogsHtmlClient._extract_username_from_cookie] *)

(** [c.isspace()] for the characters with a code below 256, which are the
    characters of a [string] here. *)
Definition is_space (c : ascii) : bool :=
  let n := nat_of_ascii c in
  ((9 <=? n) && (n <=? 13) || (28 <=? n) && (n <=? 32)
   || (n =? 133) || (n =? 160))%nat.

Fixpoint lstrip (strippable : ascii -> bool) (s : string) : string :=
  match s with
  | EmptyString => ""
  | String c rest => if strippable c then lstrip strippable rest else s
  end.

Fixpoint rstrip (strippable : ascii -> bool) (s : string) : string :=
  match s with
  | EmptyString => ""
  | String c rest =>
      match rstrip strippable rest with
      | EmptyString => if strippable c then "" else String c ""
      | kept => String c kept
      end
  end.

(** [s.strip()] and [s.strip(chars)] *)
Definition strip_where (strippable : ascii -> bool) (s : string) : string :=
  rstrip strippable (lstrip strippable s).

Definition strip (s : string) : string := strip_where is_space s.

Fixpoint after_first (c : ascii) (s : string) : string :=
  match s with
  | EmptyString => ""
  | String a rest => if Ascii.eqb a c then rest else after_first c rest
  end.

(** [s.split(c, 1)] *)
Definition split_once (c : ascii) (s : string) : list string :=
  if contains c s then [before_first c s; after_first c s] else [s].

Fixpoint set_str (d : list (string * string)) (k v : string)
    : list (string * string) :=
  match d with
  | [] => [(k, v)]
  | (k', v') :: rest =>
      if k' =? k then (k', v) :: rest else (k', v') :: set_str rest k v
  end.

(** [dict(items)] for a list of lists of strings: every item has to have
    two elements. *)
Fixpoint dict_of (items : list (list string)) (d : list (string * string))
    : outcome (list (string * string)) :=
  match items with
  | [] => Ret d
  | [k; v] :: rest => dict_of rest (set_str d k v)
  | _ :: _ => Raise ValueError
  end.

Definition _extract_username_from_cookie (cookie : string) : outcome value :=
  and_then
    (dict_of
       (map (fun argstr =>
               split_once "=" (strip_where (Ascii.eqb ";") (strip argstr)))
            (split " " cookie))
       [])
    (fun cookie_dict =>
       Ret (match assoc "ck_username" cookie_dict with
            | Some username => VStr username
            | None => VNone
            end)).

(** *** [DiscogsRestClient]: the records of the collection and the
    wantlist *)

Definition _extract_release_info (release_json : value) : outcome value :=
  and_then (getitem release_json "title") (fun title =>
  and_then (getitem release_json "resource_url") (fun resource_url =>
  and_then (getitem release_json "master_url") (fun master_url =>
  Ret (VDict [("name", title); ("url", resource_url);
              ("master_url", master_url)])))).

Definition _extract_artist_info (artist_json : value) : outcome value :=
  and_then (getitem artist_json "name") (fun name =>
  and_then (getitem artist_json "anv") (fun anv =>
  and_then (getitem artist_json "resource_url") (fun resource_url =>
  Ret (VDict [("name", name); ("name_variation", anv);
              ("url", resource_url)])))).

(** [[f(x) for x in l]] for an [f] that may raise. *)
Fixpoint each {A B : Type} (f : A -> outcome B) (l : list A) : outcome (list B) :=
  match l with
  | [] => Ret []
  | x :: rest =>
      and_then (f x) (fun y =>
      and_then (each f rest) (fun ys => Ret (y :: ys)))
  end.

(** The body of the loop of [_collect_release_info], for one item. *)
Definition collect_item (item : value) : outcome value :=
  and_then (getitem item "basic_information") (fun basic =>
  and_then (getitem basic "artists") (fun artists =>
  and_then (as_list artists) (fun artist_list =>
  and_then (each _extract_artist_info artist_list) (fun artist_infos =>
  and_then (getitem item "basic_information") (fun basic' =>
  and_then (_extract_release_info basic') (fun release =>
  Ret (VDict [("artists", VList artist_infos); ("release", release)]))))))).

(** [_collect_release_info] on a list. *)
Definition _collect_release_info (release_list : list value)
    : outcome (list value) :=
  each collect_item release_list.

(** [_collect_release_info(self._iter_pages(api_func, root_key))]: the
    generator is drained by the loop of [_collect_release_info], so the
    entries of a page are turned into records before the page count of that
    page is read and before the next page is asked for. *)
Fixpoint collect_pages_loop (fuel : nat) (username : value)
    (api_func : value -> Z -> X value) (root_key : string)
    (release_info : list value) (pagenum : Z) : X (list value) :=
  match fuel with
  | O => lift OutOfFuel
  | S fuel' =>
      resp_json <- api_func username pagenum ;;
      entries <- lift (getitem resp_json root_key) ;;
      page_entries <- lift (as_list entries) ;;
      page_info <- lift (_collect_release_info page_entries) ;;
      pagination <- lift (getitem resp_json "pagination") ;;
      pages <- lift (getitem pagination "pages") ;;
      if key_eqb (VInt pagenum) pages then ret (release_info ++ page_info)%list
      else collect_pages_loop fuel' username api_func root_key
             (release_info ++ page_info)%list (pagenum + 1)%Z
  end.

Definition collect_pages (fuel : nat) (username : value)
    (api_func : value -> Z -> X value) (root_key : string) : X (list value) :=
  collect_pages_loop fuel username api_func root_key [] 1%Z.

Section Script.

Variable py : Builtins.
Variable site : Discogs.

Definition export_collection (fuel : nat) (username : value)
    (export_dir : string) : X string :=
  collection_info <- collect_pages fuel username
                       (fun u n => send (GetCollection u n) (list_collection site u n))
                       "releases" ;;
  let filepath := os_path_join export_dir "collection.json" in
  write_json filepath (VList collection_info) ;;;
  ret filepath.

Definition export_wantlist (fuel : nat) (username : value)
    (export_dir : string) : X string :=
  wantlist_info <- collect_pages fuel username
                     (fun u n => send (GetWantlist u n) (list_wantlist site u n))
                     "wants" ;;
  let filepath := os_path_join export_dir "wantlist.json" in
  write_json filepath (VList wantlist_info) ;;;
  ret filepath.

(** [export]: the two clients are built (the user name of the HTML client
    comes from the cookie, the one of the REST client from the answer
    [identity] to the identity request, which is not logged), then the
    three listings are exported. *)
Definition export (fuel : nat) (identity : outcome value) (cookie : string)
    (include_master : bool) (export_dir : string) : X unit :=
  html_username <- lift (_extract_username_from_cookie cookie) ;;
  who <- lift identity ;;
  rest_username <- lift (getitem who "username") ;;
  export_release_ratings py site fuel html_username export_dir include_master ;;;
  export_collection fuel rest_username export_dir ;;;
  export_wantlist fuel rest_username export_dir ;;;
  ret tt.

End Script.
End ExportClients.

(* ===================================================================== *)
(** ** load-into-musicbrainz.py: collections                              *)
(* ===================================================================== *)

Module LoadCollections.
Import Py LoadIntoMusicbrainz.
Open Scope py_scope.

Definition WEB_LOGIN_URL : string := "https://musicbrainz.org/login".
Definition NEW_COLLECTION_URL : string :=
  "https://musicbrainz.org/collection/create".

(** What the loader sends besides the requests of [event]: the listing of
    the user's collections and the requests of the web session. *)
Inductive side_request : Type :=
| GetCollections
| WebGet (url : string)
| WebPost (url : string) (data : list (string * string)).

(** [c.lower()] for the characters with a code below 256: the letters A-Z
    and the capital letters of Latin-1. *)
Definition lower_char (c : ascii) : ascii :=
  let n := nat_of_ascii c in
  if ((65 <=? n) && (n <=? 90) || (192 <=? n) && (n <=? 214)
      || (216 <=? n) && (n <=? 222))%nat
  then ascii_of_nat (n + 32) else c.

Fixpoint lower (s : string) : string :=
  match s with
  | EmptyString => ""
  | String c rest => String (lower_char c) (lower rest)
  end.

(** The no-break space that indents the options of the type list. *)
Definition NBSP : ascii := ascii_of_nat 160.

Definition indented (name : string) : bool :=
  match name with
  | String c _ => Ascii.eqb c NBSP
  | EmptyString => false
  end.

(** [v == s] for a string [s]. *)
Definition is_str (s : string) (v : value) : bool :=
  match v with
  | VStr t => t =? s
  | _ => false
  end.

(** [next((c for c in collections if c["name"] == name), None)] *)
Fixpoint first_named (name : string) (collections : list value) : outcome value :=
  match collections with
  | [] => Ret VNone
  | collection :: rest =>
      match getitem collection "name" with
      | Ret n => if is_str name n then Ret collection else first_named name rest
      | other => other
      end
  end.

(** The loop of [_get_collection_types] over the options (text and
    attributes) of the type list, with [last_parent] and the dict built so
    far. *)
Fixpoint collection_types (options : list (string * list (string * string)))
    (last_parent : option string) (collection_type_dict : list (string * string))
    : outcome (list (string * string)) :=
  match options with
  | [] => Ret collection_type_dict
  | (text, attrs) :: rest =>
      let name :=
        if indented text then
          (match last_parent with Some parent => parent | None => "None" end)
          ++ " - " ++ ExportClients.strip text
        else text in
      let last_parent' := if indented text then last_parent else Some text in
      match assoc "value" attrs with
      | Some v =>
          collection_types rest last_parent'
            (ExportClients.set_str collection_type_dict (lower name) v)
      | None => Raise (KeyError "value")
      end
  end.

Section Account.

(** The state of the MusicBrainz server as far as collections and the web
    session go. *)
Variable Srv : Type.

(** The API log, the side requests, and the server. *)
Record account : Type := {
  api : trace;
  side : list side_request;
  server : Srv }.

(** The web side of MusicBrainz and the HTML parser:
    [musicbrainzngs.get_collections()], the text of a page, the effect of a
    POST, [page.find("input", attrs={"name": n})] as the attributes of the
    input and [page.find(id=i).find_all("option")] as the texts and
    attributes of the options; the credentials given to
    [musicbrainzngs.auth]. *)
Record Web : Type := {
  collections_of : Srv -> outcome value;
  page_of : Srv -> string -> outcome string;
  after_post : string -> list (string * string) -> Srv -> outcome Srv;
  find_input : string -> string -> option (list (string * string));
  find_options : string -> string
                 -> option (list (string * list (string * string)));
  mb_user : string;
  mb_password : string }.

Definition C (A : Type) : Type := M account A.

Variable py : Builtins.
Variable mb : MusicBrainz.
Variable web : Web.

(** The code of the rest of the script, run on the API log. *)
Definition on_api {A : Type} (m : L A) : C A :=
  fun st =>
    let (tr, o) := m (api st) in
    ({| api := tr; side := side st; server := server st |}, o).

Definition noted (r : side_request) (st : account) : account :=
  {| api := api st; side := (side st ++ [r])%list; server := server st |}.

Definition get_collections : C value :=
  fun st => (noted GetCollections st, collections_of web (server st)).

Definition session_get (url : string) : C string :=
  fun st => (noted (WebGet url) st, page_of web (server st) url).

Definition session_post (url : string) (data : list (string * string)) : C unit :=
  fun st =>
    match after_post web url data (server st) with
    | Ret server' =>
        ({| api := api st; side := (side st ++ [WebPost url data])%list;
            server := server' |}, Ret tt)
    | Raise e => (noted (WebPost url data) st, Raise e)
    | OutOfFuel => (noted (WebPost url data) st, OutOfFuel)
    end.

(** [page.find("input", attrs={"name": name}).attrs["value"]] *)
Definition input_value (page name : string) : outcome string :=
  match find_input web page name with
  | None => Raise (AttributeError "attrs")
  | Some attrs =>
      match assoc "value" attrs with
      | Some v => Ret v
      | None => Raise (KeyError "value")
      end
  end.

Definition _get_collection_types : C (list (string * string)) :=
  page <- session_get NEW_COLLECTION_URL ;;
  options <- lift (match find_options web page "id-edit-list.type_id" with
                   | Some options => Ret options
                   | None => Raise (AttributeError "find_all")
                   end) ;;
  lift (collection_types options None []).

Definition _new_collection (name collection_type : string) : C unit :=
  collection_type_dict <- _get_collection_types ;;
  type_id <- lift (match assoc (lower collection_type) collection_type_dict with
                   | Some v => Ret v
                   | None => Raise (KeyError (lower collection_type))
                   end) ;;
  session_post NEW_COLLECTION_URL
    [("edit-list.name", name); ("edit-list.type_id", type_id);
     ("edit-list.description", "")].

Definition _web_login : C unit :=
  page <- session_get WEB_LOGIN_URL ;;
  csrf_session_key <- lift (input_value page "csrf_session_key") ;;
  csrf_token <- lift (input_value page "csrf_token") ;;
  session_post WEB_LOGIN_URL
    [("csrf_session_key", csrf_session_key); ("csrf_token", csrf_token);
     ("username", mb_user web); ("password", mb_password web)].

Definition create_collection (name collection_type : string) : C unit :=
  _web_login ;;;
  _new_collection name collection_type.

Definition mb_collection (name : string) : C value :=
  answer <- get_collections ;;
  collections <- lift (getitem answer "collection-list") ;;
  collection_list <- lift (as_list collections) ;;
  lift (first_named name collection_list).

(** [[master_mbid for entry in releases if (master_mbid := ...)]] *)
Definition resolve_all (releases : list value) : L (list value) :=
  comprehension releases (fun entry =>
    master_mbid <- lookup_master_mbid py mb entry ;;
    ret (if truthy master_mbid then Some master_mbid else None)).

(** The last two statements of [import_to_collection]. *)
Definition submit_to (collection releases : value) : C unit :=
  entries <- lift (as_list releases) ;;
  release_groups <- on_api (resolve_all entries) ;;
  collection_id <- lift (getitem collection "id") ;;
  on_api (add_release_groups_to_collection py mb collection_id release_groups).

Definition import_to_collection (collection_name : string) (releases : value)
    : C unit :=
  collection <- mb_collection collection_name ;;
  if negb (truthy collection) then
    create_collection collection_name "release group collection" ;;;
    collection <- mb_collection collection_name ;;
    if negb (truthy collection) then
      on_api (print ("There was an issue creating " ++ collection_name
                       ++ ". Skipping..."))
    else submit_to collection releases
  else submit_to collection releases.

(** [json.load(open(path))] *)
Variable read_json : string -> outcome value.

Definition import_to_wishlist (import_dir wishlist_name : string) : C unit :=
  releases <- on_api (load_discogs_releases read_json import_dir "wantlist.json") ;;
  import_to_collection wishlist_name releases.

Definition import_to_owned (import_dir owned_name : string) : C unit :=
  releases <- on_api (load_discogs_releases read_json import_dir "collection.json") ;;
  import_to_collection owned_name releases.

Definition import_to_musicbrainz (import_dir owned_name wishlist_name : string)
    (load_ratings load_owned load_wishlist : bool) : C unit :=
  (if load_ratings then on_api (import_ratings py mb read_json import_dir)
   else ret tt) ;;;
  (if load_owned then import_to_owned import_dir owned_name else ret tt) ;;;
  (if load_wishlist then import_to_wishlist import_dir wishlist_name
   else ret tt).

End Account.

Arguments api {Srv} a.
Arguments side {Srv} a.
Arguments server {Srv} a.
Arguments Build_account {Srv} api side server.
Arguments collections_of {Srv} w _.
Arguments page_of {Srv} w _ _.
Arguments after_post {Srv} w _ _ _.
Arguments find_input {Srv} w _ _.
Arguments find_options {Srv} w _ _.
Arguments mb_user {Srv} w.
Arguments mb_password {Srv} w.
Arguments on_api {Srv A} m _.
Arguments noted {Srv} r st.
Arguments get_collections {Srv} web _.
Arguments session_get {Srv} web url _.
Arguments session_post {Srv} web url data _.
Arguments input_value {Srv} web page name.
Arguments _get_collection_types {Srv} web _.
Arguments _new_collection {Srv} web name collection_type _.
Arguments _web_login {Srv} web _.
Arguments create_collection {Srv} web name collection_type _.
Arguments mb_collection {Srv} web name _.
Arguments submit_to {Srv} py mb collection releases _.
Arguments import_to_collection {Srv} py mb web collection_name releases _.
Arguments import_to_wishlist {Srv} py mb web read_json import_dir wishlist_name _.
Arguments import_to_owned {Srv} py mb web read_json import_dir owned_name _.
Arguments import_to_musicbrainz {Srv} py mb web read_json import_dir owned_name
  wishlist_name load_ratings load_owned load_wishlist _.

End LoadCollections.

Module CollectionsVocabulary.
Import Py LoadIntoMusicbrainz LoadCollections.

(** A collection with another name than [name]. *)
Definition named_otherwise (name : string) (collection : value) : Prop :=
  exists n, getitem collection "name" = Ret n /\ is_str name n = false.

(** The user's collections are [collections], in this order. *)
Definition lists_collections {Srv : Type} (web : Web Srv) (srv : Srv)
    (collections : list value) : Prop :=
  exists answer,
    collections_of web srv = Ret answer
    /\ getitem answer "collection-list" = Ret (VList collections).


End CollectionsVocabulary.


Module ClientsVocabulary.
Import Py ExportFromDiscogs ExportClients.

(** The line after [k] pauses of [_get] for [url]. *)
Definition waited (url : string) (st : line) (k : nat) : line :=
  {| requested := (requested st ++ repeat url k)%list;
     slept := (slept st + 60 * Z.of_nat k)%Z;
     console := (console st
                 ++ List.concat
                      (repeat ["Making requests too quickly. Taking a break, then continuing...";
                               "Continuing..."] k))%list |}.

(** Every character of [s] satisfies [p]. *)
Fixpoint all_chars (p : ascii -> bool) (s : string) : bool :=
  match s with
  | EmptyString => true
  | String c rest => p c && all_chars p rest
  end.

(** Neither white space nor a semicolon. *)
Definition plain (c : ascii) : bool :=
  negb (is_space c) && negb (Ascii.eqb ";" c).

(** The key of a piece of the cookie: what stands before its first "=",
    once white space and semicolons around the piece are removed. *)
Definition piece_key (piece : string) : string :=
  before_first "=" (strip_where (Ascii.eqb ";") (strip piece)).

(** A record as [_collect_release_info] builds it. *)
Definition collected_artist (artist : value) : Prop :=
  exists name anv url,
    artist = VDict [("name", name); ("name_variation", anv); ("url", url)].

Definition collected (entry : value) : Prop :=
  exists artists name url master_url,
    entry = VDict [("artists", VList artists);
                   ("release", VDict [("name", name); ("url", url);
                                      ("master_url", master_url)])]
    /\ Forall collected_artist artists.

End ClientsVocabulary.

Module CascadeSamples.
Import Py LoadIntoMusicbrainz LoaderSamples.

(** One relation of a URL, and the answer to [browse_urls] for a URL with
    the relations [relations]. *)
Definition relation (relation_type type_name mbid : string) : value :=
  VDict [("type", VStr relation_type); ("target", VStr mbid);
         (type_name, VDict [("id", VStr mbid)])].

Definition related (key : string) (relations : list value) : value :=
  VDict [("url", VDict [("id", VStr "url-id"); (key, VList relations)])].

(** The page of the release is linked to two releases, the first one by a
    relation of another type. *)
Definition linked_twice : MusicBrainz :=
  server [("https://www.discogs.com/release/5",
           related "release-relation-list"
             [relation "streaming" "release" "rel-0";
              relation "discogs" "release" "rel-5"])]
         [] [].

Definition linked_otherwise : MusicBrainz :=
  server [("https://www.discogs.com/release/5",
           related "release-relation-list"
             [relation "streaming" "release" "rel-0"])]
         [] [].

(** The URL is known, and the answer has no relations of any type. *)
Definition no_relations : MusicBrainz :=
  server [("https://www.discogs.com/release/5",
           VDict [("url", VDict [("id", VStr "url-id")])])]
         [] [].

(** A server that cannot be reached. *)
Definition unreachable : MusicBrainz :=
  {| browse_urls := fun _ _ => Raise (OtherError "NetworkError");
     get_release_by_id := fun _ _ => Raise (OtherError "NetworkError");
     search_release_groups := fun _ _ => Raise (OtherError "NetworkError");
     do_mb_put := fun _ => Raise (OtherError "NetworkError");
     submit_ratings := fun _ => Raise (OtherError "NetworkError") |}.

(** The release is linked, and fetching it fails. *)
Definition release_gone : MusicBrainz :=
  server [("https://www.discogs.com/release/5",
           linked "release-relation-list" "release" "discogs" "rel-5")]
         [] [].

(** A rated release MusicBrainz has no link for, without artists. *)
Definition lost : value :=
  rated [] "Lost" "https://www.discogs.com/release/404" "2".

(** What the search returns for a release group. *)
Definition hit (mbid title artist : string) : value :=
  VDict [("name", VStr title); ("artist", VStr artist); ("id", VStr mbid)].


End CascadeSamples.

Module ClientSamples.
Import Py ExportFromDiscogs ExportClients ExporterSamples.

(** A row without rating element. *)
Definition unrated_row : row :=
  {| release_anchors := [ {| href := "/release/1-Unrated";
                             anchor_text := "Unrated" |} ];
     artist_anchors := [];
     rating_tags := [] |}.


Definition always_busy (n : nat) (url : string) : outcome response :=
  Ret {| status_code := 429%Z; text := "" |}.

Definition idle : line := {| requested := []; slept := 0%Z; console := [] |}.


Definition record_of (title : string) : value :=
  VDict [("artists", VList []);
         ("release",
          VDict [("name", VStr title);
                 ("url", VStr "https://api.discogs.com/releases/1");
                 ("master_url", VNone)])].


End ClientSamples.

Module CollectionSamples.
Import Py LoadIntoMusicbrainz LoadCollections.

Definition a_collection (id name : string) : value :=
  VDict [("id", VStr id); ("name", VStr name)].

(** The options of the type list of the creation form. *)
Definition type_options : list (string * list (string * string)) :=
  [("Release collection", [("value", "1")]);
   (String NBSP "Owned music", [("value", "2")]);
   ("Release group collection", [("value", "12")])].

(** A web site whose state is the list of the user's collections.  The
    login page has the CSRF inputs when [with_csrf] is set; posting the
    creation form adds a collection when [creates] is set. *)
Definition musicbrainz_web (with_csrf creates : bool) : Web (list value) :=
  {| collections_of := fun collections =>
       Ret (VDict [("collection-list", VList collections)]);
     page_of := fun _ url =>
       Ret (if url =? WEB_LOGIN_URL then "<login>" else "<form>");
     after_post := fun url data collections =>
       if creates && (url =? NEW_COLLECTION_URL) then
         match assoc "edit-list.name" data with
         | Some name => Ret (collections ++ [a_collection "new" name])%list
         | None => Ret collections
         end
       else Ret collections;
     find_input := fun page name =>
       if with_csrf && (page =? "<login>")
       then Some [("name", name); ("value", "secret-" ++ name)]
       else None;
     find_options := fun page id =>
       if (page =? "<form>") && (id =? "id-edit-list.type_id")
       then Some type_options else None;
     mb_user := "me";
     mb_password := "password" |}.

(** An account with the collections [collections] and nothing sent. *)
Definition account_with (collections : list value) : account (list value) :=
  {| api := []; side := []; server := collections |}.

Definition my_collections : list value :=
  [a_collection "c1" "Wishlist"; a_collection "c2" "Owned";
   a_collection "c3" "Owned"].

(** The two forms the loader posts to create the collection "Owned". *)
Definition login_form : list (string * string) :=
  [("csrf_session_key", "secret-csrf_session_key");
   ("csrf_token", "secret-csrf_token");
   ("username", "me"); ("password", "password")].

Definition creation_form : list (string * string) :=
  [("edit-list.name", "Owned"); ("edit-list.type_id", "12");
   ("edit-list.description", "")].

(** The export files of a user with one release owned. *)
Definition export_files (owned : list value) (ratings : list value)
    (path : string) : outcome value :=
  if path =? "export/release-ratings.json" then Ret (VList ratings)
  else if path =? "export/collection.json" then Ret (VList owned)
  else Raise (OtherError "FileNotFoundError").

End CollectionSamples.

(* ===================================================================== *)
(** ** Facts about strings and lists                                      *)
(* ===================================================================== *)

Section StringFacts.
Import Py.

Lemma split_nonempty (c : ascii) (s : string) : split c s <> [].
Proof.
  destruct s as [|a rest]; simpl; [discriminate|].
  destruct (Ascii.eqb a c); [discriminate|].
  destruct (split c rest); discriminate.
Qed.

(** Splitting a string that has a separator in the middle gives the pieces
    of both sides. *)
Lemma split_app (c : ascii) (a b : string) :
  split c (a ++ String c b) = (split c a ++ split c b)%list.
Proof.
  induction a as [|x a IH]; simpl.
  - now rewrite Ascii.eqb_refl.
  - destruct (Ascii.eqb x c); [now rewrite IH|].
    rewrite IH. destruct (split c a) eqn:E; [now apply split_nonempty in E|].
    reflexivity.
Qed.

Lemma split_without (c : ascii) (s : string) :
  contains c s = false -> split c s = [s].
Proof.
  induction s as [|a rest IH]; simpl; [reflexivity|].
  destruct (Ascii.eqb a c); simpl; [discriminate|].
  intros H. now rewrite (IH H).
Qed.

Lemma split_pieces_without (c : ascii) (s : string) :
  Forall (fun p => contains c p = false) (split c s).
Proof.
  induction s as [|a rest IH]; simpl.
  - repeat constructor.
  - destruct (Ascii.eqb a c) eqn:E.
    + constructor; [reflexivity|exact IH].
    + destruct (split c rest) as [|p ps]; [repeat constructor; simpl; now rewrite E|].
      inversion IH; subst. constructor; [simpl; now rewrite E|assumption].
Qed.

Lemma join_cons (sep p : string) (rest : list string) :
  rest <> [] -> join sep (p :: rest) = p ++ sep ++ join sep rest.
Proof. destruct rest; [congruence|reflexivity]. Qed.

Lemma append_assoc (a b c : string) : (a ++ b) ++ c = a ++ (b ++ c).
Proof. induction a; simpl; [reflexivity|now f_equal]. Qed.

Lemma append_empty_r (a : string) : a ++ "" = a.
Proof. induction a; simpl; [reflexivity|now f_equal]. Qed.

Lemma join_snoc (sep : string) (l : list string) (x : string) :
  l <> [] -> join sep (l ++ [x]) = join sep l ++ sep ++ x.
Proof.
  induction l as [|p l IH]; [congruence|intros _].
  destruct l as [|q l]; [reflexivity|].
  change (join sep (p :: ((q :: l) ++ [x])%list) = join sep (p :: q :: l) ++ sep ++ x).
  rewrite join_cons by (destruct l; discriminate).
  rewrite IH by discriminate.
  rewrite (join_cons sep p (q :: l)) by discriminate.
  now rewrite !append_assoc.
Qed.

Lemma join_split (c : ascii) (s : string) :
  join (String c "") (split c s) = s.
Proof.
  induction s as [|a rest IH]; simpl; [reflexivity|].
  destruct (Ascii.eqb a c) eqn:E.
  - apply Ascii.eqb_eq in E. subst a.
    rewrite join_cons by apply split_nonempty.
    simpl. now rewrite IH.
  - destruct (split c rest) as [|p ps] eqn:S; [now apply split_nonempty in S|].
    destruct ps as [|q ps].
    + simpl in *. now subst.
    + rewrite join_cons by discriminate.
      rewrite join_cons in IH by discriminate.
      cbn [append] in *. now rewrite IH.
Qed.

Lemma split_join (c : ascii) (pieces : list string) :
  pieces <> [] -> Forall (fun p => contains c p = false) pieces ->
  split c (join (String c "") pieces) = pieces.
Proof.
  induction pieces as [|p rest IH]; [congruence|intros _ H].
  inversion H as [|? ? Hp Hrest]; subst.
  destruct rest as [|q rest].
  - simpl. now apply split_without.
  - rewrite join_cons by discriminate.
    cbn [append].
    rewrite split_app, (split_without _ _ Hp).
    rewrite IH by (discriminate || assumption).
    reflexivity.
Qed.

Lemma before_first_without (c : ascii) (s t : string) :
  contains c s = false -> before_first c (s ++ String c t) = s.
Proof.
  induction s as [|a rest IH]; simpl.
  - now rewrite Ascii.eqb_refl.
  - destruct (Ascii.eqb a c); simpl; [discriminate|].
    intros H. now rewrite (IH H).
Qed.

Lemma before_first_idem (c : ascii) (s : string) :
  before_first c (before_first c s) = before_first c s.
Proof.
  induction s as [|a rest IH]; simpl; [reflexivity|].
  destruct (Ascii.eqb a c) eqn:E; simpl; [reflexivity|].
  now rewrite E, IH.
Qed.

Lemma before_first_keeps_without (c d : ascii) (s : string) :
  contains d s = false -> contains d (before_first c s) = false.
Proof.
  induction s as [|a rest IH]; simpl; [reflexivity|].
  destruct (Ascii.eqb a c); [reflexivity|].
  simpl. destruct (Ascii.eqb a d); simpl; [discriminate|exact IH].
Qed.

End StringFacts.

Section MapLast.
Import ExportFromDiscogs.
Context {A : Type} (f : A -> A).

Lemma map_last_nonempty (l : list A) : l <> [] -> map_last f l <> [].
Proof. destruct l as [|x [|y l]]; simpl; congruence. Qed.

Lemma map_last_snoc (l : list A) (x : A) :
  map_last f (l ++ [x]) = (l ++ [f x])%list.
Proof.
  induction l as [|y l IH]; [reflexivity|].
  simpl. rewrite IH. destruct (l ++ [x])%list eqn:E; [|reflexivity].
  now destruct l.
Qed.

Lemma map_last_idem (l : list A) :
  (forall x, f (f x) = f x) -> map_last f (map_last f l) = map_last f l.
Proof.
  intros Hf. induction l as [|x l IH]; [reflexivity|].
  destruct l as [|y l]; [simpl; now rewrite Hf|].
  change (map_last f (x :: y :: l)) with (x :: map_last f (y :: l)).
  destruct (map_last f (y :: l)) eqn:E;
    [now apply map_last_nonempty in E|].
  simpl. simpl in IH. now rewrite IH.
Qed.

Lemma map_last_Forall (P : A -> Prop) (l : list A) :
  (forall x, P x -> P (f x)) -> Forall P l -> Forall P (map_last f l).
Proof.
  intros Hf. induction 1 as [|x l Hx Hl IH]; [constructor|].
  destruct l as [|y l]; [repeat constructor; auto|].
  change (Forall P (x :: map_last f (y :: l))). now constructor.
Qed.

End MapLast.

(* ===================================================================== *)
(** ** The exporter: [url_short_form]                                     *)
(* ===================================================================== *)

Section UrlShortForm.
Import Py ExportFromDiscogs ExportFromDiscogs.DiscogsHtmlClient.

Lemma url_short_form_last_segment (dir id slug : string) :
  contains "/" id = false -> contains "-" id = false ->
  contains "/" slug = false ->
  url_short_form (dir ++ "/" ++ id ++ "-" ++ slug) = dir ++ "/" ++ id.
Proof.
  intros Hid Hhyphen Hslug. unfold url_short_form.
  cbn [append]. rewrite split_app.
  assert (Hseg : contains "/" (id ++ String "-" slug) = false).
  { clear Hhyphen. induction id as [|a id IH]; simpl in *; [exact Hslug|].
    destruct (Ascii.eqb a "/"); simpl in *; [discriminate|auto]. }
  rewrite (split_without _ _ Hseg), map_last_snoc.
  rewrite before_first_without by assumption.
  rewrite join_snoc by apply split_nonempty.
  now rewrite join_split.
Qed.

Lemma url_short_form_fixpoint (url_path : string) :
  url_short_form (url_short_form url_path) = url_short_form url_path.
Proof.
  unfold url_short_form.
  rewrite split_join.
  - rewrite map_last_idem; [reflexivity|apply before_first_idem].
  - apply map_last_nonempty, split_nonempty.
  - apply map_last_Forall; [|apply split_pieces_without].
    intros p. apply before_first_keeps_without.
Qed.

(** C6: [url_short_form] cuts the last path segment at its first hyphen
    ("/release/12345-Album-Name" becomes "/release/12345", and so does every
    path whose last segment is an id without hyphen followed by "-" and a
    slug), and applying it to its own output changes nothing. *)
Theorem url_short_form_truncates_and_is_idempotent :
  url_short_form "/release/12345-Album-Name" = "/release/12345"
  /\ (forall dir id slug : string,
        contains "/" id = false -> contains "-" id = false ->
        contains "/" slug = false ->
        url_short_form (dir ++ "/" ++ id ++ "-" ++ slug) = dir ++ "/" ++ id)
  /\ (forall url_path : string,
        url_short_form (url_short_form url_path) = url_short_form url_path).
Proof.
  split; [reflexivity|split].
  - exact url_short_form_last_segment.
  - exact url_short_form_fixpoint.
Qed.

Lemma url_short_form_witness :
  contains "/" "98765" = false /\ contains "-" "98765" = false
  /\ contains "/" "Some-Artist" = false
  /\ url_short_form ("/artist" ++ "/" ++ "98765" ++ "-" ++ "Some-Artist")
     = "/artist" ++ "/" ++ "98765".
Proof.
  split; [reflexivity|split; [reflexivity|split; [reflexivity|]]].
  apply (proj1 (proj2 url_short_form_truncates_and_is_idempotent));
    reflexivity.
Defined.

End UrlShortForm.

(* ===================================================================== *)
(** ** The loader: submission in chunks                                   *)
(* ===================================================================== *)

Section Chunks.
Import Py LoadIntoMusicbrainz Samples LoaderSamples LoaderVocabulary.

(** C1, on the code: the slice [release_groups[index:index + chunk_size + 1]]
    takes 201 identifiers, not 200.  450 identifiers are submitted in three
    requests of 201, 201 and 50 identifiers, and the identifiers at
    positions 200 and 400 are each sent twice. *)
Theorem chunks_of_450_overlap :
  let run := add_release_groups_to_collection python quiet_server
               (VStr "c1") (many_ids 450) [] in
  snd run = Ret tt
  /\ map (@List.length string) (batches (fst run)) = [201; 201; 50]%nat
  /\ occurrences "rg199" (batches (fst run)) = 1%nat
  /\ occurrences "rg200" (batches (fst run)) = 2%nat
  /\ occurrences "rg400" (batches (fst run)) = 2%nat.
Proof. vm_compute. repeat split; reflexivity. Qed.

End Chunks.

(* ===================================================================== *)
(** ** The loader: the resolution cascade                                 *)
(* ===================================================================== *)

Section MonadFacts.
Import Py.
Context {S A B : Type}.

Lemma bind_ret (m : M S A) (f : A -> M S B) (st st' : S) (a : A) :
  m st = (st', Ret a) -> bind m f st = f a st'.
Proof. unfold bind. now intros ->. Qed.

Lemma bind_raise (m : M S A) (f : A -> M S B) (st st' : S) (e : exn) :
  m st = (st', Raise e) -> bind m f st = (st', Raise e).
Proof. unfold bind. now intros ->. Qed.

Lemma bind_lift_ret (o : outcome A) (f : A -> M S B) (st : S) (a : A) :
  o = Ret a -> bind (lift o) f st = f a st.
Proof. now intros ->. Qed.

Lemma bind_lift_raise (o : outcome A) (f : A -> M S B) (st : S) (e : exn) :
  o = Raise e -> bind (lift o) f st = (st, Raise e).
Proof. now intros ->. Qed.

Lemma bind_inv (m : M S A) (f : A -> M S B) (st st' : S) (b : B) :
  bind m f st = (st', Ret b) ->
  exists a st1, m st = (st1, Ret a) /\ f a st1 = (st', Ret b).
Proof.
  unfold bind. destruct (m st) as [st1 [a|e|]]; try discriminate.
  intros H. now exists a, st1.
Qed.

End MonadFacts.

Section Cascade.
Import Py LoadIntoMusicbrainz LoaderVocabulary.
Variable py : Builtins.
Variable mb : MusicBrainz.
Variable read_json : string -> outcome value.

(** An external-link lookup sends exactly one request. *)
Lemma lookup_mbid_trace (u type_name : string) (tr : trace) :
  fst (lookup_mbid_by_discog_url py mb (VStr u) type_name tr)
  = (tr ++ [BrowseUrls (discog_api_url_to_www py u)
                      [(type_name ++ "-rels")%string]])%list.
Proof.
  unfold lookup_mbid_by_discog_url, bind, lift, emit, modify, ret. cbn [fst snd].
  destruct (browse_urls mb _ _) as [result|e|]; [| destruct e |]; cbn;
    try reflexivity.
  repeat match goal with
         | |- context [match ?x with _ => _ end] => destruct x; cbn
         end; reflexivity.
Qed.

(** Its answer does not depend on what was sent before. *)
Lemma lookup_mbid_answer (url : value) (type_name : string) (tr tr' : trace) :
  snd (lookup_mbid_by_discog_url py mb url type_name tr)
  = snd (lookup_mbid_by_discog_url py mb url type_name tr').
Proof.
  unfold lookup_mbid_by_discog_url, bind, lift, emit, modify, ret.
  destruct url; cbn; try reflexivity.
  destruct (browse_urls mb _ _) as [result|e|]; [| destruct e |]; cbn;
    try reflexivity.
  repeat match goal with
         | |- context [match ?x with _ => _ end] => destruct x; cbn
         end; reflexivity.
Qed.

(** C2: a record whose [master_url] is present and whose external-link
    lookup gives a target identifier resolves to that identifier with a
    single request, the lookup of the master URL: the release lookup, the
    release fetch, the artist lookups and the search are not sent. *)
Theorem master_link_short_circuits
    (discog_entry release id : value) (master_url : string) (tr : trace) :
  getitem discog_entry "release" = Ret release ->
  dict_get release "master_url" = Ret (VStr master_url) ->
  master_url <> "" ->
  snd (lookup_mbid_by_discog_url py mb (VStr master_url) "release-group" tr)
    = Ret id ->
  truthy id = true ->
  lookup_master_mbid py mb discog_entry tr
  = ((tr ++ [BrowseUrls (discog_api_url_to_www py master_url)
                        ["release-group-rels"]])%list,
     Ret id).
Proof.
  intros Hrelease Hurl Hpresent Hlookup Hid.
  unfold lookup_master_mbid.
  rewrite (bind_lift_ret _ _ _ _ Hrelease), (bind_lift_ret _ _ _ _ Hurl).
  assert (Htruthy : truthy (VStr master_url) = true).
  { simpl. now destruct (String.eqb_spec master_url ""). }
  rewrite Htruthy. unfold _get_master_mbid.
  pose proof (lookup_mbid_trace master_url "release-group" tr) as Htrace.
  destruct (lookup_mbid_by_discog_url py mb (VStr master_url) "release-group" tr)
    as [tr' o] eqn:E.
  simpl in Hlookup, Htrace. subst o tr'.
  rewrite (bind_ret _ _ _ _ _ E).
  rewrite Hid. cbn [negb]. unfold bind, ret. now rewrite Hid.
Qed.

(** *** The fuzzy search *)

Lemma call_eq {A : Type} (e : event) (answer : outcome A) (tr : trace) :
  call e answer tr = ((tr ++ [e])%list, answer).
Proof. reflexivity. Qed.

(** Reading a readable answer sends nothing and does not fail. *)
Lemma comprehension_readable (groups : list value) (tr : trace) :
  Forall (readable_group py) groups ->
  exists found,
    comprehension groups (fun rg =>
      score <- lift (ext_score py rg) ;;
      if (score >=? 75)%Z then
        info <- lift (release_group_info rg) ;;
        ret (Some info)
      else ret None)%py tr = (tr, Ret found).
Proof.
  induction 1 as [|rg groups [[score Hscore] [info Hinfo]] _ [found IH]].
  - now exists [].
  - eexists. cbn [comprehension].
    assert (Hstep :
      (score <- lift (ext_score py rg) ;;
       if (score >=? 75)%Z then
         info <- lift (release_group_info rg) ;;
         ret (Some info)
       else ret None)%py tr
      = (tr, Ret (if (score >=? 75)%Z then Some info else None))).
    { rewrite (bind_lift_ret _ _ _ _ Hscore).
      destruct (score >=? 75)%Z; [|reflexivity].
      now rewrite (bind_lift_ret _ _ _ _ Hinfo). }
    rewrite (bind_ret _ _ _ _ _ Hstep), (bind_ret _ _ _ _ _ IH).
    reflexivity.
Qed.

Section Search.
Variables discog_entry release name : value.
Hypothesis Hrelease : getitem discog_entry "release" = Ret release.
Hypothesis Hname : getitem release "name" = Ret name.

(** An artist whose search is inconclusive costs one request and leaves
    the loop running. *)
Lemma search_loop_inconclusive (artist_mbid : value) (rest : list value)
    (rg_results : list value) (tr : trace) :
  inconclusive py mb name artist_mbid ->
  exists rg_results',
    search_loop py mb discog_entry (artist_mbid :: rest) rg_results tr
    = search_loop py mb discog_entry rest rg_results'
        (tr ++ [SearchReleaseGroups name artist_mbid])%list.
Proof.
  intros (first & others & score & (answer & Hsearch & Hlist) & Hread & Hscore & Hle).
  destruct (comprehension_readable (first :: others)
              (tr ++ [SearchReleaseGroups name artist_mbid])%list Hread)
    as [found Hfound].
  exists (rg_results ++ found)%list.
  cbn [search_loop].
  rewrite (bind_lift_ret _ _ _ _ Hrelease), (bind_lift_ret _ _ _ _ Hname).
  rewrite Hsearch, (bind_ret _ _ _ _ _ (call_eq _ _ _)).
  rewrite (bind_lift_ret _ _ _ _ Hlist).
  rewrite (bind_lift_ret _ _ _ _ (eq_refl : list_first (first :: others) = Ret first)).
  rewrite (bind_lift_ret _ _ _ _ Hscore).
  assert (Hgtb : (score >? 95)%Z = false)
    by (rewrite Z.gtb_ltb; apply Z.ltb_ge; lia).
  rewrite Hgtb.
  rewrite (bind_lift_ret _ _ _ _ (eq_refl : as_list (VList (first :: others)) = Ret _)).
  now rewrite (bind_ret _ _ _ _ _ Hfound).
Qed.

Lemma search_loop_past (before rest : list value) (rg_results : list value)
    (tr : trace) :
  Forall (inconclusive py mb name) before ->
  exists rg_results',
    search_loop py mb discog_entry (before ++ rest) rg_results tr
    = search_loop py mb discog_entry rest rg_results'
        (tr ++ map (SearchReleaseGroups name) before)%list.
Proof.
  intros H. revert rg_results tr.
  induction H as [|a before Ha _ IH]; intros rg_results tr.
  - exists rg_results. simpl. now rewrite app_nil_r.
  - destruct (search_loop_inconclusive a (before ++ rest) rg_results tr Ha)
      as [mid Hmid].
    destruct (IH mid (tr ++ [SearchReleaseGroups name a])%list) as [out Hout].
    exists out. simpl app at 1. rewrite Hmid, Hout.
    now rewrite <- app_assoc.
Qed.

(** An artist whose first release group scores above 95 ends the loop. *)
Lemma search_loop_hit (artist_mbid : value) (rest : list value)
    (rg_results : list value) (tr : trace)
    (top : value) (others : list value) (score : Z) (info : value) :
  search_gives mb name artist_mbid (top :: others) ->
  ext_score py top = Ret score -> (score > 95)%Z ->
  release_group_info top = Ret info ->
  search_loop py mb discog_entry (artist_mbid :: rest) rg_results tr
  = ((tr ++ [SearchReleaseGroups name artist_mbid])%list, Ret [info]).
Proof.
  intros (answer & Hsearch & Hlist) Hscore Hgt Hinfo.
  cbn [search_loop].
  rewrite (bind_lift_ret _ _ _ _ Hrelease), (bind_lift_ret _ _ _ _ Hname).
  rewrite Hsearch, (bind_ret _ _ _ _ _ (call_eq _ _ _)).
  rewrite (bind_lift_ret _ _ _ _ Hlist).
  rewrite (bind_lift_ret _ _ _ _ (eq_refl : list_first (top :: others) = Ret top)).
  rewrite (bind_lift_ret _ _ _ _ Hscore).
  assert (Hgtb : (score >? 95)%Z = true)
    by (rewrite Z.gtb_ltb; apply Z.ltb_lt; lia).
  rewrite Hgtb.
  now rewrite (bind_lift_ret _ _ _ _ Hinfo).
Qed.

End Search.

(** In a ranked answer a candidate above 95 puts the first one above 95. *)
Lemma ranked_first_is_best (top : value) (others : list value)
    (rg : value) (score best : Z) :
  ranked py (top :: others) -> In rg (top :: others) ->
  ext_score py rg = Ret score -> (score > 95)%Z ->
  ext_score py top = Ret best -> (best > 95)%Z.
Proof.
  intros Hranked Hin Hscore Hgt Hbest.
  apply In_nth_error in Hin as [j Hj].
  pose proof (Hranked 0%nat j top rg best score (Nat.le_0_l j) eq_refl Hj
                Hbest Hscore).
  lia.
Qed.

(** C3, as the code has it: the search looks at the first release group of
    each artist's answer only.  When the first release group found for some
    artist scores above 95, and the searches for the artists before it were
    inconclusive, the search returns that release group by itself: the
    other candidates are dropped and the artists after it are not searched
    for. *)
Theorem search_short_circuits_on_first_result
    (discog_entry release name : value)
    (before : list value) (artist_mbid : value) (after : list value)
    (top : value) (others : list value) (score : Z) (info : value)
    (tr : trace) :
  getitem discog_entry "release" = Ret release ->
  getitem release "name" = Ret name ->
  Forall (inconclusive py mb name) before ->
  search_gives mb name artist_mbid (top :: others) ->
  ext_score py top = Ret score ->
  (score > 95)%Z ->
  release_group_info top = Ret info ->
  search_release_group_by_artists py mb discog_entry
    (before ++ artist_mbid :: after) tr
  = ((tr ++ map (SearchReleaseGroups name) (before ++ [artist_mbid]))%list,
     Ret [info]).
Proof.
  intros Hrelease Hname Hbefore Hsearch Hscore Hgt Hinfo.
  unfold search_release_group_by_artists.
  destruct (search_loop_past _ _ _ Hrelease Hname before
              (artist_mbid :: after) [] tr Hbefore) as [mid ->].
  rewrite (search_loop_hit _ _ _ Hrelease Hname artist_mbid after mid _
             top others score info Hsearch Hscore Hgt Hinfo).
  now rewrite map_app, app_assoc.
Qed.

(** A lookup answered with an error response is a miss, not an error. *)
Lemma lookup_mbid_miss (u type_name : string) (tr : trace) :
  browse_urls mb (discog_api_url_to_www py u) [type_name ++ "-rels"]
    = Raise ResponseError ->
  lookup_mbid_by_discog_url py mb (VStr u) type_name tr
  = ((tr ++ [BrowseUrls (discog_api_url_to_www py u)
                        [(type_name ++ "-rels")%string]])%list,
     Ret VNone).
Proof.
  intros H. unfold lookup_mbid_by_discog_url, bind, lift, emit, modify, ret.
  cbn. now rewrite H.
Qed.

(** The candidates kept by the search have no score any more: sorting
    them by score fails as soon as there is one. *)
Lemma sorted_candidates_raise (rg info : value) (rest : list value) :
  release_group_info rg = Ret info ->
  sorted_desc (ext_score py) (info :: rest) = Raise (KeyError "ext:score").
Proof.
  unfold release_group_info. intros H.
  destruct (getitem rg "title"); try discriminate.
  destruct (getitem rg "artist-credit-phrase"); try discriminate.
  destruct (getitem rg "id"); try discriminate.
  injection H as <-. reflexivity.
Qed.

(** Every artist of the record has an entry in the list of identifiers,
    resolved or not. *)
Lemma lookup_artist_mbids_keeps_all (discog_entry : value)
    (artists ids : list value) (tr tr' : trace) :
  getitem discog_entry "artists" = Ret (VList artists) ->
  lookup_artist_mbids py mb discog_entry tr = (tr', Ret ids) ->
  List.length ids = List.length artists.
Proof.
  intros Hartists. unfold lookup_artist_mbids.
  rewrite (bind_lift_ret _ _ _ _ Hartists).
  rewrite (bind_lift_ret _ _ _ _ (eq_refl : as_list (VList artists) = Ret artists)).
  clear Hartists. revert ids tr tr'.
  induction artists as [|a artists IH]; intros ids tr tr'; cbn [comprehension].
  - intros [= _ <-]. reflexivity.
  - intros Hrun.
    apply bind_inv in Hrun as (o & tr1 & Hhead & Hrun).
    apply bind_inv in Hrun as (ys & tr2 & Htail & Hrun).
    apply bind_inv in Hhead as (url & tr3 & _ & Hhead).
    apply bind_inv in Hhead as (mbid & tr4 & _ & Hhead).
    injection Hhead as _ <-. injection Hrun as _ <-.
    simpl. f_equal. exact (IH _ _ _ Htail).
Qed.

(** *** The log is write-only *)

Lemma oblivious_bind {A B : Type} (m : L A) (f : A -> L B) :
  oblivious m -> (forall a, oblivious (f a)) -> oblivious (bind m f).
Proof.
  intros Hm Hf tr tr'. unfold bind. specialize (Hm tr tr').
  destruct (m tr) as [tr1 o], (m tr') as [tr1' o']. simpl in Hm. subst o'.
  destruct o; [apply Hf|reflexivity|reflexivity].
Qed.

Lemma oblivious_lift {A : Type} (o : outcome A) : oblivious (lift o).
Proof. now intros tr tr'. Qed.

Lemma oblivious_ret {A : Type} (a : A) : oblivious (ret a : L A).
Proof. now intros tr tr'. Qed.

Lemma oblivious_emit (e : event) : oblivious (emit e).
Proof. now intros tr tr'. Qed.

Lemma oblivious_call {A : Type} (e : event) (answer : outcome A) :
  oblivious (call e answer).
Proof. now intros tr tr'. Qed.

Lemma oblivious_for_each {A : Type} (l : list A) (body : A -> L unit) :
  (forall a, oblivious (body a)) -> oblivious (for_each l body).
Proof.
  intros Hbody. induction l as [|x l IH]; cbn [for_each].
  - apply oblivious_ret.
  - apply oblivious_bind; [apply Hbody|intros _; exact IH].
Qed.

Lemma oblivious_comprehension {A B : Type} (l : list A) (f : A -> L (option B)) :
  (forall a, oblivious (f a)) -> oblivious (comprehension l f).
Proof.
  intros Hf. induction l as [|x l IH]; cbn [comprehension].
  - apply oblivious_ret.
  - apply oblivious_bind; [apply Hf|intros o].
    apply oblivious_bind; [exact IH|intros ys]. apply oblivious_ret.
Qed.

Ltac oblivious_step :=
  first [ apply oblivious_lift | apply oblivious_ret | apply oblivious_emit
        | apply oblivious_call
        | apply oblivious_bind; [|intros ?]
        | apply oblivious_for_each; intros ?
        | apply oblivious_comprehension; intros ?
        | match goal with
          | |- oblivious (if ?b then _ else _) => destruct b
          | |- oblivious (match ?x with _ => _ end) => destruct x
          end ].

Lemma oblivious_lookup_mbid (url : value) (type_name : string) :
  oblivious (lookup_mbid_by_discog_url py mb url type_name).
Proof. intros tr tr'. apply lookup_mbid_answer. Qed.

Lemma oblivious_search_loop (discog_entry : value) (artist_mbids rg_results : list value) :
  oblivious (search_loop py mb discog_entry artist_mbids rg_results).
Proof.
  revert rg_results.
  induction artist_mbids as [|a rest IH]; intros rg_results; cbn [search_loop].
  - apply oblivious_lift.
  - repeat first [apply IH | oblivious_step].
Qed.

Lemma lookup_master_answer (discog_entry : value) :
  oblivious (lookup_master_mbid py mb discog_entry).
Proof.
  unfold lookup_master_mbid, _get_master_mbid, lookup_release_mbid,
    lookup_artist_mbids, search_release_group_by_artists, print.
  repeat first [ apply oblivious_lookup_mbid | apply oblivious_search_loop
               | oblivious_step ].
Qed.

(** *** Ratings *)

Lemma key_eqb_eq (a b : value) : key_eqb a b = true -> a = b.
Proof.
  destruct a, b; simpl; try discriminate; intros H.
  - reflexivity.
  - now apply String.eqb_eq in H; subst.
  - now apply Z.eqb_eq in H; subst.
Qed.

Lemma key_eqb_refl (k : value) : hashable k = true -> key_eqb k k = true.
Proof.
  destruct k; simpl; try discriminate; intros _.
  - reflexivity.
  - apply String.eqb_refl.
  - apply Z.eqb_refl.
Qed.

Lemma dict_lookup_update_same {V : Type} (d : list (value * V)) (k : value) (v : V) :
  hashable k = true -> dict_lookup (dict_update d k v) k = Some v.
Proof.
  intros Hk. induction d as [|[k' v'] d IH]; simpl.
  - now rewrite key_eqb_refl.
  - destruct (key_eqb k' k) eqn:E; simpl; now rewrite E.
Qed.

Lemma dict_lookup_update_other {V : Type} (d : list (value * V)) (k id : value)
    (v : V) :
  key_eqb k id = false ->
  dict_lookup (dict_update d k v) id = dict_lookup d id.
Proof.
  intros Hk. induction d as [|[k' v'] d IH]; simpl.
  - now rewrite Hk.
  - destruct (key_eqb k' k) eqn:E; simpl.
    + apply key_eqb_eq in E. subst k'. now rewrite Hk.
    + now rewrite IH.
Qed.

Lemma resolves_to_functional (entry id id' : value) :
  resolves_to py mb entry id -> resolves_to py mb entry id' -> id = id'.
Proof.
  intros H H'. specialize (H []). specialize (H' []).
  rewrite H in H'. now injection H'.
Qed.

(** Every rateable record is processed: the comprehension returns. *)
Lemma ratings_loop_returns (entries : list value) :
  Forall (rateable py mb) entries ->
  forall ratings tr,
  exists tr' out, ratings_loop py mb entries ratings tr = (tr', Ret out).
Proof.
  induction 1 as [|entry entries (id & Hid & Hrest) _ IH]; intros ratings tr.
  - now exists tr, ratings.
  - cbn [ratings_loop].
    specialize (Hid tr).
    destruct (lookup_master_mbid py mb entry tr) as [tr1 o] eqn:E.
    simpl in Hid. subst o.
    rewrite (bind_ret _ _ _ _ _ E).
    destruct (truthy id) eqn:T; [|apply IH].
    destruct (Hrest eq_refl) as (Hhash & stars & rating & Hrating & Hstars).
    rewrite (bind_lift_ret _ _ _ _ Hrating), (bind_lift_ret _ _ _ _ Hstars).
    unfold dict_set. rewrite Hhash.
    rewrite (bind_lift_ret _ _ _ _ eq_refl). apply IH.
Qed.

(** Records that resolve to other identifiers leave the rating of [id]
    alone. *)
Lemma ratings_loop_frame (id : value) (entries : list value) :
  (forall later id', In later entries ->
     resolves_to py mb later id' -> key_eqb id' id = false) ->
  forall ratings tr tr' out,
  ratings_loop py mb entries ratings tr = (tr', Ret out) ->
  dict_lookup out id = dict_lookup ratings id.
Proof.
  induction entries as [|entry entries IH]; intros Hother ratings tr tr' out.
  - cbn. intros [= _ <-]. reflexivity.
  - cbn [ratings_loop]. intros Hrun.
    apply bind_inv in Hrun as (id' & tr1 & Hlookup & Hrun).
    assert (Hres : resolves_to py mb entry id').
    { intros tr0.
      pose proof (lookup_master_answer entry tr tr0) as Hsame.
      rewrite Hlookup in Hsame. now rewrite <- Hsame. }
    assert (IH' := IH (fun later i Hin => Hother later i (or_intror Hin))).
    destruct (truthy id').
    + apply bind_inv in Hrun as (rating & tr2 & Hr & Hrun).
      apply bind_inv in Hrun as (stars & tr3 & Hs & Hrun).
      apply bind_inv in Hrun as (ratings' & tr4 & Hset & Hrun).
      unfold lift, dict_set in Hset.
      destruct (hashable id'); [|discriminate].
      injection Hset as _ <-.
      rewrite (IH' _ _ _ _ Hrun).
      apply dict_lookup_update_other, (Hother entry id'); [now left|exact Hres].
    + exact (IH' _ _ _ _ Hrun).
Qed.

(** The last record resolving to [id] decides the rating of [id]. *)
Lemma ratings_loop_last (before : list value) (entry : value)
    (after : list value) (id : value) (stars : Z) :
  resolves_to py mb entry id -> truthy id = true ->
  stars_of py entry stars ->
  (forall later id', In later after ->
     resolves_to py mb later id' -> key_eqb id' id = false) ->
  forall ratings tr tr' out,
  ratings_loop py mb (before ++ entry :: after) ratings tr = (tr', Ret out) ->
  dict_lookup out id = Some (stars * 20)%Z.
Proof.
  intros Hid Htruthy (rating & Hrating & Hstars) Hafter.
  induction before as [|e before IH]; intros ratings tr tr' out;
    cbn [app ratings_loop]; intros Hrun;
    apply bind_inv in Hrun as (id0 & tr1 & Hlookup & Hrun).
  - specialize (Hid tr). rewrite Hlookup in Hid. simpl in Hid.
    injection Hid as ->. rewrite Htruthy in Hrun.
    rewrite (bind_lift_ret _ _ _ _ Hrating), (bind_lift_ret _ _ _ _ Hstars) in Hrun.
    apply bind_inv in Hrun as (ratings' & tr2 & Hset & Hrun).
    unfold lift, dict_set in Hset.
    destruct (hashable id) eqn:Hhash; [|discriminate].
    injection Hset as _ <-.
    rewrite (ratings_loop_frame id after Hafter _ _ _ _ Hrun).
    now apply dict_lookup_update_same.
  - destruct (truthy id0); [|exact (IH _ _ _ _ Hrun)].
    apply bind_inv in Hrun as (rating0 & tr2 & _ & Hrun).
    apply bind_inv in Hrun as (stars0 & tr3 & _ & Hrun).
    apply bind_inv in Hrun as (ratings' & tr4 & _ & Hrun).
    exact (IH _ _ _ _ Hrun).
Qed.

(** C7, as the code has it: the ratings are collected in a dict keyed by
    target identifier, so of several records resolving to one identifier
    the last one wins.  When every record of the ratings file gets through,
    the ratings are submitted in one request, and for a record that
    resolves to an identifier no later record resolves to, the rating
    submitted for that identifier is the source rating times 20. *)
Theorem import_ratings_scales_by_20
    (import_dir : string) (entries : list value) (tr : trace) :
  read_json (os_path_join import_dir "release-ratings.json")
    = Ret (VList entries) ->
  Forall (rateable py mb) entries ->
  exists tr' submitted,
    fst (import_ratings py mb read_json import_dir tr)
      = (tr' ++ [SubmitRatings submitted])%list
    /\ forall before entry after id stars,
         entries = (before ++ entry :: after)%list ->
         resolves_to py mb entry id -> truthy id = true ->
         stars_of py entry stars ->
         (forall later id', In later after ->
            resolves_to py mb later id' -> key_eqb id' id = false) ->
         dict_lookup submitted id = Some (stars * 20)%Z.
Proof.
  intros Hfile Hentries.
  destruct (ratings_loop_returns entries Hentries [] tr) as (tr' & out & Hrun).
  exists tr', out. split.
  - unfold import_ratings, load_discogs_releases.
    rewrite (bind_lift_ret _ _ _ _ Hfile).
    rewrite (bind_lift_ret _ _ _ _ (eq_refl : as_list (VList entries) = Ret entries)).
    rewrite (bind_ret _ _ _ _ _ Hrun).
    unfold bind, call, emit, modify, lift. simpl.
    now destruct (submit_ratings mb out).
  - intros before entry after id stars -> Hid Htruthy Hstars Hafter.
    exact (ratings_loop_last before entry after id stars Hid Htruthy Hstars
             Hafter _ _ _ _ Hrun).
Qed.

End Cascade.

(* ===================================================================== *)
(** ** The loader on concrete records                                     *)
(* ===================================================================== *)

Section LoaderRuns.
Import Py LoadIntoMusicbrainz Samples LoaderSamples LoaderVocabulary.

Lemma master_link_witness :
  getitem with_master "release"
    = Ret (VDict [("name", VStr "Album");
                  ("url", VStr "https://api.discogs.com/releases/5");
                  ("master_url", VStr "https://api.discogs.com/masters/77")])
  /\ truthy (VStr "rg-77") = true
  /\ lookup_master_mbid python master_known with_master []
     = ([BrowseUrls "https://www.discogs.com/master/77" ["release-group-rels"]],
        Ret (VStr "rg-77")).
Proof.
  split; [reflexivity|split; [reflexivity|]].
  apply (master_link_short_circuits python master_known with_master
           (VDict [("name", VStr "Album");
                   ("url", VStr "https://api.discogs.com/releases/5");
                   ("master_url", VStr "https://api.discogs.com/masters/77")])
           (VStr "rg-77") "https://api.discogs.com/masters/77" []);
    try reflexivity.
  discriminate.
Defined.

(** C3, the claim as stated fails: an answer listing the scores 92, 78, 96
    in this order has a candidate above 95, and the search does not return
    it. *)
Lemma candidate_above_95_not_returned :
  let groups := [candidate "92"; candidate "78"; candidate "96"] in
  map (ext_score python) groups = [Ret 92%Z; Ret 78%Z; Ret 96%Z]
  /\ release_group_info (candidate "96")
     = Ret (VDict [("name", VStr "Album"); ("artist", VStr "Artist");
                   ("id", VStr "rg-96")])
  /\ search_release_group_by_artists python (searching groups) album
       [VStr "ar-1"] []
     = ([SearchReleaseGroups (VStr "Album") (VStr "ar-1")],
        Raise (KeyError "ext:score"))
  /\ snd (search_release_group_by_artists python (searching groups) album
            [VStr "ar-1"] [])
     <> Ret [VDict [("name", VStr "Album"); ("artist", VStr "Artist");
                    ("id", VStr "rg-96")]].
Proof.
  repeat split; try reflexivity. vm_compute. discriminate.
Qed.

Lemma search_short_circuit_witness :
  Forall (inconclusive python two_artists (VStr "Album")) [VStr "ar-0"]
  /\ search_release_group_by_artists python two_artists album
       [VStr "ar-0"; VStr "ar-1"; VStr "ar-2"] []
     = ([SearchReleaseGroups (VStr "Album") (VStr "ar-0");
         SearchReleaseGroups (VStr "Album") (VStr "ar-1")],
        Ret [VDict [("name", VStr "Album"); ("artist", VStr "Artist");
                    ("id", VStr "rg-96")]]).
Proof.
  assert (H : Forall (inconclusive python two_artists (VStr "Album")) [VStr "ar-0"]).
  { constructor; [|constructor].
    exists (candidate "92"), [candidate "78"], 92%Z.
    split; [|split; [|split; [reflexivity|lia]]].
    - eexists. split; reflexivity.
    - repeat constructor; eexists; reflexivity. }
  split; [exact H|].
  apply (search_short_circuits_on_first_result python two_artists album
           (VDict [("name", VStr "Album");
                   ("url", VStr "https://www.discogs.com/release/5")])
           (VStr "Album") [VStr "ar-0"] (VStr "ar-1") [VStr "ar-2"]
           (candidate "96") [candidate "80"] 96%Z
           (VDict [("name", VStr "Album"); ("artist", VStr "Artist");
                   ("id", VStr "rg-96")]) []);
    try reflexivity; try exact H; try lia.
  eexists. split; reflexivity.
Defined.

(** C4, on the code: the candidates kept by the search are sorted by a
    score they no longer carry.  One candidate scoring 80 is not accepted,
    and two candidates scoring 80 and 82 are not printed: in both cases the
    cascade ends in [KeyError] on "ext:score", with nothing printed. *)
Theorem qualifying_candidates_end_in_key_error :
  lookup_master_mbid python (searching [candidate "80"]) album []
  = ([BrowseUrls "https://www.discogs.com/release/5" ["release-rels"];
      BrowseUrls "https://www.discogs.com/artist/1" ["artist-rels"];
      SearchReleaseGroups (VStr "Album") (VStr "ar-1")],
     Raise (KeyError "ext:score"))
  /\ lookup_master_mbid python (searching [candidate "82"; candidate "80"])
       album []
     = ([BrowseUrls "https://www.discogs.com/release/5" ["release-rels"];
         BrowseUrls "https://www.discogs.com/artist/1" ["artist-rels"];
         SearchReleaseGroups (VStr "Album") (VStr "ar-1")],
        Raise (KeyError "ext:score")).
Proof. split; reflexivity. Qed.

(** C5, on the code: an artist whose lookup fails stays in the list of
    identifiers as [None], and the title is searched for with [arid=None]
    before the search by the artist that did resolve. *)
Theorem unresolved_artist_is_searched :
  lookup_artist_mbids python one_known duo []
  = ([BrowseUrls "https://www.discogs.com/artist/2" ["artist-rels"];
      BrowseUrls "https://www.discogs.com/artist/1" ["artist-rels"]],
     Ret [VNone; VStr "ar-1"])
  /\ lookup_master_mbid python one_known duo []
     = ([BrowseUrls "https://www.discogs.com/release/5" ["release-rels"];
         BrowseUrls "https://www.discogs.com/artist/2" ["artist-rels"];
         BrowseUrls "https://www.discogs.com/artist/1" ["artist-rels"];
         SearchReleaseGroups (VStr "Album") VNone;
         SearchReleaseGroups (VStr "Album") (VStr "ar-1")],
        Ret (VStr "rg-100")).
Proof. split; reflexivity. Qed.

(** C8, on the code: the external-link lookups that miss are passed over
    (the release lookup below is answered 404 and the cascade goes on), but
    a search that finds nothing raises [IndexError], and a record for which
    every strategy misses ends in [KeyError] on "artist" where the
    candidates are announced. *)
Theorem search_miss_raises :
  lookup_master_mbid python (server [artist_link] [] []) album []
  = ([BrowseUrls "https://www.discogs.com/release/5" ["release-rels"];
      BrowseUrls "https://www.discogs.com/artist/1" ["artist-rels"];
      SearchReleaseGroups (VStr "Album") (VStr "ar-1")],
     Raise IndexError)
  /\ lookup_master_mbid python quiet_server
       (rated [] "Album" "https://www.discogs.com/release/5" "4") []
     = ([BrowseUrls "https://www.discogs.com/release/5" ["release-rels"]],
        Raise (KeyError "artist"))
  /\ lookup_master_mbid python (searching [candidate "60"]) album []
     = ([BrowseUrls "https://www.discogs.com/release/5" ["release-rels"];
         BrowseUrls "https://www.discogs.com/artist/1" ["artist-rels"];
         SearchReleaseGroups (VStr "Album") (VStr "ar-1")],
        Raise (KeyError "artist")).
Proof. repeat split; reflexivity. Qed.

(** C7, the claim as stated fails: two pressings of one album rated 4 and 5
    resolve to the same release group; one rating is submitted for it, 100,
    and the 80 of the first record is not. *)
Lemma earlier_rating_is_overwritten :
  snd (lookup_master_mbid python pressings_known pressing_4 [])
    = Ret (VStr "rg-9")
  /\ getitem pressing_4 "rating" = Ret (VStr "4")
  /\ exists tr',
       fst (import_ratings python pressings_known
              (ratings_file [pressing_4; pressing_5]) "export" [])
         = (tr' ++ [SubmitRatings [(VStr "rg-9", 100%Z)]])%list
       /\ dict_lookup [(VStr "rg-9", 100%Z)] (VStr "rg-9") <> Some (4 * 20)%Z.
Proof.
  split; [reflexivity|split; [reflexivity|]].
  exists [BrowseUrls "https://www.discogs.com/release/5" ["release-rels"];
          GetReleaseById (VStr "rel-5") ["release-groups"];
          BrowseUrls "https://www.discogs.com/release/6" ["release-rels"];
          GetReleaseById (VStr "rel-6") ["release-groups"]].
  split; [reflexivity|vm_compute; discriminate].
Qed.

Lemma import_ratings_witness :
  ratings_file [single_3; pressing_4]
    (os_path_join "export" "release-ratings.json")
    = Ret (VList [single_3; pressing_4])
  /\ Forall (rateable python pressings_known) [single_3; pressing_4]
  /\ exists tr' submitted,
       fst (import_ratings python pressings_known
              (ratings_file [single_3; pressing_4]) "export" [])
         = (tr' ++ [SubmitRatings submitted])%list
       /\ dict_lookup submitted (VStr "rg-9") = Some 80%Z.
Proof.
  assert (H3 : resolves_to python pressings_known single_3 (VStr "rg-3"))
    by (intros tr; reflexivity).
  assert (H4 : resolves_to python pressings_known pressing_4 (VStr "rg-9"))
    by (intros tr; reflexivity).
  assert (Hall : Forall (rateable python pressings_known) [single_3; pressing_4]).
  { constructor; [|constructor; [|constructor]].
    - exists (VStr "rg-3"). split; [exact H3|intros _].
      split; [reflexivity|]. exists 3%Z, (VStr "3"). now split.
    - exists (VStr "rg-9"). split; [exact H4|intros _].
      split; [reflexivity|]. exists 4%Z, (VStr "4"). now split. }
  split; [reflexivity|split; [exact Hall|]].
  destruct (import_ratings_scales_by_20 python pressings_known
              (ratings_file [single_3; pressing_4]) "export"
              [single_3; pressing_4] [] eq_refl Hall)
    as (tr' & submitted & Htrace & Hlast).
  exists tr', submitted. split; [exact Htrace|].
  apply (Hlast [single_3] pressing_4 [] (VStr "rg-9") 4%Z);
    [reflexivity|exact H4|reflexivity| |intros later id' []].
  exists (VStr "4"). now split.
Defined.

End LoaderRuns.

(* ===================================================================== *)
(** ** The exporter: pagination                                           *)
(* ===================================================================== *)

Section Pagination.
Import Py ExportFromDiscogs ExporterVocabulary.

Lemma send_eq {A : Type} (r : request) (answer : outcome A) (st : state) :
  send r answer st = (after_requests st [r], answer).
Proof. reflexivity. Qed.

Lemma after_requests_app (st : state) (rs rs' : list request) :
  after_requests (after_requests st rs) rs' = after_requests st (rs ++ rs').
Proof. unfold after_requests. simpl. now rewrite app_assoc. Qed.

Lemma next_page (n : nat) : (Z.of_nat n + 1)%Z = Z.of_nat (S n).
Proof. lia. Qed.

Section Html.
Context {T A : Type}.
Variable username : value.
Variable req : value -> Z -> request.
Variable answer : value -> Z -> outcome T.
Variable parse : T -> outcome (list A).

(** The loop from page [k + 1] on, over the pages still to come. *)
Lemma html_loop (pages : list (list A)) :
  forall (k fuel : nat) (all_items : list A) (st : state),
  (forall i page, nth_error pages i = Some page ->
     page <> []
     /\ exists text, answer username (Z.of_nat (S (k + i))) = Ret text
                     /\ parse text = Ret page) ->
  (exists text, answer username (Z.of_nat (S (k + List.length pages))) = Ret text
                /\ parse text = Ret []) ->
  (List.length pages < fuel)%nat ->
  DiscogsHtmlClient.iter_pages_loop fuel username
    (fun u n => send (req u n) (answer u n)) (fun text => lift (parse text))
    all_items (Z.of_nat (S k)) st
  = (after_requests st
       (page_requests (req username) (S k) (S (List.length pages))),
     Ret (all_items ++ List.concat pages)%list).
Proof.
  induction pages as [|page pages IH]; intros k fuel all_items st Hpages Hlast Hfuel;
    (destruct fuel as [|fuel]; [simpl in Hfuel; lia|]);
    cbn [DiscogsHtmlClient.iter_pages_loop].
  - destruct Hlast as (text & Hanswer & Hparse).
    cbn [List.length] in Hanswer. rewrite Nat.add_0_r in Hanswer.
    rewrite Hanswer, (bind_ret _ _ _ _ _ (send_eq _ _ _)).
    rewrite (bind_lift_ret _ _ _ _ Hparse).
    unfold ret, page_requests. cbn [List.length seq map List.concat].
    now rewrite app_nil_r.
  - destruct (Hpages 0%nat page eq_refl) as (Hnonempty & text & Hanswer & Hparse).
    rewrite Nat.add_0_r in Hanswer.
    rewrite Hanswer, (bind_ret _ _ _ _ _ (send_eq _ _ _)).
    rewrite (bind_lift_ret _ _ _ _ Hparse).
    destruct page as [|item page]; [congruence|].
    rewrite next_page, (IH (S k) fuel).
    + rewrite after_requests_app. simpl. now rewrite <- app_assoc.
    + intros i p Hp. rewrite Nat.add_succ_l, <- Nat.add_succ_r.
      exact (Hpages (S i) p Hp).
    + simpl in Hlast. now rewrite Nat.add_succ_l, <- Nat.add_succ_r.
    + simpl in Hfuel. lia.
Qed.

Lemma html_iter_pages (pages : list (list A)) (fuel : nat) (st : state) :
  html_listing (answer username) parse pages ->
  (List.length pages < fuel)%nat ->
  DiscogsHtmlClient._iter_pages fuel username
    (fun u n => send (req u n) (answer u n)) (fun text => lift (parse text)) st
  = (after_requests st
       (page_requests (req username) 1 (S (List.length pages))),
     Ret (List.concat pages)).
Proof.
  intros [Hpages Hlast] Hfuel. unfold DiscogsHtmlClient._iter_pages.
  exact (html_loop pages 0 fuel [] st Hpages Hlast Hfuel).
Qed.

End Html.

Section Rest.
Variable username : value.
Variable req : value -> Z -> request.
Variable answer : value -> Z -> outcome value.
Variable root_key : string.

Lemma rest_loop (pages : list (list value)) (total : nat) :
  forall (k fuel : nat) (yielded : list value) (st : state),
  pages <> [] ->
  total = (k + List.length pages)%nat ->
  (forall i page, nth_error pages i = Some page ->
     exists resp_json pagination,
       answer username (Z.of_nat (S (k + i))) = Ret resp_json
       /\ getitem resp_json root_key = Ret (VList page)
       /\ getitem resp_json "pagination" = Ret pagination
       /\ getitem pagination "pages" = Ret (VInt (Z.of_nat total))) ->
  (List.length pages <= fuel)%nat ->
  DiscogsRestClient.iter_pages_loop fuel username
    (fun u n => send (req u n) (answer u n)) root_key yielded (Z.of_nat (S k)) st
  = (after_requests st (page_requests (req username) (S k) (List.length pages)),
     Ret (yielded ++ List.concat pages)%list).
Proof.
  induction pages as [|page pages IH]; intros k fuel yielded st Hne Htotal Hpages Hfuel;
    [congruence|].
  destruct fuel as [|fuel]; [simpl in Hfuel; lia|].
  cbn [DiscogsRestClient.iter_pages_loop].
  destruct (Hpages 0%nat page eq_refl)
    as (resp_json & pagination & Hanswer & Hentries & Hpagination & Hcount).
  rewrite Nat.add_0_r in Hanswer.
  rewrite Hanswer, (bind_ret _ _ _ _ _ (send_eq _ _ _)).
  rewrite (bind_lift_ret _ _ _ _ Hentries).
  rewrite (bind_lift_ret _ _ _ _ (eq_refl : as_list (VList page) = Ret page)).
  rewrite (bind_lift_ret _ _ _ _ Hpagination), (bind_lift_ret _ _ _ _ Hcount).
  cbn [key_eqb].
  destruct pages as [|page' pages].
  - assert (Hstop : (Z.of_nat (S k) =? Z.of_nat total)%Z = true)
      by (apply Z.eqb_eq; simpl in Htotal; lia).
    rewrite Hstop. simpl. now rewrite app_nil_r.
  - assert (Hgo : (Z.of_nat (S k) =? Z.of_nat total)%Z = false)
      by (apply Z.eqb_neq; simpl in Htotal; lia).
    rewrite Hgo, next_page, (IH (S k) fuel).
    + rewrite after_requests_app. cbn [List.concat]. now rewrite <- app_assoc.
    + discriminate.
    + simpl in *. lia.
    + intros i p Hp. rewrite Nat.add_succ_l, <- Nat.add_succ_r.
      exact (Hpages (S i) p Hp).
    + simpl in *. lia.
Qed.

Lemma rest_iter_pages (pages : list (list value)) (fuel : nat) (st : state) :
  pages <> [] ->
  rest_listing (answer username) root_key pages ->
  (List.length pages <= fuel)%nat ->
  DiscogsRestClient._iter_pages fuel username
    (fun u n => send (req u n) (answer u n)) root_key st
  = (after_requests st (page_requests (req username) 1 (List.length pages)),
     Ret (List.concat pages)).
Proof.
  intros Hne Hpages Hfuel. unfold DiscogsRestClient._iter_pages.
  exact (rest_loop pages (List.length pages) 0 fuel [] st Hne eq_refl Hpages Hfuel).
Qed.

End Rest.

(** C9: both pagination loops start at page 1 and ask for the pages one
    after the other.  The HTML loop stops at the first page without rows,
    the REST loop at the page whose number is the page count the answers
    report; both return the items of all pages, concatenated in page and
    row order. *)
Theorem iter_pages_flatten_in_order :
  (forall (T A : Type) (username : value) (req : value -> Z -> request)
          (answer : value -> Z -> outcome T) (parse : T -> outcome (list A))
          (pages : list (list A)) (fuel : nat) (st : state),
      html_listing (answer username) parse pages ->
      (List.length pages < fuel)%nat ->
      DiscogsHtmlClient._iter_pages fuel username
        (fun u n => send (req u n) (answer u n)) (fun text => lift (parse text)) st
      = (after_requests st
           (page_requests (req username) 1 (S (List.length pages))),
         Ret (List.concat pages)))
  /\ (forall (username : value) (req : value -> Z -> request)
             (answer : value -> Z -> outcome value) (root_key : string)
             (pages : list (list value)) (fuel : nat) (st : state),
      pages <> [] ->
      rest_listing (answer username) root_key pages ->
      (List.length pages <= fuel)%nat ->
      DiscogsRestClient._iter_pages fuel username
        (fun u n => send (req u n) (answer u n)) root_key st
      = (after_requests st
           (page_requests (req username) 1 (List.length pages)),
         Ret (List.concat pages))).
Proof.
  split.
  - intros. now apply html_iter_pages.
  - intros. now apply rest_iter_pages.
Qed.

End Pagination.

Section PaginationRuns.
Import Py ExportFromDiscogs ExporterVocabulary ExporterSamples.

Lemma iter_pages_witness :
  html_listing (ratings_page small_site me)
    (DiscogsHtmlClient._parse_release_ratings_html small_site)
    [scraped_ratings]
  /\ rest_listing (list_collection small_site me) "releases"
       [[release_entry "A"; release_entry "B"]; [release_entry "C"]]
  /\ snd (DiscogsHtmlClient._iter_pages 2 me
            (fun u n => send (GetRatings u n) (ratings_page small_site u n))
            (fun text =>
               lift (DiscogsHtmlClient._parse_release_ratings_html small_site text))
            fresh)
     = Ret scraped_ratings
  /\ DiscogsRestClient._collection small_site 2 me fresh
     = ({| sent := [GetCollection me 1; GetCollection me 2]; files := [] |},
        Ret [release_entry "A"; release_entry "B"; release_entry "C"]).
Proof.
  assert (Hhtml : html_listing (ratings_page small_site me)
            (DiscogsHtmlClient._parse_release_ratings_html small_site)
            [scraped_ratings]).
  { split.
    - intros [|[|i]] page Hpage; try discriminate.
      injection Hpage as <-. split; [discriminate|].
      exists "<table>two rows</table>". split; reflexivity.
    - exists "<table></table>". split; reflexivity. }
  assert (Hrest : rest_listing (list_collection small_site me) "releases"
            [[release_entry "A"; release_entry "B"]; [release_entry "C"]]).
  { intros [|[|[|i]]] page Hpage; try discriminate; injection Hpage as <-.
    - exists (collection_page [release_entry "A"; release_entry "B"] 2),
        (VDict [("page", VInt 1); ("pages", VInt 2)]).
      repeat split; reflexivity.
    - exists (collection_page [release_entry "C"] 2),
        (VDict [("page", VInt 1); ("pages", VInt 2)]).
      repeat split; reflexivity. }
  split; [exact Hhtml|split; [exact Hrest|split]].
  - rewrite (proj1 iter_pages_flatten_in_order string value me GetRatings
               (ratings_page small_site)
               (DiscogsHtmlClient._parse_release_ratings_html small_site)
               _ 2 fresh Hhtml); [reflexivity|simpl; lia].
  - unfold DiscogsRestClient._collection.
    rewrite (proj2 iter_pages_flatten_in_order me GetCollection
               (list_collection small_site) "releases"
               [[release_entry "A"; release_entry "B"]; [release_entry "C"]]
               2 fresh);
      [reflexivity|discriminate|exact Hrest|simpl; lia].
Defined.

End PaginationRuns.

(* ===================================================================== *)
(** ** The exporter: the master URL of rated releases                     *)
(* ===================================================================== *)

Section MasterUrl.
Import Py ExportFromDiscogs ExporterVocabulary.
Variable py : Builtins.
Variable site : Discogs.

Lemma parse_rows_scraped (rows : list row) :
  forall info, DiscogsHtmlClient.parse_rows rows = Ret info ->
  Forall scraped info.
Proof.
  induction rows as [|r rows IH]; intros info; cbn [DiscogsHtmlClient.parse_rows].
  - intros [= <-]. constructor.
  - destruct (list_last (rating_tags r)) as [rating_tag| |]; try discriminate.
    unfold DiscogsHtmlClient._parse_release_info.
    destruct (list_last (release_anchors r)) as [release_anchor| |];
      try discriminate.
    destruct (assoc "data-value" rating_tag) as [rating|]; try discriminate.
    destruct (DiscogsHtmlClient.parse_rows rows) as [rest| |]; try discriminate.
    intros [= <-]. constructor; [|now apply IH].
    now eexists _, _, _, _.
Qed.

(** Whatever the loop returns was parsed from some page. *)
Lemma iter_pages_loop_scraped (fuel : nat) (username : value) :
  forall (all_items : list value) (pagenum : Z) (st st' : state) (out : list value),
  Forall scraped all_items ->
  DiscogsHtmlClient.iter_pages_loop fuel username
    (fun u n => send (GetRatings u n) (ratings_page site u n))
    (fun html => lift (DiscogsHtmlClient._parse_release_ratings_html site html))
    all_items pagenum st = (st', Ret out) ->
  Forall scraped out.
Proof.
  induction fuel as [|fuel IH]; intros all_items pagenum st st' out Hall;
    cbn [DiscogsHtmlClient.iter_pages_loop]; [discriminate|].
  intros Hrun.
  apply bind_inv in Hrun as (page_text & st1 & _ & Hrun).
  apply bind_inv in Hrun as (page_items & st2 & Hparse & Hrun).
  injection Hparse as _ Hparse.
  apply parse_rows_scraped in Hparse.
  destruct page_items as [|item page_items].
  - injection Hrun as _ <-. exact Hall.
  - apply (IH _ _ _ _ _ (proj2 (Forall_app _ _ _) (conj Hall Hparse)) Hrun).
Qed.

Lemma list_last_split (c : ascii) (s : string) :
  exists piece, list_last (split c s) = Ret piece.
Proof.
  pose proof (split_nonempty c s) as H.
  induction (split c s) as [|p ps IH]; [congruence|].
  destruct ps as [|q ps]; [now exists p|].
  apply IH. discriminate.
Qed.

Lemma load_json_eq (path : string) (v : value) (st : state) :
  assoc path (files st) = Some v -> load_json path st = (st, Ret v).
Proof. intros H. unfold load_json, bind, gets. now rewrite H. Qed.

(** The helper stops at the name [rest_client], which is neither a local
    of the function nor bound at module level. *)
Lemma get_master_url_raises (release_info : value) (st : state) :
  scraped release_info ->
  _get_master_url py site release_info st = (st, Raise (NameError "rest_client")).
Proof.
  intros (artists & name & url & rating & ->).
  unfold _get_master_url.
  set (release := VDict [("name", name); ("url", VStr url)]).
  rewrite (bind_lift_ret _ _ _ release) by reflexivity.
  rewrite (bind_lift_ret _ _ _ (VStr url)) by reflexivity.
  rewrite (bind_lift_ret _ _ _ url) by reflexivity.
  destruct (list_last_split "/" (path (urlparse py url))) as [release_id Hid].
  rewrite (bind_lift_ret _ _ _ _ Hid).
  reflexivity.
Qed.

(** C10: with the master option on and at least one rating exported, the
    export of the ratings ends in [NameError] for [rest_client] at the first
    record; the state is the one the HTML export left, so the ratings file
    still holds the records without master URL and no release was asked
    for. *)
Theorem include_master_raises_name_error
    (fuel : nat) (username : value) (export_dir : string)
    (st st' : state) (ratings_filepath : string)
    (entry : value) (entries : list value) :
  DiscogsHtmlClient.export_release_ratings site fuel username export_dir st
    = (st', Ret ratings_filepath) ->
  assoc ratings_filepath (files st') = Some (VList (entry :: entries)) ->
  export_release_ratings py site fuel username export_dir true st
  = (st', Raise (NameError "rest_client")).
Proof.
  intros Hhtml Hfile.
  unfold export_release_ratings.
  rewrite (bind_ret _ _ _ _ _ Hhtml).
  rewrite (bind_ret _ _ _ _ _ (load_json_eq _ _ _ Hfile)).
  rewrite (bind_lift_ret _ _ _ _ (eq_refl : as_list (VList (entry :: entries)) = Ret _)).
  assert (Hentry : scraped entry).
  { unfold DiscogsHtmlClient.export_release_ratings in Hhtml.
    apply bind_inv in Hhtml as (rating_info & st1 & Hpages & Hwrite).
    apply iter_pages_loop_scraped in Hpages; [|constructor].
    injection Hwrite as <- <-.
    cbn [files assoc] in Hfile. rewrite String.eqb_refl in Hfile.
    injection Hfile as ->. now inversion Hpages. }
  cbn [augment].
  apply bind_raise, bind_raise, get_master_url_raises, Hentry.
Qed.

End MasterUrl.

Section MasterUrlRuns.
Import Py ExportFromDiscogs ExporterVocabulary ExporterSamples Samples.

Lemma include_master_witness :
  DiscogsHtmlClient.export_release_ratings small_site 2 me "export" fresh
  = (ratings_exported, Ret "export/release-ratings.json")
  /\ snd (export_release_ratings python small_site 2 me "export" true fresh)
     = Raise (NameError "rest_client").
Proof.
  assert (H : DiscogsHtmlClient.export_release_ratings small_site 2 me
                 "export" fresh
               = (ratings_exported, Ret "export/release-ratings.json"))
    by reflexivity.
  split; [exact H|].
  rewrite (include_master_raises_name_error python small_site 2 me "export"
             fresh _ "export/release-ratings.json" _ _ H eq_refl).
  reflexivity.
Defined.

End MasterUrlRuns.

(* ===================================================================== *)
(** ** The loader: links between the two sites                            *)
(* ===================================================================== *)

Section Links.
Import Py LoadIntoMusicbrainz LoaderVocabulary CascadeVocabulary.
Variable py : Builtins.
Variable mb : MusicBrainz.

Lemma replace_from_exhausted (old new s : string) :
  replace_from old new (Some 0%nat) 0 s = s.
Proof. induction s as [|a s IH]; cbn; [reflexivity|now rewrite IH]. Qed.

Lemma replace_from_absent (old new s : string) (count : option nat) :
  occurs old s = false -> replace_from old new count 0 s = s.
Proof.
  induction s as [|a s IH]; [reflexivity|].
  cbn [occurs replace_from]. intros H.
  apply orb_false_iff in H as [Hhere Hlater].
  rewrite Hhere, andb_false_r. now rewrite IH.
Qed.

Lemma with_path_eq (parsed : ParseResult) :
  {| scheme := scheme parsed; netloc := netloc parsed; path := path parsed;
     params := params parsed; query := query parsed;
     fragment := fragment parsed |} = parsed.
Proof. now destruct parsed. Qed.

(** X1: the plural resource name that opens the path of an API URL is made
    singular, once: what follows it is kept as it is, also when the plural
    occurs in it again. The host has every "api" replaced by "www". A URL of
    the web site (no "api" in the host, no plural at the start of the path)
    comes back as [urlunparse(urlparse(url))]. *)
Theorem api_url_becomes_web_url (api_url rest : string) :
  let parsed := urlparse py api_url in
  let rebuilt (p : string) :=
    urlunparse py
      {| scheme := scheme parsed; netloc := replace "api" "www" (netloc parsed);
         path := p; params := params parsed; query := query parsed;
         fragment := fragment parsed |} in
  (path parsed = "/releases" ++ rest ->
   discog_api_url_to_www py api_url = rebuilt ("/release" ++ rest))
  /\ (path parsed = "/masters" ++ rest ->
      discog_api_url_to_www py api_url = rebuilt ("/master" ++ rest))
  /\ (path parsed = "/artists" ++ rest ->
      discog_api_url_to_www py api_url = rebuilt ("/artist" ++ rest))
  /\ (occurs "api" (netloc parsed) = false ->
      startswith "/releases" (path parsed) = false ->
      startswith "/masters" (path parsed) = false ->
      startswith "/artists" (path parsed) = false ->
      discog_api_url_to_www py api_url = urlunparse py parsed).
Proof.
  cbv zeta. unfold discog_api_url_to_www, replace_first, startswith.
  assert (Hempty : String.prefix "" rest = true) by now destruct rest.
  repeat split; try (intros ->; cbn; now rewrite !Hempty, replace_from_exhausted).
  intros Hhost Hr Hm Ha. unfold replace.
  rewrite Hr, Hm, Ha, (replace_from_absent _ _ _ _ Hhost).
  now rewrite with_path_eq.
Qed.

Lemma first_discogs_hit (relation : value) (rest : list value) :
  getitem relation "type" = Ret (VStr "discogs") ->
  first_discogs (relation :: rest) = Ret relation.
Proof. intros H. cbn. now rewrite H. Qed.

Lemma first_discogs_other (relation : value) (rest : list value) :
  foreign_relation relation ->
  first_discogs (relation :: rest) = first_discogs rest.
Proof.
  intros (t & Ht & Hne). cbn. rewrite Ht.
  destruct t as [|s| | |]; try reflexivity.
  destruct (String.eqb_spec s "discogs") as [->|Hs]; [congruence|].
  clear - Hs.
  repeat match goal with
         | s : string |- _ =>
             destruct s as [|[[] [] [] [] [] [] [] []] s]; try reflexivity
         end.
  congruence.
Qed.

Lemma first_discogs_skips (others : list value) (rest : list value) :
  Forall foreign_relation others ->
  first_discogs (others ++ rest) = first_discogs rest.
Proof.
  induction 1 as [|r others Hr _ IH]; [reflexivity|].
  cbn [app]. now rewrite first_discogs_other.
Qed.

Lemma first_discogs_none (relations : list value) :
  Forall foreign_relation relations -> first_discogs relations = Ret VNone.
Proof.
  intros H. rewrite <- (app_nil_r relations). now rewrite first_discogs_skips.
Qed.

(** What a lookup does with an answer that has a relation list. *)
Lemma lookup_mbid_answered (u type_name : string) (tr : trace)
    (result links : value) (relations : list value) :
  browse_urls mb (discog_api_url_to_www py u) [type_name ++ "-rels"] = Ret result ->
  getitem result "url" = Ret links ->
  getitem links (replace "-" "_" type_name ++ "-relation-list")
    = Ret (VList relations) ->
  lookup_mbid_by_discog_url py mb (VStr u) type_name tr
  = (connection <- lift (first_discogs relations) ;;
     if truthy connection then
       entity <- lift (getitem connection type_name) ;;
       lift (getitem entity "id")
     else ret VNone)%py
      (tr ++ [BrowseUrls (discog_api_url_to_www py u)
                         [(type_name ++ "-rels")%string]])%list.
Proof.
  intros Hbrowse Hurl Hlist. unfold lookup_mbid_by_discog_url.
  rewrite (bind_lift_ret _ _ _ u) by reflexivity.
  unfold emit, modify. unfold bind at 1. rewrite Hbrowse.
  rewrite (bind_lift_ret _ _ _ _ eq_refl), (bind_lift_ret _ _ _ _ Hurl).
  rewrite (bind_lift_ret _ _ _ _ Hlist).
  now rewrite (bind_lift_ret _ _ _ relations) by reflexivity.
Qed.

(** X2: of the relations of the URL, the first one of type "discogs" gives
    the identifier; relations of other types before it are passed over. *)
Theorem lookup_takes_first_discogs_relation
    (u type_name : string) (tr : trace) (result links : value)
    (others : list value) (relation : value) (rest : list value)
    (entity id : value) :
  browse_urls mb (discog_api_url_to_www py u) [type_name ++ "-rels"] = Ret result ->
  getitem result "url" = Ret links ->
  getitem links (replace "-" "_" type_name ++ "-relation-list")
    = Ret (VList (others ++ relation :: rest)) ->
  Forall foreign_relation others ->
  getitem relation "type" = Ret (VStr "discogs") ->
  getitem relation type_name = Ret entity ->
  getitem entity "id" = Ret id ->
  lookup_mbid_by_discog_url py mb (VStr u) type_name tr
  = ((tr ++ [BrowseUrls (discog_api_url_to_www py u)
                        [(type_name ++ "-rels")%string]])%list,
     Ret id).
Proof.
  intros Hbrowse Hurl Hlist Hothers Htype Hentity Hid.
  rewrite (lookup_mbid_answered _ _ _ _ _ _ Hbrowse Hurl Hlist).
  rewrite first_discogs_skips, (first_discogs_hit _ _ Htype) by assumption.
  rewrite (bind_lift_ret _ _ _ relation) by reflexivity.
  assert (Htruthy : truthy relation = true).
  { destruct relation as [| | | |[|f fs]]; try discriminate. reflexivity. }
  rewrite Htruthy, (bind_lift_ret _ _ _ _ Hentity). unfold lift. now rewrite Hid.
Qed.

(** X3: a URL MusicBrainz knows, but without a relation of type "discogs",
    is a miss: the lookup returns [None]. *)
Theorem lookup_without_discogs_relation_misses
    (u type_name : string) (tr : trace) (result links : value)
    (relations : list value) :
  browse_urls mb (discog_api_url_to_www py u) [type_name ++ "-rels"] = Ret result ->
  getitem result "url" = Ret links ->
  getitem links (replace "-" "_" type_name ++ "-relation-list")
    = Ret (VList relations) ->
  Forall foreign_relation relations ->
  lookup_mbid_by_discog_url py mb (VStr u) type_name tr
  = ((tr ++ [BrowseUrls (discog_api_url_to_www py u)
                        [(type_name ++ "-rels")%string]])%list,
     Ret VNone).
Proof.
  intros Hbrowse Hurl Hlist Hall.
  rewrite (lookup_mbid_answered _ _ _ _ _ _ Hbrowse Hurl Hlist).
  now rewrite (first_discogs_none _ Hall).
Qed.

(** X4: only an error response is taken for a miss. Any other error of the
    request is raised to the caller, and so is the [KeyError] for an answer
    that has no relation list of the type asked for. *)
Theorem lookup_raises_other_errors (u type_name : string) (tr : trace) :
  (forall e, e <> ResponseError ->
     browse_urls mb (discog_api_url_to_www py u) [type_name ++ "-rels"] = Raise e ->
     lookup_mbid_by_discog_url py mb (VStr u) type_name tr
     = ((tr ++ [BrowseUrls (discog_api_url_to_www py u)
                           [(type_name ++ "-rels")%string]])%list,
        Raise e))
  /\ (forall result fields,
        browse_urls mb (discog_api_url_to_www py u) [type_name ++ "-rels"]
          = Ret result ->
        getitem result "url" = Ret (VDict fields) ->
        assoc (replace "-" "_" type_name ++ "-relation-list") fields = None ->
        lookup_mbid_by_discog_url py mb (VStr u) type_name tr
        = ((tr ++ [BrowseUrls (discog_api_url_to_www py u)
                              [(type_name ++ "-rels")%string]])%list,
           Raise (KeyError (replace "-" "_" type_name ++ "-relation-list")))).
Proof.
  split.
  - intros e He Hbrowse. unfold lookup_mbid_by_discog_url.
    rewrite (bind_lift_ret _ _ _ u) by reflexivity.
    unfold emit, modify. unfold bind at 1. rewrite Hbrowse.
    destruct e; try reflexivity. congruence.
  - intros result fields Hbrowse Hurl Hkey. unfold lookup_mbid_by_discog_url.
    rewrite (bind_lift_ret _ _ _ u) by reflexivity.
    unfold emit, modify. unfold bind at 1. rewrite Hbrowse.
    rewrite (bind_lift_ret _ _ _ _ eq_refl), (bind_lift_ret _ _ _ _ Hurl).
    apply bind_lift_raise. cbn. now rewrite Hkey.
Qed.

End Links.

(* ===================================================================== *)
(** ** The loader: what the cascade leaves behind                         *)
(* ===================================================================== *)

Section ReadOnly.
Import Py LoadIntoMusicbrainz LoaderVocabulary CascadeVocabulary.
Variable py : Builtins.
Variable mb : MusicBrainz.

Lemma read_only_bind {A B : Type} (m : L A) (f : A -> L B) :
  read_only m -> (forall a, read_only (f a)) -> read_only (bind m f).
Proof.
  intros Hm Hf tr. unfold bind.
  destruct (Hm tr) as (added & Htr & Hadded).
  destruct (m tr) as [tr1 [a|e|]]; simpl in Htr; subst tr1;
    try (exists added; now split).
  destruct (Hf a (tr ++ added)%list) as (added' & Htr' & Hadded').
  exists (added ++ added')%list. rewrite Htr', app_assoc, forallb_app.
  split; [reflexivity|]. now rewrite Hadded, Hadded'.
Qed.

Lemma read_only_lift {A : Type} (o : outcome A) : read_only (lift o).
Proof. intros tr. exists []. now rewrite app_nil_r. Qed.

Lemma read_only_ret {A : Type} (a : A) : read_only (ret a : L A).
Proof. intros tr. exists []. now rewrite app_nil_r. Qed.

Lemma read_only_emit (e : event) : reads_only e = true -> read_only (emit e).
Proof. intros He tr. exists [e]. simpl. now rewrite He. Qed.

Lemma read_only_call {A : Type} (e : event) (answer : outcome A) :
  reads_only e = true -> read_only (call e answer).
Proof.
  intros He. apply read_only_bind; [now apply read_only_emit|].
  intros _. apply read_only_lift.
Qed.

Lemma read_only_for_each {A : Type} (l : list A) (body : A -> L unit) :
  (forall a, read_only (body a)) -> read_only (for_each l body).
Proof.
  intros Hbody. induction l as [|x l IH]; cbn [for_each].
  - apply read_only_ret.
  - apply read_only_bind; [apply Hbody|intros _; exact IH].
Qed.

Lemma read_only_comprehension {A B : Type} (l : list A) (f : A -> L (option B)) :
  (forall a, read_only (f a)) -> read_only (comprehension l f).
Proof.
  intros Hf. induction l as [|x l IH]; cbn [comprehension].
  - apply read_only_ret.
  - apply read_only_bind; [apply Hf|intros o].
    apply read_only_bind; [exact IH|intros ys]. apply read_only_ret.
Qed.

Ltac read_only_step :=
  first [ apply read_only_lift | apply read_only_ret
        | apply read_only_emit; reflexivity
        | apply read_only_call; reflexivity
        | apply read_only_bind; [|intros ?]
        | apply read_only_for_each; intros ?
        | apply read_only_comprehension; intros ?
        | match goal with
          | |- read_only (if ?b then _ else _) => destruct b
          | |- read_only (match ?x with _ => _ end) => destruct x
          end ].

Lemma read_only_lookup_mbid (url : value) (type_name : string) :
  read_only (lookup_mbid_by_discog_url py mb url type_name).
Proof. unfold lookup_mbid_by_discog_url. repeat read_only_step. Qed.

Lemma read_only_search_loop (discog_entry : value)
    (artist_mbids rg_results : list value) :
  read_only (search_loop py mb discog_entry artist_mbids rg_results).
Proof.
  revert rg_results.
  induction artist_mbids as [|a rest IH]; intros rg_results; cbn [search_loop].
  - apply read_only_lift.
  - repeat first [apply IH | read_only_step].
Qed.

Lemma read_only_lookup_master (discog_entry : value) :
  read_only (lookup_master_mbid py mb discog_entry).
Proof.
  unfold lookup_master_mbid, _get_master_mbid, lookup_release_mbid,
    lookup_artist_mbids, search_release_group_by_artists, print.
  repeat first [ apply read_only_lookup_mbid | apply read_only_search_loop
               | read_only_step ].
Qed.

(** X5: resolving a record never writes to MusicBrainz: whatever the record
    and the answers, the cascade keeps the log it was given and adds only
    lookups, searches and printed lines to it, never a PUT or a rating
    submission. *)
Theorem cascade_is_read_only (discog_entry : value) (tr : trace) :
  exists added,
    fst (lookup_master_mbid py mb discog_entry tr) = (tr ++ added)%list
    /\ forallb reads_only added = true.
Proof. apply read_only_lookup_master. Qed.

(** *** Ratings are submitted at the end, or not at all *)

Variable read_json : string -> outcome value.

Lemma read_only_ratings_loop (entries : list value) :
  forall ratings, read_only (ratings_loop py mb entries ratings).
Proof.
  induction entries as [|entry entries IH]; intros ratings; cbn [ratings_loop].
  - apply read_only_ret.
  - repeat first [apply IH | apply read_only_lookup_master | read_only_step].
Qed.

Lemma ratings_loop_stops_at (before : list value) (bad : value)
    (after : list value) (e : exn) :
  Forall (rateable py mb) before ->
  (forall tr, snd (lookup_master_mbid py mb bad tr) = Raise e) ->
  forall ratings tr,
  snd (ratings_loop py mb (before ++ bad :: after) ratings tr) = Raise e.
Proof.
  intros Hbefore Hbad.
  induction Hbefore as [|entry before (id & Hid & Hrest) _ IH];
    intros ratings tr; cbn [app ratings_loop].
  - specialize (Hbad tr). unfold bind.
    destruct (lookup_master_mbid py mb bad tr) as [tr1 o]. simpl in Hbad.
    subst o. reflexivity.
  - specialize (Hid tr). unfold bind at 1.
    destruct (lookup_master_mbid py mb entry tr) as [tr1 o]. simpl in Hid.
    subst o. destruct (truthy id) eqn:T; [|apply IH].
    destruct (Hrest eq_refl) as (Hhash & stars & rating & Hrating & Hstars).
    rewrite (bind_lift_ret _ _ _ _ Hrating), (bind_lift_ret _ _ _ _ Hstars).
    unfold dict_set. rewrite Hhash.
    rewrite (bind_lift_ret _ _ _ _ eq_refl). apply IH.
Qed.

Lemma import_ratings_stops
    (import_dir : string) (before : list value) (bad : value)
    (after : list value) (e : exn) (tr : trace) :
  read_json (os_path_join import_dir "release-ratings.json")
    = Ret (VList (before ++ bad :: after)) ->
  Forall (rateable py mb) before ->
  (forall tr, snd (lookup_master_mbid py mb bad tr) = Raise e) ->
  snd (import_ratings py mb read_json import_dir tr) = Raise e
  /\ exists added,
       fst (import_ratings py mb read_json import_dir tr) = (tr ++ added)%list
       /\ forallb reads_only added = true.
Proof.
  intros Hfile Hbefore Hbad.
  unfold import_ratings, load_discogs_releases.
  rewrite (bind_lift_ret _ _ _ _ Hfile).
  rewrite (bind_lift_ret _ _ _ (before ++ bad :: after)%list) by reflexivity.
  pose proof (ratings_loop_stops_at before bad after e Hbefore Hbad [] tr) as Hstop.
  destruct (read_only_ratings_loop (before ++ bad :: after) [] tr)
    as (added & Htrace & Hadded).
  assert (Hrun : ratings_loop py mb (before ++ bad :: after) [] tr
                 = ((tr ++ added)%list, Raise e)).
  { destruct (ratings_loop py mb (before ++ bad :: after) [] tr) as [tr1 o].
    simpl in Hstop, Htrace. now subst. }
  rewrite (bind_raise _ _ _ _ _ Hrun).
  split; [reflexivity|]. now exists added.
Qed.

(** X6: when the cascade raises for one record of the ratings file, the
    import ends with that error and no rating has been submitted, also not
    those of the records before it: up to then the import has only read. *)
Theorem failed_resolution_submits_no_rating
    (import_dir : string) (before : list value) (bad : value)
    (after : list value) (e : exn) (tr : trace) :
  read_json (os_path_join import_dir "release-ratings.json")
    = Ret (VList (before ++ bad :: after)) ->
  Forall (rateable py mb) before ->
  (forall tr, snd (lookup_master_mbid py mb bad tr) = Raise e) ->
  snd (import_ratings py mb read_json import_dir tr) = Raise e
  /\ exists added,
       fst (import_ratings py mb read_json import_dir tr) = (tr ++ added)%list
       /\ forallb reads_only added = true.
Proof. apply import_ratings_stops. Qed.

End ReadOnly.

Section Strategies.
Import Py LoadIntoMusicbrainz LoaderVocabulary CascadeVocabulary.
Variable py : Builtins.
Variable mb : MusicBrainz.

Lemma bind_ret_eq {S A B : Type} (a : A) (f : A -> M S B) (st : S) :
  bind (ret a) f st = f a st.
Proof. reflexivity. Qed.

(** The first two stages of the cascade for a record without master URL
    whose release is linked. *)
Lemma release_stage (discog_entry release master_url : value) (url : string)
    (release_id : value) (tr : trace) :
  getitem discog_entry "release" = Ret release ->
  dict_get release "master_url" = Ret master_url ->
  truthy master_url = false ->
  getitem release "url" = Ret (VStr url) ->
  snd (lookup_mbid_by_discog_url py mb (VStr url) "release" tr) = Ret release_id ->
  truthy release_id = true ->
  lookup_master_mbid py mb discog_entry tr
  = (master_id <-
       (result <- lift (get_release_by_id mb release_id ["release-groups"]) ;;
        found <- lift (getitem result "release") ;;
        group <- lift (getitem found "release-group") ;;
        lift (getitem group "id")) ;;
     if negb (truthy master_id) then
       artist_ids <- lookup_artist_mbids py mb discog_entry ;;
       results <- search_release_group_by_artists py mb discog_entry artist_ids ;;
       if (List.length results =? 1)%nat then
         only <- lift (list_first results) ;;
         lift (getitem only "id")
       else
         release <- lift (getitem discog_entry "release") ;;
         name <- lift (getitem release "name") ;;
         artist <- lift (getitem discog_entry "artist") ;;
         artist_name <- lift (getitem artist "name") ;;
         print ("Candidates for " ++ py_str py name ++ " by "
                  ++ py_str py artist_name ++ ":") ;;;
         for_each results (fun info =>
           info_name <- lift (getitem info "name") ;;
           info_artist <- lift (getitem info "artist") ;;
           info_id <- lift (getitem info "id") ;;
           print (py_str py info_name ++ " by " ++ py_str py info_artist ++ ": "
                    ++ py_str py info_id)) ;;;
         ret master_id
     else ret master_id)%py
      (tr ++ [BrowseUrls (discog_api_url_to_www py url) ["release-rels"];
              GetReleaseById release_id ["release-groups"]])%list.
Proof.
  intros Hrelease Hmaster Hfalsy Hurl Hlookup Hid.
  unfold lookup_master_mbid.
  rewrite (bind_lift_ret _ _ _ _ Hrelease), (bind_lift_ret _ _ _ _ Hmaster).
  rewrite Hfalsy, bind_ret_eq. cbn [truthy negb].
  pose proof (lookup_mbid_trace py mb url "release" tr) as Htrace.
  destruct (lookup_mbid_by_discog_url py mb (VStr url) "release" tr)
    as [tr1 o] eqn:E.
  simpl in Hlookup, Htrace. subst o tr1.
  assert (Hstage : lookup_release_mbid py mb discog_entry tr
                   = ((tr ++ [BrowseUrls (discog_api_url_to_www py url)
                                         ["release-rels"]])%list,
                      Ret release_id)).
  { unfold lookup_release_mbid.
    now rewrite (bind_lift_ret _ _ _ _ Hrelease), (bind_lift_ret _ _ _ _ Hurl). }
  unfold bind at 1. unfold bind at 1. rewrite Hstage, Hid.
  unfold call, emit, modify, bind, lift. cbn [fst snd].
  rewrite <- app_assoc. reflexivity.
Qed.

(** X7: the second strategy: a record without master URL whose release is
    linked resolves to the release group of the linked release, with two
    requests (the release lookup and the fetch of the release); no artist is
    looked up and nothing is searched for. *)
Theorem release_link_resolves_through_release_group
    (discog_entry release master_url : value) (url : string)
    (release_id result found group id : value) (tr : trace) :
  getitem discog_entry "release" = Ret release ->
  dict_get release "master_url" = Ret master_url ->
  truthy master_url = false ->
  getitem release "url" = Ret (VStr url) ->
  snd (lookup_mbid_by_discog_url py mb (VStr url) "release" tr) = Ret release_id ->
  truthy release_id = true ->
  get_release_by_id mb release_id ["release-groups"] = Ret result ->
  getitem result "release" = Ret found ->
  getitem found "release-group" = Ret group ->
  getitem group "id" = Ret id ->
  truthy id = true ->
  lookup_master_mbid py mb discog_entry tr
  = ((tr ++ [BrowseUrls (discog_api_url_to_www py url) ["release-rels"];
             GetReleaseById release_id ["release-groups"]])%list,
     Ret id).
Proof.
  intros Hrelease Hmaster Hfalsy Hurl Hlookup Hrid Hfetch Hfound Hgroup Hid Htruthy.
  rewrite (release_stage _ _ _ _ _ _ Hrelease Hmaster Hfalsy Hurl Hlookup Hrid).
  rewrite Hfetch.
  erewrite bind_ret.
  - now rewrite Htruthy.
  - rewrite (bind_lift_ret _ _ _ _ eq_refl), (bind_lift_ret _ _ _ _ Hfound).
    rewrite (bind_lift_ret _ _ _ _ Hgroup). unfold lift. now rewrite Hid.
Qed.

(** X8: when the fetch of the linked release fails, the error ends the
    cascade: it is not taken for a miss and the search is not tried. *)
Theorem release_fetch_error_is_raised
    (discog_entry release master_url : value) (url : string)
    (release_id : value) (e : exn) (tr : trace) :
  getitem discog_entry "release" = Ret release ->
  dict_get release "master_url" = Ret master_url ->
  truthy master_url = false ->
  getitem release "url" = Ret (VStr url) ->
  snd (lookup_mbid_by_discog_url py mb (VStr url) "release" tr) = Ret release_id ->
  truthy release_id = true ->
  get_release_by_id mb release_id ["release-groups"] = Raise e ->
  lookup_master_mbid py mb discog_entry tr
  = ((tr ++ [BrowseUrls (discog_api_url_to_www py url) ["release-rels"];
             GetReleaseById release_id ["release-groups"]])%list,
     Raise e).
Proof.
  intros Hrelease Hmaster Hfalsy Hurl Hlookup Hrid Hfetch.
  rewrite (release_stage _ _ _ _ _ _ Hrelease Hmaster Hfalsy Hurl Hlookup Hrid).
  rewrite Hfetch. reflexivity.
Qed.

(** *** What the search can return *)

Lemma info_has_no_score (rg info : value) :
  release_group_info rg = Ret info ->
  ext_score py info = Raise (KeyError "ext:score").
Proof.
  unfold release_group_info. intros H.
  destruct (getitem rg "title"); try discriminate.
  destruct (getitem rg "artist-credit-phrase"); try discriminate.
  destruct (getitem rg "id"); try discriminate.
  injection H as <-. reflexivity.
Qed.


Lemma kept_candidates_are_infos (items : list value) :
  forall (tr tr' : trace) (found : list value),
  comprehension items (fun rg =>
    score <- lift (ext_score py rg) ;;
    if (score >=? 75)%Z then
      info <- lift (release_group_info rg) ;;
      ret (Some info)
    else ret None)%py tr = (tr', Ret found) ->
  Forall (fun info => exists rg, release_group_info rg = Ret info) found.
Proof.
  induction items as [|rg items IH]; intros tr tr' found; cbn [comprehension].
  - intros [= _ <-]. constructor.
  - intros Hrun.
    apply bind_inv in Hrun as (o & tr1 & Hhead & Hrun).
    apply bind_inv in Hrun as (ys & tr2 & Htail & Hrun).
    injection Hrun as _ <-. apply IH in Htail.
    apply bind_inv in Hhead as (score & tr3 & _ & Hhead).
    destruct (score >=? 75)%Z.
    + apply bind_inv in Hhead as (info & tr4 & Hinfo & Hhead).
      injection Hhead as _ <-. injection Hinfo as _ Hinfo.
      constructor; [now exists rg|exact Htail].
    + injection Hhead as _ <-. exact Htail.
Qed.

Lemma search_loop_result (discog_entry : value) (artist_mbids : list value) :
  forall (rg_results : list value) (tr tr' : trace) (results : list value),
  Forall (fun info => exists rg, release_group_info rg = Ret info) rg_results ->
  search_loop py mb discog_entry artist_mbids rg_results tr = (tr', Ret results) ->
  (rg_results = [] /\ results = [])
  \/ exists name artist_mbid top others score info,
       In artist_mbid artist_mbids
       /\ search_gives mb name artist_mbid (top :: others)
       /\ ext_score py top = Ret score /\ (score > 95)%Z
       /\ release_group_info top = Ret info
       /\ results = [info].
Proof.
  induction artist_mbids as [|a rest IH]; intros rg_results tr tr' results Hinfos;
    cbn [search_loop].
  - destruct Hinfos as [|info infos [rg Hinfo] _].
    + intros [= _ <-]. now left.
    + unfold lift, sorted_desc. cbn [keyed].
      rewrite (info_has_no_score _ _ Hinfo). discriminate.
  - intros Hrun.
    apply bind_inv in Hrun as (release & tr1 & _ & Hrun).
    apply bind_inv in Hrun as (name & tr2 & _ & Hrun).
    apply bind_inv in Hrun as (answer & tr3 & Hsearch & Hrun).
    apply bind_inv in Hrun as (groups & tr4 & Hlist & Hrun).
    apply bind_inv in Hrun as (top & tr5 & Hfirst & Hrun).
    apply bind_inv in Hrun as (score & tr6 & Hscore & Hrun).
    injection Hsearch as _ Hsearch. injection Hlist as _ Hlist.
    injection Hfirst as _ Hfirst. injection Hscore as _ Hscore.
    destruct groups as [| | |[|first others]|]; try discriminate.
    injection Hfirst as ->.
    destruct (score >? 95)%Z eqn:Hgt.
    + apply bind_inv in Hrun as (info & tr7 & Hinfo & Hrun).
      injection Hinfo as _ Hinfo. injection Hrun as _ <-.
      right. exists name, a, top, others, score, info.
      repeat split; try assumption; [now left|now exists answer|].
      apply Z.gtb_lt in Hgt. lia.
    + apply bind_inv in Hrun as (items & tr7 & Hitems & Hrun).
      apply bind_inv in Hrun as (found & tr8 & Hfound & Hrun).
      apply kept_candidates_are_infos in Hfound.
      destruct (IH _ _ _ _ (proj2 (Forall_app _ _ _) (conj Hinfos Hfound)) Hrun)
        as [[Hnil ->]|(n & b & t & os & sc & i & Hin & H)].
      * left. apply app_eq_nil in Hnil. now split.
      * right. exists n, b, t, os, sc, i. split; [now right|exact H].
Qed.

Lemma search_returns_candidates
    (discog_entry : value) (artist_mbids : list value) (tr tr' : trace)
    (results : list value) :
  search_release_group_by_artists py mb discog_entry artist_mbids tr
    = (tr', Ret results) ->
  results = []
  \/ exists name artist_mbid top others score info,
       In artist_mbid artist_mbids
       /\ search_gives mb name artist_mbid (top :: others)
       /\ ext_score py top = Ret score /\ (score > 95)%Z
       /\ release_group_info top = Ret info
       /\ results = [info].
Proof.
  intros Hrun.
  destruct (search_loop_result _ _ _ _ _ _ (Forall_nil _) Hrun) as [[_ ->]|H];
    [now left|now right].
Qed.

(** X9: the search never returns a candidate it is not sure of: when it
    returns, the result is empty, or it is the one release group that came
    first in some artist's answer with a score above 95. *)
Theorem search_returns_nothing_or_a_sure_hit
    (discog_entry : value) (artist_mbids : list value) (tr tr' : trace)
    (results : list value) :
  search_release_group_by_artists py mb discog_entry artist_mbids tr
    = (tr', Ret results) ->
  results = []
  \/ exists name artist_mbid top others score info,
       In artist_mbid artist_mbids
       /\ search_gives mb name artist_mbid (top :: others)
       /\ ext_score py top = Ret score /\ (score > 95)%Z
       /\ release_group_info top = Ret info
       /\ results = [info].
Proof.
  apply search_returns_candidates.
Qed.


End Strategies.

(* ===================================================================== *)
(** ** The loader: what the chunks hold                                   *)
(* ===================================================================== *)

Section ChunkContents.
Import Py LoadIntoMusicbrainz LoaderVocabulary.
Variable py : Builtins.
Variable mb : MusicBrainz.
Variable collection : value.

Lemma range_fuel_below (fuel start stop step x : nat) :
  In x (range_fuel fuel start stop step) -> (x < stop)%nat.
Proof.
  revert start. induction fuel as [|fuel IH]; intros start; cbn [range_fuel];
    [intros []|].
  destruct (Nat.ltb_spec start stop) as [Hlt|_]; [|intros []].
  intros [<-|Hin]; [exact Hlt|exact (IH _ Hin)].
Qed.

Lemma range_fuel_covers (fuel start stop k : nat) :
  (k < fuel)%nat -> (start + k * 200 < stop)%nat ->
  In (start + k * 200)%nat (range_fuel fuel start stop 200).
Proof.
  revert start k. induction fuel as [|fuel IH]; intros start k Hk Hstop; [lia|].
  cbn [range_fuel].
  destruct (Nat.ltb_spec start stop) as [_|Hge]; [|lia].
  destruct k as [|k]; [left; lia|right].
  replace (start + S k * 200)%nat with (start + 200 + k * 200)%nat by lia.
  apply IH; lia.
Qed.

Lemma for_each_cons {S A : Type} (x : A) (l : list A) (body : A -> M S unit) :
  for_each (x :: l) body = bind (body x) (fun _ => for_each l body).
Proof. reflexivity. Qed.

Lemma strings_of_strs (ids : list string) : strings_of (map VStr ids) = Ret ids.
Proof. induction ids as [|id ids IH]; cbn; [reflexivity|now rewrite IH]. Qed.

Lemma list_last_snoc {A : Type} (front : list A) (x : A) :
  list_last (front ++ [x]) = Ret x.
Proof.
  induction front as [|y front IH]; [reflexivity|].
  cbn [app list_last]. destruct (front ++ [x])%list eqn:E; [|exact IH].
  now destruct front.
Qed.

Lemma list_last_some {A : Type} (l : list A) :
  l <> [] -> exists x, list_last l = Ret x.
Proof.
  intros H. destruct (exists_last H) as (front & x & ->).
  exists x. apply list_last_snoc.
Qed.

(** The identifiers of the request that starts at [index]. *)
Lemma chunk_of_strs (ids : list string) (index : nat) :
  slice (map VStr ids) index (index + 200 + 1)
  = map VStr (firstn 201 (skipn index ids)).
Proof.
  unfold slice. replace (index + 200 + 1 - index)%nat with 201%nat by lia.
  now rewrite skipn_map, firstn_map.
Qed.

Lemma chunk_request (ids : list string) (index : nat) (tr : trace) :
  (index < List.length ids)%nat ->
  (forall path, exists answer, do_mb_put mb path = Ret answer) ->
  exists line,
    (let chunk := slice (map VStr ids) index (index + 200 + 1) in
     last <- lift (list_last chunk) ;;
     print (py_str py last) ;;;
     release_group_list <- lift (str_join ";" chunk) ;;
     call (MbPut ("collection/" ++ py_str py collection ++ "/release-groups/"
                    ++ release_group_list))
          (do_mb_put mb ("collection/" ++ py_str py collection
                           ++ "/release-groups/" ++ release_group_list)) ;;;
     ret tt)%py tr
    = ((tr ++ [Print line;
               MbPut ("collection/" ++ py_str py collection ++ "/release-groups/"
                        ++ join ";" (firstn 201 (skipn index ids)))])%list,
       Ret tt).
Proof.
  intros Hindex Hput. cbv zeta. rewrite chunk_of_strs.
  assert (Hne : map VStr (firstn 201 (skipn index ids)) <> []).
  { pose proof (length_skipn index ids) as Hlen.
    destruct (skipn index ids) as [|id rest]; [simpl in Hlen; lia|discriminate]. }
  destruct (list_last_some _ Hne) as [last Hlast].
  exists (py_str py last).
  rewrite (bind_lift_ret _ _ _ _ Hlast).
  unfold str_join. rewrite strings_of_strs.
  destruct (Hput ("collection/" ++ py_str py collection ++ "/release-groups/"
                    ++ join ";" (firstn 201 (skipn index ids)))) as [answer Hanswer].
  unfold print, call, emit, modify, bind, lift, ret. cbn [fst snd].
  rewrite Hanswer, <- app_assoc. reflexivity.
Qed.

Lemma chunk_requests (ids : list string) (indexes : list nat) :
  (forall index, In index indexes -> (index < List.length ids)%nat) ->
  (forall path, exists answer, do_mb_put mb path = Ret answer) ->
  forall tr, exists added,
    for_each indexes (fun index =>
      let chunk := slice (map VStr ids) index (index + 200 + 1) in
      last <- lift (list_last chunk) ;;
      print (py_str py last) ;;;
      release_group_list <- lift (str_join ";" chunk) ;;
      call (MbPut ("collection/" ++ py_str py collection ++ "/release-groups/"
                     ++ release_group_list))
           (do_mb_put mb ("collection/" ++ py_str py collection
                            ++ "/release-groups/" ++ release_group_list)) ;;;
      ret tt)%py tr
    = ((tr ++ added)%list, Ret tt)
    /\ forall index, In index indexes ->
         In (MbPut ("collection/" ++ py_str py collection ++ "/release-groups/"
                      ++ join ";" (firstn 201 (skipn index ids)))) added.
Proof.
  intros Hindexes Hput.
  induction indexes as [|index indexes IH]; intros tr.
  - exists []. split; [cbn; now rewrite app_nil_r|intros ? []].
  - destruct (chunk_request ids index tr (Hindexes index (or_introl eq_refl)) Hput)
      as [line Hhead].
    destruct (IH (fun i Hi => Hindexes i (or_intror Hi))
                 (tr ++ [Print line;
                         MbPut ("collection/" ++ py_str py collection
                                  ++ "/release-groups/"
                                  ++ join ";" (firstn 201 (skipn index ids)))])%list)
      as (added & Htail & Hin).
    eexists. split.
    + rewrite for_each_cons, (bind_ret _ _ _ _ _ Hhead), Htail.
      now rewrite <- app_assoc.
    + intros i [<-|Hi]; [right; left; reflexivity|].
      right. right. exact (Hin i Hi).
Qed.

(** X10: up to 200 identifiers go out in a single request that names each of
    them once, in order; the last one is printed before. *)
Theorem small_collection_goes_in_one_request
    (front : list string) (last_id : string) (answer : value) (tr : trace) :
  (List.length front < 200)%nat ->
  do_mb_put mb ("collection/" ++ py_str py collection ++ "/release-groups/"
                  ++ join ";" (front ++ [last_id])) = Ret answer ->
  add_release_groups_to_collection py mb collection
    (map VStr (front ++ [last_id])) tr
  = ((tr ++ [Print (py_str py (VStr last_id));
             MbPut ("collection/" ++ py_str py collection ++ "/release-groups/"
                      ++ join ";" (front ++ [last_id]))])%list,
     Ret tt).
Proof.
  intros Hlen Hput. unfold add_release_groups_to_collection.
  rewrite length_map, length_app. cbn [List.length].
  replace (List.length front + 1)%nat with (S (List.length front)) by lia.
  unfold range. cbn [range_fuel Nat.ltb Nat.leb].
  assert (Hone : range_fuel (List.length front) (0 + 200) (S (List.length front)) 200
                 = []).
  { destruct (List.length front) as [|n] eqn:E; [reflexivity|].
    cbn [range_fuel].
    destruct (Nat.ltb_spec (0 + 200) (S (S n))) as [Hlt|_]; [lia|reflexivity]. }
  rewrite Hone. cbn [for_each]. unfold slice.
  replace (0 + 200 + 1 - 0)%nat with 201%nat by lia.
  cbn [skipn]. rewrite firstn_all2 by (rewrite length_map, length_app; simpl; lia).
  erewrite bind_ret; [reflexivity|].
  rewrite map_app. cbn [map]. rewrite list_last_snoc.
  rewrite (bind_lift_ret _ _ _ _ eq_refl).
  change (map VStr front ++ [VStr last_id])%list
    with (map VStr front ++ map VStr [last_id])%list.
  rewrite <- map_app. unfold str_join. rewrite strings_of_strs.
  unfold print, call, emit, modify, bind, lift, ret. cbn [fst snd].
  rewrite Hput, <- app_assoc. reflexivity.
Qed.

(** X11: however long the list, no identifier is left out: when the requests
    succeed, every identifier of the list is named in the path of one of the
    PUT requests sent. *)
Theorem no_identifier_is_left_out (ids : list string) (tr : trace) :
  (forall path, exists answer, do_mb_put mb path = Ret answer) ->
  snd (add_release_groups_to_collection py mb collection (map VStr ids) tr)
    = Ret tt
  /\ forall id, In id ids ->
       exists chunk,
         In id chunk
         /\ In (MbPut ("collection/" ++ py_str py collection
                         ++ "/release-groups/" ++ join ";" chunk))
               (fst (add_release_groups_to_collection py mb collection
                       (map VStr ids) tr)).
Proof.
  intros Hput. unfold add_release_groups_to_collection.
  rewrite length_map.
  destruct (chunk_requests ids (range 0 (List.length ids) 200)
              (fun index Hin => range_fuel_below _ _ _ _ _ Hin) Hput tr)
    as (added & Hrun & Hin).
  cbv zeta in Hrun |- *. rewrite Hrun. split; [reflexivity|].
  intros id Hid. apply In_nth_error in Hid as [i Hi].
  assert (Hlt : (i < List.length ids)%nat)
    by (apply nth_error_Some; congruence).
  pose proof (Nat.Div0.mul_div_le i 200) as Hle.
  pose proof (Nat.mod_upper_bound i 200 ltac:(discriminate)) as Hmod.
  pose proof (Nat.div_mod_eq i 200) as Hdiv.
  exists (firstn 201 (skipn (0 + i / 200 * 200) ids)). split.
  - apply (nth_error_In _ (i mod 200)).
    rewrite nth_error_firstn, nth_error_skipn.
    destruct (Nat.ltb_spec (i mod 200) 201) as [_|Hge]; [|lia].
    rewrite <- Hi. f_equal. lia.
  - cbn [fst]. apply in_or_app. right. apply Hin.
    unfold range. apply range_fuel_covers; lia.
Qed.

End ChunkContents.

(* ===================================================================== *)
(** ** The exporter: the ratings page and the ratings file                *)
(* ===================================================================== *)

Section RatingsPage.
Import Py ExportFromDiscogs ExporterVocabulary.
Variable py : Builtins.
Variable site : Discogs.

(** X18: a row without release anchor or without rating element fails the
    whole page: no record is returned for any row of it. *)
Theorem incomplete_row_fails_the_page (rows : list row) (r : row) :
  In r rows ->
  release_anchors r = [] \/ rating_tags r = [] ->
  DiscogsHtmlClient.parse_rows rows = Raise IndexError
  \/ DiscogsHtmlClient.parse_rows rows = Raise (KeyError "data-value").
Proof.
  intros Hin Hbad.
  induction rows as [|r0 rows IH]; [destruct Hin|].
  cbn [DiscogsHtmlClient.parse_rows].
  destruct (list_last (rating_tags r0)) as [tag|e|] eqn:Htag.
  - unfold DiscogsHtmlClient._parse_release_info.
    destruct (list_last (release_anchors r0)) as [a|e|] eqn:Hanchor.
    + destruct (assoc "data-value" tag); [|now right].
      destruct Hin as [->|Hin].
      * destruct Hbad as [Hbad|Hbad]; rewrite Hbad in *; discriminate.
      * destruct (IH Hin) as [-> | ->]; [now left|now right].
    + destruct (release_anchors r0) as [|a l]; [injection Hanchor as <-; now left|].
      exfalso. clear - Hanchor. revert a Hanchor.
      induction l as [|b l IHl]; intros a H; [discriminate|exact (IHl b H)].
    + exfalso. clear - Hanchor. destruct (release_anchors r0) as [|a l];
        [discriminate|]. revert a Hanchor.
      induction l as [|b l IHl]; intros a H; [discriminate|exact (IHl b H)].
  - destruct (rating_tags r0) as [|t l]; [injection Htag as <-; now left|].
    exfalso. clear - Htag. revert t Htag.
    induction l as [|b l IHl]; intros t H; [discriminate|exact (IHl b H)].
  - exfalso. clear - Htag. destruct (rating_tags r0) as [|t l]; [discriminate|].
    revert t Htag.
    induction l as [|b l IHl]; intros t H; [discriminate|exact (IHl b H)].
Qed.

(** X19: a page that parses gives one record per row, in row order: the
    record of a row has the text and the shortened URL of the row's last
    release anchor and the value of its last rating element. *)
Theorem parsed_page_follows_the_rows (rows : list row) (info : list value) :
  DiscogsHtmlClient.parse_rows rows = Ret info ->
  List.length info = List.length rows
  /\ forall i r, nth_error rows i = Some r ->
       exists release_anchor rating_tag rating,
         list_last (release_anchors r) = Ret release_anchor
         /\ list_last (rating_tags r) = Ret rating_tag
         /\ assoc "data-value" rating_tag = Some rating
         /\ nth_error info i
            = Some (VDict
                [("artists", DiscogsHtmlClient._parse_artists_info r);
                 ("release",
                  VDict [("name", VStr (anchor_text release_anchor));
                         ("url", VStr (URL_BASE
                                       ++ DiscogsHtmlClient.url_short_form
                                            (href release_anchor)))]);
                 ("rating", VStr rating)]).
Proof.
  revert info. induction rows as [|r0 rows IH]; intros info;
    cbn [DiscogsHtmlClient.parse_rows].
  - intros [= <-]. split; [reflexivity|]. intros [|i] r; discriminate.
  - destruct (list_last (rating_tags r0)) as [tag| |] eqn:Htag; try discriminate.
    unfold DiscogsHtmlClient._parse_release_info.
    destruct (list_last (release_anchors r0)) as [a| |] eqn:Hanchor;
      try discriminate.
    destruct (assoc "data-value" tag) as [rating|] eqn:Hrating; try discriminate.
    destruct (DiscogsHtmlClient.parse_rows rows) as [rest| |]; try discriminate.
    intros [= <-]. destruct (IH rest eq_refl) as [Hlen Hnth].
    split; [simpl; now rewrite Hlen|].
    intros [|i] r Hr.
    + injection Hr as <-. now exists a, tag, rating.
    + exact (Hnth i r Hr).
Qed.

Lemma html_export_run (username : value) (export_dir : string)
    (pages : list (list value)) (fuel : nat) (st : state) :
  html_listing (ratings_page site username)
    (DiscogsHtmlClient._parse_release_ratings_html site) pages ->
  (List.length pages < fuel)%nat ->
  DiscogsHtmlClient.export_release_ratings site fuel username export_dir st
  = ({| sent := (sent st ++ page_requests (GetRatings username) 1
                              (S (List.length pages)))%list;
        files := (os_path_join export_dir "release-ratings.json",
                  VList (List.concat pages)) :: files st |},
     Ret (os_path_join export_dir "release-ratings.json")).
Proof.
  intros Hpages Hfuel. unfold DiscogsHtmlClient.export_release_ratings.
  rewrite (bind_ret _ _ _ _ _
             (html_iter_pages username GetRatings (ratings_page site)
                (DiscogsHtmlClient._parse_release_ratings_html site)
                pages fuel st Hpages Hfuel)).
  reflexivity.
Qed.

(** X20: the ratings file holds the records of all pages: for a listing of
    [n] pages, the export asks for the pages 1 to [n + 1], writes their
    records in order to [release-ratings.json] in the export directory,
    keeps the other files, and reading the file it names gives the records
    back. *)
Theorem ratings_file_holds_all_pages (username : value) (export_dir : string)
    (pages : list (list value)) (fuel : nat) (st : state) :
  html_listing (ratings_page site username)
    (DiscogsHtmlClient._parse_release_ratings_html site) pages ->
  (List.length pages < fuel)%nat ->
  exists st',
    DiscogsHtmlClient.export_release_ratings site fuel username export_dir st
    = (st', Ret (os_path_join export_dir "release-ratings.json"))
    /\ sent st' = (sent st ++ page_requests (GetRatings username) 1
                                (S (List.length pages)))%list
    /\ load_json (os_path_join export_dir "release-ratings.json") st'
       = (st', Ret (VList (List.concat pages)))
    /\ forall other, other <> os_path_join export_dir "release-ratings.json" ->
         assoc other (files st') = assoc other (files st).
Proof.
  intros Hpages Hfuel.
  rewrite (html_export_run username export_dir pages fuel st Hpages Hfuel).
  eexists. split; [reflexivity|].
  split; [reflexivity|split].
  - unfold load_json, bind, gets. cbn [files assoc].
    now rewrite String.eqb_refl.
  - intros other Hother. cbn [files assoc].
    destruct (String.eqb_spec (os_path_join export_dir "release-ratings.json") other);
      [congruence|reflexivity].
Qed.

End RatingsPage.

(* ===================================================================== *)
(** ** The exporter: waiting out the rate limit                           *)
(* ===================================================================== *)

Section RateLimit.
Import Py ExportFromDiscogs ExportClients ClientsVocabulary.
Variable answers : nat -> string -> outcome response.
Variable url : string.

Lemma waited_once (st : line) (k : nat) :
  waited url {| requested := (requested st ++ [url])%list;
            slept := (slept st + 60)%Z;
            console := ((console st
                         ++ ["Making requests too quickly. Taking a break, then continuing..."])
                        ++ ["Continuing..."])%list |} k
  = waited url st (S k).
Proof.
  unfold waited. cbn [requested slept console repeat List.concat].
  f_equal.
  - now rewrite <- app_assoc.
  - lia.
  - now rewrite <- !app_assoc.
Qed.

Lemma get_after_429 (fuel : nat) (st : line) (r : response) :
  answers (List.length (requested st)) url = Ret r ->
  status_code r = 429%Z ->
  _get answers (S fuel) url st
  = _get answers fuel url
      {| requested := (requested st ++ [url])%list;
         slept := (slept st + 60)%Z;
         console := ((console st
                      ++ ["Making requests too quickly. Taking a break, then continuing..."])
                     ++ ["Continuing..."])%list |}.
Proof.
  intros Hanswer Hcode. cbn [_get]. unfold bind at 1, requests_get.
  rewrite Hanswer, Hcode. reflexivity.
Qed.


(** X22: the code sets no limit to the retries: while the site answers
    429, [_get] does not return, whatever number of calls it is allowed
    (the recursion limit of the interpreter is not part of the model). *)
Theorem get_never_gives_up (fuel : nat) (st : line) :
  (forall n, exists r, answers n url = Ret r /\ status_code r = 429%Z) ->
  _get answers fuel url st = (waited url st fuel, OutOfFuel).
Proof.
  intros Hbusy. revert st. induction fuel as [|fuel IH]; intros st.
  - unfold waited. cbn. rewrite !app_nil_r. destruct st; cbn.
    unfold lift. do 2 f_equal. lia.
  - destruct (Hbusy (List.length (requested st))) as (r & Hanswer & Hcode).
    rewrite (get_after_429 fuel st r Hanswer Hcode), IH.
    now rewrite waited_once.
Qed.

End RateLimit.

(* ===================================================================== *)
(** ** The exporter: the user name in the cookie                          *)
(* ===================================================================== *)

Section Cookie.
Import Py ExportFromDiscogs ExportClients ClientsVocabulary.

Lemma lstrip_contains (p : ascii -> bool) (c : ascii) (s : string) :
  p c = false -> contains c (lstrip p s) = contains c s.
Proof.
  intros Hc. induction s as [|a s IH]; [reflexivity|].
  cbn [lstrip]. destruct (p a) eqn:Ha; [|reflexivity].
  rewrite IH. cbn [contains].
  destruct (Ascii.eqb_spec a c) as [->|_]; [congruence|reflexivity].
Qed.

Lemma rstrip_contains (p : ascii -> bool) (c : ascii) (s : string) :
  p c = false -> contains c (rstrip p s) = contains c s.
Proof.
  intros Hc. induction s as [|a s IH]; [reflexivity|].
  cbn [rstrip contains]. rewrite <- IH.
  destruct (rstrip p s) as [|b kept]; [|reflexivity].
  cbn [contains]. rewrite orb_false_r.
  destruct (p a) eqn:Ha; cbn [contains]; [|now rewrite orb_false_r].
  destruct (Ascii.eqb_spec a c) as [->|_]; [congruence|reflexivity].
Qed.

Lemma stripped_contains_equals (piece : string) :
  contains "=" (strip_where (Ascii.eqb ";") (strip piece)) = contains "=" piece.
Proof.
  unfold strip, strip_where.
  rewrite rstrip_contains, lstrip_contains by reflexivity.
  now rewrite rstrip_contains, lstrip_contains by reflexivity.
Qed.

Lemma dict_of_rejects (items : list (list string)) (item : list string) :
  In item items -> List.length item <> 2%nat ->
  forall d, dict_of items d = Raise ValueError.
Proof.
  intros Hin Hlen. induction items as [|i items IH]; [destruct Hin|]; intros d.
  destruct Hin as [->|Hin].
  - destruct item as [|k [|v [|w item]]]; try reflexivity. now destruct Hlen.
  - destruct i as [|k [|v [|w i]]]; try reflexivity. cbn. now apply IH.
Qed.

Lemma dict_of_pairs (pieces : list string) :
  Forall (fun piece => contains "=" piece = true) pieces ->
  forall d, exists d',
    dict_of (map (fun argstr =>
                    split_once "=" (strip_where (Ascii.eqb ";") (strip argstr)))
                 pieces) d = Ret d'.
Proof.
  induction 1 as [|piece pieces Hpiece _ IH]; intros d; [now exists d|].
  cbn [map]. unfold split_once at 1.
  rewrite stripped_contains_equals, Hpiece. cbn [dict_of]. apply IH.
Qed.

(** X23: a cookie is taken apart at its blanks, and every piece has to hold
    an "=": with a piece that holds none (the empty piece between two
    blanks, the empty cookie) the user name cannot be read and [ValueError]
    is raised; otherwise a user name or [None] is returned. *)
Theorem cookie_needs_equals_in_every_piece (cookie : string) :
  ((exists piece, In piece (split " " cookie) /\ contains "=" piece = false) ->
   _extract_username_from_cookie cookie = Raise ValueError)
  /\ ((forall piece, In piece (split " " cookie) -> contains "=" piece = true) ->
      exists username, _extract_username_from_cookie cookie = Ret username).
Proof.
  unfold _extract_username_from_cookie. split.
  - intros (piece & Hin & Hnone).
    rewrite (dict_of_rejects _
               (split_once "=" (strip_where (Ascii.eqb ";") (strip piece)))).
    + reflexivity.
    + apply in_map_iff. now exists piece.
    + unfold split_once. rewrite stripped_contains_equals, Hnone. discriminate.
  - intros Hall.
    destruct (dict_of_pairs (split " " cookie)
                (proj2 (Forall_forall _ _) Hall) []) as [d ->].
    cbn. now eexists.
Qed.

Lemma assoc_set_str_same (d : list (string * string)) (k v : string) :
  assoc k (set_str d k v) = Some v.
Proof.
  induction d as [|[k' v'] d IH]; cbn; [now rewrite String.eqb_refl|].
  destruct (String.eqb_spec k' k) as [->|Hne]; cbn.
  - now rewrite String.eqb_refl.
  - destruct (String.eqb_spec k' k); [congruence|exact IH].
Qed.

Lemma assoc_set_str_other (d : list (string * string)) (k key v : string) :
  k <> key -> assoc key (set_str d k v) = assoc key d.
Proof.
  intros Hne. induction d as [|[k' v'] d IH]; cbn.
  - destruct (String.eqb_spec k key); [congruence|reflexivity].
  - destruct (String.eqb_spec k' k) as [->|Hk]; cbn.
    + destruct (String.eqb_spec k key); [congruence|reflexivity].
    + now rewrite IH.
Qed.

Lemma dict_of_keeps (key : string) (pieces : list string) :
  Forall (fun piece => contains "=" piece = true) pieces ->
  Forall (fun piece => piece_key piece <> key) pieces ->
  forall d, exists d',
    dict_of (map (fun argstr =>
                    split_once "=" (strip_where (Ascii.eqb ";") (strip argstr)))
                 pieces) d = Ret d'
    /\ assoc key d' = assoc key d.
Proof.
  induction 1 as [|piece pieces Hpiece _ IH]; intros Hkeys d.
  - now exists d.
  - inversion Hkeys as [|? ? Hkey Hrest]; subst.
    cbn [map]. unfold split_once at 1.
    rewrite stripped_contains_equals, Hpiece. cbn [dict_of].
    destruct (IH Hrest (set_str d (piece_key piece)
                          (after_first "=" (strip_where (Ascii.eqb ";") (strip piece)))))
      as (d' & Hrun & Hassoc).
    exists d'. split; [exact Hrun|].
    now rewrite Hassoc, assoc_set_str_other.
Qed.

Lemma lstrip_head (p : ascii -> bool) (a : ascii) (s : string) :
  p a = false -> lstrip p (String a s) = String a s.
Proof. intros H. cbn. now rewrite H. Qed.

Lemma rstrip_kept (p : ascii -> bool) (s : string) :
  all_chars (fun c => negb (p c)) s = true -> rstrip p s = s.
Proof.
  induction s as [|a s IH]; [reflexivity|]. cbn. intros H.
  apply andb_prop in H as [Ha Hs]. rewrite (IH Hs).
  destruct s; [now destruct (p a)|reflexivity].
Qed.

Lemma rstrip_app_stripped (p : ascii -> bool) (s t : string) :
  all_chars p t = true -> rstrip p (s ++ t) = rstrip p s.
Proof.
  intros Ht. induction s as [|a s IH]; cbn [append rstrip].
  - induction t as [|b t IHt]; [reflexivity|].
    cbn in Ht. apply andb_prop in Ht as [Hb Ht].
    cbn [rstrip]. rewrite (IHt Ht). cbn. now rewrite Hb.
  - now rewrite IH.
Qed.

Lemma all_chars_app (p : ascii -> bool) (s t : string) :
  all_chars p (s ++ t) = all_chars p s && all_chars p t.
Proof.
  induction s as [|a s IH]; [reflexivity|]. cbn. now rewrite IH, andb_assoc.
Qed.

Lemma contains_app (c : ascii) (s t : string) :
  contains c (s ++ t) = contains c s || contains c t.
Proof.
  induction s as [|a s IH]; [reflexivity|]. cbn. now rewrite IH, orb_assoc.
Qed.

Lemma all_chars_weaken (p q : ascii -> bool) (s : string) :
  (forall c, p c = true -> q c = true) ->
  all_chars p s = true -> all_chars q s = true.
Proof.
  intros Hpq. induction s as [|a s IH]; [reflexivity|]. cbn. intros H.
  apply andb_prop in H as [Ha Hs]. now rewrite (Hpq a Ha), IH.
Qed.

(** The pair of the user name, with any number of semicolons after it, is
    read as the key "ck_username" and the name. *)
Lemma username_piece (name semicolons : string) :
  all_chars plain name = true ->
  all_chars (Ascii.eqb ";") semicolons = true ->
  split_once "=" (strip_where (Ascii.eqb ";")
                    (strip ("ck_username=" ++ name ++ semicolons)))
  = ["ck_username"; name].
Proof.
  intros Hname Hsemis.
  assert (Hspace : all_chars (fun c => negb (is_space c)) name = true).
  { apply (all_chars_weaken plain); [|exact Hname].
    unfold plain. intros c H. now apply andb_prop in H as [-> _]. }
  assert (Hsemi : all_chars (fun c => negb (Ascii.eqb ";" c)) name = true).
  { apply (all_chars_weaken plain); [|exact Hname].
    unfold plain. intros c H. now apply andb_prop in H as [_ ->]. }
  assert (Hsemis' : all_chars (fun c => negb (is_space c)) semicolons = true).
  { apply (all_chars_weaken (Ascii.eqb ";")); [|exact Hsemis].
    intros c H. apply Ascii.eqb_eq in H. now subst c. }
  unfold strip, strip_where.
  change ("ck_username=" ++ name ++ semicolons)
    with (String "c" ("k_username=" ++ name ++ semicolons)).
  rewrite (lstrip_head is_space) by reflexivity.
  rewrite (rstrip_kept is_space)
    by (cbn; rewrite all_chars_app, Hspace, Hsemis'; reflexivity).
  rewrite (lstrip_head (Ascii.eqb ";")) by reflexivity.
  change (String "c" ("k_username=" ++ name ++ semicolons))
    with ("ck_username=" ++ (name ++ semicolons)).
  rewrite <- append_assoc, rstrip_app_stripped by exact Hsemis.
  rewrite rstrip_kept by (cbn; exact Hsemi).
  reflexivity.
Qed.

(** X24: the user name is the value of the last piece with the key
    "ck_username": for a cookie whose pieces all hold an "=" and no blank,
    with the piece [ck_username=NAME] (followed by semicolons or not) and no
    such key in the pieces after it, the name read is [NAME]. *)
Theorem username_is_read_from_the_cookie
    (before after : list string) (name semicolons : string) :
  Forall (fun piece => contains " " piece = false /\ contains "=" piece = true)
         (before ++ after) ->
  Forall (fun piece => piece_key piece <> "ck_username") after ->
  all_chars plain name = true ->
  all_chars (Ascii.eqb ";") semicolons = true ->
  _extract_username_from_cookie
    (join " " (before ++ ("ck_username=" ++ name ++ semicolons) :: after))
  = Ret (VStr name).
Proof.
  intros Hpieces Hafter Hname Hsemis.
  apply Forall_app in Hpieces as [Hbefore Hafter'].
  assert (Hblank : contains " " ("ck_username=" ++ name ++ semicolons) = false).
  { cbn. clear - Hname Hsemis.
    assert (H : forall p s, (forall c, p c = true -> Ascii.eqb c " " = false) ->
                all_chars p s = true -> contains " " s = false).
    { intros p s Hp. induction s as [|a s IH]; [reflexivity|]. cbn. intros H.
      apply andb_prop in H as [Ha Hs]. now rewrite (Hp a Ha), IH. }
    assert (Hn : contains " " name = false).
    { apply (H plain); [|exact Hname]. intros c Hc. unfold plain in Hc.
      apply andb_prop in Hc as [Hc _].
      destruct (Ascii.eqb_spec c " ") as [->|]; [discriminate|reflexivity]. }
    assert (Hs : contains " " semicolons = false).
    { apply (H (Ascii.eqb ";")); [|exact Hsemis]. intros c Hc.
      apply Ascii.eqb_eq in Hc. now subst c. }
    now rewrite contains_app, Hn, Hs. }
  unfold _extract_username_from_cookie.
  rewrite split_join.
  - rewrite map_app. cbn [map]. rewrite (username_piece _ _ Hname Hsemis).
    destruct (dict_of_pairs before
                (Forall_impl _ (fun p H => proj2 H) Hbefore) []) as [d1 Hd1].
    destruct (dict_of_keeps "ck_username" after
                (Forall_impl _ (fun p H => proj2 H) Hafter') Hafter
                (set_str d1 "ck_username" name)) as (d2 & Hd2 & Hassoc).
    assert (Hrun : forall items1 items2 d d',
               dict_of items1 d = Ret d' ->
               dict_of (items1 ++ items2) d = dict_of items2 d').
    { induction items1 as [|[|k [|v [|w i]]] items1 IH1]; intros items2 d d' H;
        cbn in *; try discriminate; [now injection H as <-|now apply IH1]. }
    rewrite (Hrun _ _ _ _ Hd1). cbn [dict_of]. rewrite Hd2. cbn [and_then].
    now rewrite Hassoc, assoc_set_str_same.
  - now destruct before.
  - apply Forall_app. split.
    + exact (Forall_impl _ (fun p H => proj1 H) Hbefore).
    + constructor; [exact Hblank|exact (Forall_impl _ (fun p H => proj1 H) Hafter')].
Qed.

End Cookie.

(* ===================================================================== *)
(** ** The exporter: the collection and the wantlist                      *)
(* ===================================================================== *)

Section Listings.
Import Py ExportFromDiscogs ExporterVocabulary ExportClients ClientsVocabulary.

Lemma and_then_ret {A B : Type} (o : outcome A) (f : A -> outcome B) (b : B) :
  and_then o f = Ret b -> exists a, o = Ret a /\ f a = Ret b.
Proof. destruct o as [a| |]; try discriminate. intros H. now exists a. Qed.





Lemma each_app {A B : Type} (f : A -> outcome B) (l1 l2 : list A) (out : list B) :
  each f (l1 ++ l2) = Ret out ->
  exists out1 out2,
    each f l1 = Ret out1 /\ each f l2 = Ret out2 /\ out = (out1 ++ out2)%list.
Proof.
  revert out. induction l1 as [|x l1 IH]; intros out; cbn [app each].
  - intros H. now exists [], out.
  - intros H. apply and_then_ret in H as (y & Hy & H).
    apply and_then_ret in H as (ys & Hys & H). injection H as <-.
    destruct (IH ys Hys) as (o1 & o2 & H1 & H2 & ->).
    exists (y :: o1), o2. rewrite Hy. cbn. now rewrite H1.
Qed.


Lemma extract_artist_shape (artist_json info : value) :
  _extract_artist_info artist_json = Ret info -> collected_artist info.
Proof.
  unfold _extract_artist_info. intros H.
  apply and_then_ret in H as (n & _ & H).
  apply and_then_ret in H as (a & _ & H).
  apply and_then_ret in H as (u & _ & H).
  injection H as <-. now exists n, a, u.
Qed.

Lemma each_Forall {A B : Type} (f : A -> outcome B) (P : B -> Prop)
    (l : list A) (out : list B) :
  (forall a b, f a = Ret b -> P b) -> each f l = Ret out ->
  List.length out = List.length l /\ Forall P out.
Proof.
  intros Hf. revert out. induction l as [|x l IH]; intros out; cbn [each].
  - intros [= <-]. now split.
  - intros H. apply and_then_ret in H as (y & Hy & H).
    apply and_then_ret in H as (ys & Hys & H). injection H as <-.
    destruct (IH ys Hys) as [Hlen Hall].
    split; [simpl; now rewrite Hlen|constructor; eauto].
Qed.

Lemma collect_item_shape (item info : value) :
  collect_item item = Ret info -> collected info.
Proof.
  unfold collect_item, _extract_release_info. intros H.
  apply and_then_ret in H as (basic & _ & H).
  apply and_then_ret in H as (artists & _ & H).
  apply and_then_ret in H as (artist_list & _ & H).
  apply and_then_ret in H as (infos & Hinfos & H).
  apply and_then_ret in H as (basic' & _ & H).
  apply and_then_ret in H as (release & Hrelease & H).
  apply and_then_ret in Hrelease as (t & _ & Hrelease).
  apply and_then_ret in Hrelease as (u & _ & Hrelease).
  apply and_then_ret in Hrelease as (m & _ & Hrelease).
  injection Hrelease as <-. injection H as <-.
  exists infos, t, u, m. split; [reflexivity|].
  exact (proj2 (each_Forall _ _ _ _ extract_artist_shape Hinfos)).
Qed.


(** X26: when the listing is converted there is one record per item, and
    every record has the two keys "artists" and "release", the release with
    name, URL and master URL, each artist with name, name variation and URL. *)
Theorem collected_records_have_the_exported_shape
    (release_list infos : list value) :
  _collect_release_info release_list = Ret infos ->
  List.length infos = List.length release_list /\ Forall collected infos.
Proof. apply each_Forall. exact collect_item_shape. Qed.

Section Pages.
Variable username : value.
Variable req : value -> Z -> request.
Variable answer : value -> Z -> outcome value.
Variable root_key : string.

(** The pages before the last one: each costs a request and its records
    join those collected so far. *)
Lemma collect_loop_past (before : list (list value)) (total : nat) :
  forall (k fuel : nat) (release_info infos : list value) (st : state),
  (k + List.length before < total)%nat ->
  (forall i page, nth_error before i = Some page ->
     exists resp_json pagination,
       answer username (Z.of_nat (S (k + i))) = Ret resp_json
       /\ getitem resp_json root_key = Ret (VList page)
       /\ getitem resp_json "pagination" = Ret pagination
       /\ getitem pagination "pages" = Ret (VInt (Z.of_nat total))) ->
  _collect_release_info (List.concat before) = Ret infos ->
  collect_pages_loop (List.length before + fuel) username
    (fun u n => send (req u n) (answer u n)) root_key release_info
    (Z.of_nat (S k)) st
  = collect_pages_loop fuel username
      (fun u n => send (req u n) (answer u n)) root_key
      (release_info ++ infos)%list (Z.of_nat (S (k + List.length before)))
      (after_requests st (page_requests (req username) (S k) (List.length before))).
Proof.
  induction before as [|page before IH];
    intros k fuel release_info infos st Htotal Hpages Hinfos.
  - cbn in Hinfos. injection Hinfos as <-. cbn [List.length].
    rewrite Nat.add_0_r, app_nil_r. unfold after_requests, page_requests.
    cbn [seq map]. rewrite app_nil_r. now destruct st.
  - cbn [List.concat] in Hinfos. unfold _collect_release_info in Hinfos.
    apply each_app in Hinfos as (i1 & i2 & H1 & H2 & ->).
    destruct (Hpages 0%nat page eq_refl)
      as (resp_json & pagination & Hanswer & Hentries & Hpagination & Hcount).
    rewrite Nat.add_0_r in Hanswer.
    cbn [List.length plus collect_pages_loop].
    rewrite Hanswer, (bind_ret _ _ _ _ _ (send_eq _ _ _)).
    rewrite (bind_lift_ret _ _ _ _ Hentries).
    rewrite (bind_lift_ret _ _ _ page) by reflexivity.
    rewrite (bind_lift_ret _ _ _ _ H1).
    rewrite (bind_lift_ret _ _ _ _ Hpagination), (bind_lift_ret _ _ _ _ Hcount).
    cbn [key_eqb].
    assert (Hgo : (Z.of_nat (S k) =? Z.of_nat total)%Z = false)
      by (apply Z.eqb_neq; simpl in Htotal; lia).
    rewrite Hgo, next_page, (IH (S k) fuel _ i2).
    + rewrite after_requests_app, <- app_assoc.
      replace (S k + List.length before)%nat
        with (k + S (List.length before))%nat by lia.
      reflexivity.
    + simpl in Htotal. lia.
    + intros i p Hp. rewrite Nat.add_succ_l, <- Nat.add_succ_r.
      exact (Hpages (S i) p Hp).
    + exact H2.
Qed.

Lemma collect_pages_all (pages : list (list value)) (infos : list value)
    (fuel : nat) (st : state) :
  pages <> [] ->
  rest_listing (answer username) root_key pages ->
  _collect_release_info (List.concat pages) = Ret infos ->
  (List.length pages <= fuel)%nat ->
  collect_pages fuel username (fun u n => send (req u n) (answer u n)) root_key st
  = (after_requests st (page_requests (req username) 1 (List.length pages)),
     Ret infos).
Proof.
  intros Hne Hpages Hinfos Hfuel.
  destruct (exists_last Hne) as (before & last & ->).
  rewrite concat_app in Hinfos. cbn [List.concat] in Hinfos.
  rewrite app_nil_r in Hinfos. unfold _collect_release_info in Hinfos.
  apply each_app in Hinfos as (i1 & i2 & H1 & H2 & ->).
  rewrite length_app in *. cbn [List.length] in *.
  unfold collect_pages.
  replace fuel with (List.length before + S (fuel - List.length before - 1))%nat
    by lia.
  rewrite (collect_loop_past before (List.length before + 1) 0 _ [] i1 st);
    [|lia| |exact H1].
  - destruct (Hpages (List.length before) last)
      as (resp_json & pagination & Hanswer & Hentries & Hpagination & Hcount).
    { rewrite nth_error_app2, Nat.sub_diag by lia. reflexivity. }
    rewrite length_app in Hcount. cbn [List.length] in Hcount.
    cbn [collect_pages_loop plus].
    rewrite Hanswer, (bind_ret _ _ _ _ _ (send_eq _ _ _)).
    rewrite (bind_lift_ret _ _ _ _ Hentries).
    rewrite (bind_lift_ret _ _ _ last) by reflexivity.
    rewrite (bind_lift_ret _ _ _ _ H2).
    rewrite (bind_lift_ret _ _ _ _ Hpagination), (bind_lift_ret _ _ _ _ Hcount).
    cbn [key_eqb].
    assert (Hstop : (Z.of_nat (S (List.length before))
                     =? Z.of_nat (List.length before + 1))%Z = true)
      by (apply Z.eqb_eq; lia).
    rewrite Hstop. unfold ret. rewrite after_requests_app.
    replace (List.length before + 1)%nat with (S (List.length before)) by lia.
    unfold page_requests. rewrite seq_S, map_app. reflexivity.
  - intros i page Hpage.
    destruct (Hpages i page) as (r & pg & Ha & He & Hp & Hc).
    { rewrite nth_error_app1; [exact Hpage|].
      apply nth_error_Some. congruence. }
    rewrite length_app in Hc. exists r, pg. now repeat split.
Qed.


End Pages.

Variable site : Discogs.

(** X27: the collection file holds one record per release of the collection,
    in page and item order: for a listing of [n] pages whose items can all
    be converted, the export asks for the pages 1 to [n], writes the records
    to [collection.json] and returns its path. The wantlist is exported the
    same way to [wantlist.json]. *)
Theorem listing_files_hold_all_pages
    (username : value) (export_dir : string)
    (pages : list (list value)) (infos : list value) (fuel : nat) (st : state) :
  pages <> [] ->
  _collect_release_info (List.concat pages) = Ret infos ->
  (List.length pages <= fuel)%nat ->
  (rest_listing (list_collection site username) "releases" pages ->
   export_collection site fuel username export_dir st
   = ({| sent := (sent st ++ page_requests (GetCollection username) 1
                               (List.length pages))%list;
         files := (os_path_join export_dir "collection.json", VList infos)
                  :: files st |},
      Ret (os_path_join export_dir "collection.json")))
  /\ (rest_listing (list_wantlist site username) "wants" pages ->
      export_wantlist site fuel username export_dir st
      = ({| sent := (sent st ++ page_requests (GetWantlist username) 1
                                  (List.length pages))%list;
            files := (os_path_join export_dir "wantlist.json", VList infos)
                     :: files st |},
         Ret (os_path_join export_dir "wantlist.json"))).
Proof.
  intros Hne Hinfos Hfuel. split; intros Hpages.
  - unfold export_collection.
    now rewrite (bind_ret _ _ _ _ _
                   (collect_pages_all username GetCollection (list_collection site)
                      "releases" pages infos fuel st Hne Hpages Hinfos Hfuel)).
  - unfold export_wantlist.
    now rewrite (bind_ret _ _ _ _ _
                   (collect_pages_all username GetWantlist (list_wantlist site)
                      "wants" pages infos fuel st Hne Hpages Hinfos Hfuel)).
Qed.


End Listings.

(* ===================================================================== *)
(** ** The exporter: the export as a whole                                *)
(* ===================================================================== *)

Section WholeExport.
Import Py ExportFromDiscogs ExporterVocabulary ExportClients ClientsVocabulary.
Variable py : Builtins.
Variable site : Discogs.

Lemma ratings_export_name_error
    (fuel : nat) (username : value) (export_dir : string)
    (st st' : state) (ratings_filepath : string)
    (entry : value) (entries : list value) :
  DiscogsHtmlClient.export_release_ratings site fuel username export_dir st
    = (st', Ret ratings_filepath) ->
  assoc ratings_filepath (files st') = Some (VList (entry :: entries)) ->
  export_release_ratings py site fuel username export_dir true st
  = (st', Raise (NameError "rest_client")).
Proof.
  intros Hhtml Hfile. unfold export_release_ratings.
  rewrite (bind_ret _ _ _ _ _ Hhtml).
  rewrite (bind_ret _ _ _ _ _ (load_json_eq _ _ _ Hfile)).
  rewrite (bind_lift_ret _ _ _ (entry :: entries)) by reflexivity.
  assert (Hentry : scraped entry).
  { unfold DiscogsHtmlClient.export_release_ratings in Hhtml.
    apply bind_inv in Hhtml as (rating_info & st1 & Hpages & Hwrite).
    apply iter_pages_loop_scraped in Hpages; [|constructor].
    injection Hwrite as <- <-.
    cbn [files assoc] in Hfile. rewrite String.eqb_refl in Hfile.
    injection Hfile as ->. now inversion Hpages. }
  cbn [augment].
  apply bind_raise, bind_raise, get_master_url_raises, Hentry.
Qed.

(** X29: with the master option on and at least one rating, the whole export
    ends at the first rating: the state is the one the HTML export left, so
    the collection and the wantlist are neither asked for nor written. *)
Theorem master_option_ends_the_export
    (fuel : nat) (identity : outcome value) (cookie : string)
    (export_dir : string) (st st' : state)
    (html_username who rest_username : value) (ratings_filepath : string)
    (entry : value) (entries : list value) :
  _extract_username_from_cookie cookie = Ret html_username ->
  identity = Ret who ->
  getitem who "username" = Ret rest_username ->
  DiscogsHtmlClient.export_release_ratings site fuel html_username export_dir st
    = (st', Ret ratings_filepath) ->
  assoc ratings_filepath (files st') = Some (VList (entry :: entries)) ->
  export py site fuel identity cookie true export_dir st
  = (st', Raise (NameError "rest_client")).
Proof.
  intros Hcookie Hidentity Hwho Hhtml Hfile. unfold export.
  rewrite (bind_lift_ret _ _ _ _ Hcookie), (bind_lift_ret _ _ _ _ Hidentity).
  rewrite (bind_lift_ret _ _ _ _ Hwho).
  apply bind_raise.
  exact (ratings_export_name_error _ _ _ _ _ _ _ _ Hhtml Hfile).
Qed.

End WholeExport.

(* ===================================================================== *)
(** ** From the export files to the cascade                               *)
(* ===================================================================== *)

Section ExportedRecords.
Import Py ExportFromDiscogs ExporterVocabulary ExportClients ClientsVocabulary.
Import LoadIntoMusicbrainz LoaderVocabulary.
Variable py : Builtins.
Variable mb : MusicBrainz.


End ExportedRecords.

(* ===================================================================== *)
(** ** The loader: collections                                            *)
(* ===================================================================== *)

Section Collections.
Import Py LoadIntoMusicbrainz LoaderVocabulary CascadeVocabulary.
Import LoadCollections CollectionsVocabulary.
Variable Srv : Type.
Variable py : Builtins.
Variable mb : MusicBrainz.
Variable web : Web Srv.
Variable read_json : string -> outcome value.

Lemma first_named_skips (name : string) (others rest : list value) :
  Forall (named_otherwise name) others ->
  first_named name (others ++ rest) = first_named name rest.
Proof.
  induction 1 as [|c others (n & Hn & Hother) _ IH]; [reflexivity|].
  cbn. now rewrite Hn, Hother.
Qed.

Lemma first_named_hit (name : string) (collection : value) (rest : list value) :
  getitem collection "name" = Ret (VStr name) ->
  first_named name (collection :: rest) = Ret collection.
Proof. intros H. cbn. rewrite H. cbn. now rewrite String.eqb_refl. Qed.

Lemma first_named_none (name : string) (collections : list value) :
  Forall (named_otherwise name) collections ->
  first_named name collections = Ret VNone.
Proof.
  intros H. rewrite <- (app_nil_r collections). now rewrite first_named_skips.
Qed.

Lemma mb_collection_run (name : string) (collections : list value)
    (st : account Srv) :
  lists_collections web (server st) collections ->
  mb_collection web name st
  = (noted GetCollections st, first_named name collections).
Proof.
  intros (answer & Hanswer & Hlist). unfold mb_collection.
  unfold bind at 1, get_collections. rewrite Hanswer.
  rewrite (bind_lift_ret _ _ _ _ Hlist).
  now rewrite (bind_lift_ret _ _ _ collections) by reflexivity.
Qed.

Lemma on_api_frame {A : Type} (m : L A) (st : account Srv) :
  side (fst (on_api m st)) = side st /\ server (fst (on_api m st)) = server st.
Proof. unfold on_api. now destruct (m (api st)). Qed.

Lemma submit_to_frame (collection releases : value) (st : account Srv) :
  side (fst (submit_to py mb collection releases st)) = side st
  /\ server (fst (submit_to py mb collection releases st)) = server st.
Proof.
  unfold submit_to, bind, lift.
  destruct (as_list releases) as [entries| |]; try now split.
  pose proof (on_api_frame (resolve_all py mb entries) st) as [Hside Hserver].
  destruct (on_api (resolve_all py mb entries) st) as [st1 [ids| |]];
    try now split.
  cbn [fst] in Hside, Hserver.
  destruct (getitem collection "id") as [cid| |]; try now split.
  pose proof (on_api_frame
                (add_release_groups_to_collection py mb cid ids) st1) as [H1 H2].
  now rewrite <- Hside, <- Hserver.
Qed.

(** X12: a collection of the name that exists already is used as it is: the
    collections are listed once, the first one of that name receives the
    release groups, no web request is sent and the server is left alone, so
    no second collection of that name is created. *)
Theorem existing_collection_is_used_as_it_is
    (collection_name : string) (releases : value) (st : account Srv)
    (others : list value) (collection : value) (rest : list value) :
  lists_collections web (server st) (others ++ collection :: rest) ->
  Forall (named_otherwise collection_name) others ->
  getitem collection "name" = Ret (VStr collection_name) ->
  import_to_collection py mb web collection_name releases st
    = submit_to py mb collection releases (noted GetCollections st)
  /\ side (fst (import_to_collection py mb web collection_name releases st))
     = (side st ++ [GetCollections])%list
  /\ server (fst (import_to_collection py mb web collection_name releases st))
     = server st.
Proof.
  intros Hlist Hothers Hname.
  assert (Hrun : import_to_collection py mb web collection_name releases st
                 = submit_to py mb collection releases (noted GetCollections st)).
  { unfold import_to_collection.
    erewrite bind_ret;
      [|rewrite (mb_collection_run _ _ _ Hlist),
          first_named_skips, (first_named_hit _ _ _ Hname) by assumption;
        reflexivity].
    destruct collection as [| | | |[|f fs]]; try discriminate. reflexivity. }
  rewrite Hrun. split; [reflexivity|].
  destruct (submit_to_frame collection releases (noted GetCollections st))
    as [-> ->].
  now split.
Qed.

(** X13: when the collection is still missing after the attempt to create
    it, this is printed and nothing else happens: no release is looked up
    and nothing is submitted. *)
Theorem failed_creation_is_reported
    (collection_name : string) (releases : value) (st st1 : account Srv)
    (collections collections1 : list value) :
  lists_collections web (server st) collections ->
  Forall (named_otherwise collection_name) collections ->
  create_collection web collection_name "release group collection"
    (noted GetCollections st) = (st1, Ret tt) ->
  lists_collections web (server st1) collections1 ->
  Forall (named_otherwise collection_name) collections1 ->
  import_to_collection py mb web collection_name releases st
  = ({| api := (api st1 ++ [Print ("There was an issue creating "
                                    ++ collection_name ++ ". Skipping...")])%list;
        side := (side st1 ++ [GetCollections])%list;
        server := server st1 |},
     Ret tt).
Proof.
  intros Hlist Hnone Hcreate Hlist1 Hnone1. unfold import_to_collection.
  erewrite bind_ret;
    [|rewrite (mb_collection_run _ _ _ Hlist), (first_named_none _ _ Hnone);
      reflexivity].
  cbn [truthy negb]. rewrite (bind_ret _ _ _ _ _ Hcreate).
  erewrite bind_ret;
    [|rewrite (mb_collection_run _ _ _ Hlist1), (first_named_none _ _ Hnone1);
      reflexivity].
  reflexivity.
Qed.




(** *** Creating a collection through the web site *)





(** X16: without the two CSRF inputs on the login page nothing is posted:
    the creation ends in [AttributeError] after the login page was fetched,
    and the credentials have not been sent. *)
Theorem login_needs_the_csrf_inputs
    (name collection_type : string) (st : account Srv) (login_page : string) :
  page_of web (server st) WEB_LOGIN_URL = Ret login_page ->
  find_input web login_page "csrf_session_key" = None
  \/ ((exists v, input_value web login_page "csrf_session_key" = Ret v)
      /\ find_input web login_page "csrf_token" = None) ->
  create_collection web name collection_type st
  = (noted (WebGet WEB_LOGIN_URL) st, Raise (AttributeError "attrs")).
Proof.
  intros Hlogin Hmissing.
  unfold create_collection, _web_login, session_get, bind, lift.
  rewrite Hlogin.
  destruct Hmissing as [Hkey|[[v Hv] Htoken]].
  - unfold input_value. now rewrite Hkey.
  - rewrite Hv. unfold input_value. now rewrite Htoken.
Qed.

(** *** The three imports *)

(** X17: the ratings come first, and an error in them ends the import: when
    the cascade raises for a record of the ratings file, the collections are
    not even listed, and nothing has been submitted. *)
Theorem failed_ratings_end_the_import
    (import_dir owned_name wishlist_name : string)
    (load_owned load_wishlist : bool) (st : account Srv)
    (before : list value) (bad : value) (after : list value) (e : exn) :
  read_json (os_path_join import_dir "release-ratings.json")
    = Ret (VList (before ++ bad :: after)) ->
  Forall (rateable py mb) before ->
  (forall tr, snd (lookup_master_mbid py mb bad tr) = Raise e) ->
  let run := import_to_musicbrainz py mb web read_json import_dir owned_name
               wishlist_name true load_owned load_wishlist st in
  snd run = Raise e
  /\ side (fst run) = side st
  /\ server (fst run) = server st
  /\ exists added,
       api (fst run) = (api st ++ added)%list
       /\ forallb reads_only added = true.
Proof.
  intros Hfile Hbefore Hbad.
  destruct (import_ratings_stops py mb read_json import_dir before bad after e
              (api st) Hfile Hbefore Hbad) as (Hraise & added & Htrace & Hadded).
  assert (Hrun : import_to_musicbrainz py mb web read_json import_dir owned_name
                   wishlist_name true load_owned load_wishlist st
                 = ({| api := (api st ++ added)%list; side := side st;
                       server := server st |}, Raise e)).
  { unfold import_to_musicbrainz. apply bind_raise. unfold on_api.
    destruct (import_ratings py mb read_json import_dir (api st)) as [tr1 o].
    simpl in Hraise, Htrace. now subst o tr1. }
  cbv zeta. rewrite Hrun. cbn [fst snd api side server].
  split; [reflexivity|split; [reflexivity|split; [reflexivity|]]].
  now exists added.
Qed.

End Collections.

(* ===================================================================== *)
(** ** The links, the cascade and the requests on sample servers          *)
(* ===================================================================== *)

Section CascadeRuns.
Import Py LoadIntoMusicbrainz Samples LoaderSamples LoaderVocabulary.
Import CascadeVocabulary CascadeSamples.

Lemma single_3_rateable : Forall (rateable python pressings_known) [single_3].
Proof.
  constructor; [|constructor].
  exists (VStr "rg-3"). split; [intros tr; reflexivity|intros _].
  split; [reflexivity|]. exists 3%Z, (VStr "3"). now split.
Qed.

Lemma streaming_is_foreign :
  Forall foreign_relation [relation "streaming" "release" "rel-0"].
Proof.
  constructor; [|constructor].
  exists (VStr "streaming"). split; [reflexivity|discriminate].
Qed.

Lemma lost_raises (tr : trace) :
  snd (lookup_master_mbid python pressings_known lost tr)
  = Raise (KeyError "artist").
Proof. reflexivity. Qed.

Lemma api_url_witness :
  (path (urlparse python "https://api.discogs.com/releases/5?token=releases")
   = "/releases" ++ "/5"
   /\ discog_api_url_to_www python
        "https://api.discogs.com/releases/5?token=releases"
      = "https://www.discogs.com/release/5?token=releases")
  /\ (occurs "api"
        (netloc (urlparse python "https://www.discogs.com/release/5")) = false
      /\ discog_api_url_to_www python "https://www.discogs.com/release/5"
         = "https://www.discogs.com/release/5").
Proof.
  split; (split; [reflexivity|]).
  - exact (proj1 (api_url_becomes_web_url python
                    "https://api.discogs.com/releases/5?token=releases" "/5")
             eq_refl).
  - exact (proj2 (proj2 (proj2 (api_url_becomes_web_url python
                                  "https://www.discogs.com/release/5" "")))
             eq_refl eq_refl eq_refl eq_refl).
Defined.

Lemma first_discogs_relation_witness :
  Forall foreign_relation [relation "streaming" "release" "rel-0"]
  /\ lookup_mbid_by_discog_url python linked_twice
       (VStr "https://api.discogs.com/releases/5") "release" []
     = ([BrowseUrls "https://www.discogs.com/release/5" ["release-rels"]],
        Ret (VStr "rel-5")).
Proof.
  split; [exact streaming_is_foreign|].
  apply (lookup_takes_first_discogs_relation python linked_twice
           "https://api.discogs.com/releases/5" "release" []
           (related "release-relation-list"
              [relation "streaming" "release" "rel-0";
               relation "discogs" "release" "rel-5"])
           (VDict [("id", VStr "url-id");
                   ("release-relation-list",
                    VList [relation "streaming" "release" "rel-0";
                           relation "discogs" "release" "rel-5"])])
           [relation "streaming" "release" "rel-0"]
           (relation "discogs" "release" "rel-5") []
           (VDict [("id", VStr "rel-5")]) (VStr "rel-5"));
    try reflexivity.
  exact streaming_is_foreign.
Defined.

Lemma no_discogs_relation_witness :
  Forall foreign_relation [relation "streaming" "release" "rel-0"]
  /\ lookup_mbid_by_discog_url python linked_otherwise
       (VStr "https://api.discogs.com/releases/5") "release" []
     = ([BrowseUrls "https://www.discogs.com/release/5" ["release-rels"]],
        Ret VNone).
Proof.
  split; [exact streaming_is_foreign|].
  apply (lookup_without_discogs_relation_misses python linked_otherwise
           "https://api.discogs.com/releases/5" "release" []
           (related "release-relation-list"
              [relation "streaming" "release" "rel-0"])
           (VDict [("id", VStr "url-id");
                   ("release-relation-list",
                    VList [relation "streaming" "release" "rel-0"])])
           [relation "streaming" "release" "rel-0"]);
    try reflexivity.
  exact streaming_is_foreign.
Defined.

Lemma lookup_errors_witness :
  lookup_mbid_by_discog_url python unreachable
    (VStr "https://api.discogs.com/releases/5") "release" []
  = ([BrowseUrls "https://www.discogs.com/release/5" ["release-rels"]],
     Raise (OtherError "NetworkError"))
  /\ lookup_mbid_by_discog_url python no_relations
       (VStr "https://api.discogs.com/releases/5") "release" []
     = ([BrowseUrls "https://www.discogs.com/release/5" ["release-rels"]],
        Raise (KeyError "release-relation-list")).
Proof.
  split.
  - apply (proj1 (lookup_raises_other_errors python unreachable
                    "https://api.discogs.com/releases/5" "release" []));
      [discriminate|reflexivity].
  - apply (proj2 (lookup_raises_other_errors python no_relations
                    "https://api.discogs.com/releases/5" "release" [])
             (VDict [("url", VDict [("id", VStr "url-id")])])
             [("id", VStr "url-id")]);
      reflexivity.
Defined.

Lemma failed_resolution_witness :
  ratings_file [single_3; lost; pressing_4]
    (os_path_join "export" "release-ratings.json")
    = Ret (VList ([single_3] ++ lost :: [pressing_4]))
  /\ Forall (rateable python pressings_known) [single_3]
  /\ (forall tr, snd (lookup_master_mbid python pressings_known lost tr)
                 = Raise (KeyError "artist"))
  /\ snd (import_ratings python pressings_known
            (ratings_file [single_3; lost; pressing_4]) "export" [])
     = Raise (KeyError "artist")
  /\ exists added,
       fst (import_ratings python pressings_known
              (ratings_file [single_3; lost; pressing_4]) "export" [])
         = ([] ++ added)%list
       /\ forallb reads_only added = true.
Proof.
  split; [reflexivity|].
  split; [exact single_3_rateable|split; [exact lost_raises|]].
  exact (failed_resolution_submits_no_rating python pressings_known
           (ratings_file [single_3; lost; pressing_4]) "export"
           [single_3] lost [pressing_4] (KeyError "artist") []
           eq_refl single_3_rateable lost_raises).
Defined.

Lemma release_link_witness :
  snd (lookup_mbid_by_discog_url python pressings_known
         (VStr "https://www.discogs.com/release/5") "release" [])
    = Ret (VStr "rel-5")
  /\ get_release_by_id pressings_known (VStr "rel-5") ["release-groups"]
     = Ret (in_group "rg-9")
  /\ lookup_master_mbid python pressings_known pressing_4 []
     = ([BrowseUrls "https://www.discogs.com/release/5" ["release-rels"];
         GetReleaseById (VStr "rel-5") ["release-groups"]],
        Ret (VStr "rg-9")).
Proof.
  split; [reflexivity|split; [reflexivity|]].
  apply (release_link_resolves_through_release_group python pressings_known
           pressing_4
           (VDict [("name", VStr "Album");
                   ("url", VStr "https://www.discogs.com/release/5")])
           VNone "https://www.discogs.com/release/5" (VStr "rel-5")
           (in_group "rg-9")
           (VDict [("id", VStr "release");
                   ("release-group", VDict [("id", VStr "rg-9")])])
           (VDict [("id", VStr "rg-9")]) (VStr "rg-9") []);
    reflexivity.
Defined.

Lemma release_fetch_error_witness :
  snd (lookup_mbid_by_discog_url python release_gone
         (VStr "https://www.discogs.com/release/5") "release" [])
    = Ret (VStr "rel-5")
  /\ get_release_by_id release_gone (VStr "rel-5") ["release-groups"]
     = Raise ResponseError
  /\ lookup_master_mbid python release_gone album []
     = ([BrowseUrls "https://www.discogs.com/release/5" ["release-rels"];
         GetReleaseById (VStr "rel-5") ["release-groups"]],
        Raise ResponseError).
Proof.
  split; [reflexivity|split; [reflexivity|]].
  apply (release_fetch_error_is_raised python release_gone album
           (VDict [("name", VStr "Album");
                   ("url", VStr "https://www.discogs.com/release/5")])
           VNone "https://www.discogs.com/release/5" (VStr "rel-5")
           ResponseError []);
    reflexivity.
Defined.

Lemma sure_hit_witness :
  search_release_group_by_artists python two_artists album
    [VStr "ar-0"; VStr "ar-1"; VStr "ar-2"] []
  = ([SearchReleaseGroups (VStr "Album") (VStr "ar-0");
      SearchReleaseGroups (VStr "Album") (VStr "ar-1")],
     Ret [hit "rg-96" "Album" "Artist"])
  /\ ([hit "rg-96" "Album" "Artist"] = []
      \/ exists name artist_mbid top others score info,
           In artist_mbid [VStr "ar-0"; VStr "ar-1"; VStr "ar-2"]
           /\ search_gives two_artists name artist_mbid (top :: others)
           /\ ext_score python top = Ret score /\ (score > 95)%Z
           /\ release_group_info top = Ret info
           /\ [hit "rg-96" "Album" "Artist"] = [info]).
Proof.
  split; [reflexivity|].
  exact (search_returns_nothing_or_a_sure_hit python two_artists album
           [VStr "ar-0"; VStr "ar-1"; VStr "ar-2"] []
           [SearchReleaseGroups (VStr "Album") (VStr "ar-0");
            SearchReleaseGroups (VStr "Album") (VStr "ar-1")]
           [hit "rg-96" "Album" "Artist"] eq_refl).
Defined.

Lemma one_request_witness :
  (List.length ["a"; "b"] < 200)%nat
  /\ add_release_groups_to_collection python quiet_server (VStr "c1")
       (map VStr (["a"; "b"] ++ ["c"])) []
     = ([Print "c"; MbPut "collection/c1/release-groups/a;b;c"], Ret tt).
Proof.
  assert (Hsmall : (List.length ["a"; "b"] < 200)%nat) by (cbn; lia).
  split; [exact Hsmall|].
  exact (small_collection_goes_in_one_request python quiet_server (VStr "c1")
           ["a"; "b"] "c" VNone [] Hsmall eq_refl).
Defined.

Lemma no_identifier_witness :
  (forall path, exists answer, do_mb_put quiet_server path = Ret answer)
  /\ exists chunk,
       In "b" chunk
       /\ In (MbPut ("collection/" ++ py_str python (VStr "c1")
                       ++ "/release-groups/" ++ join ";" chunk))
             (fst (add_release_groups_to_collection python quiet_server
                     (VStr "c1") (map VStr ["a"; "b"; "c"]) [])).
Proof.
  assert (Hput : forall path,
            exists answer, do_mb_put quiet_server path = Ret answer)
    by (intros path; now exists VNone).
  split; [exact Hput|].
  apply (proj2 (no_identifier_is_left_out python quiet_server (VStr "c1")
                  ["a"; "b"; "c"] [] Hput) "b").
  right. left. reflexivity.
Defined.

End CascadeRuns.

(* ===================================================================== *)
(** ** The clients and the export on sample sites                         *)
(* ===================================================================== *)

Section ExportRuns.
Import Py ExportFromDiscogs ExporterVocabulary ExporterSamples.
Import ExportClients ClientsVocabulary ClientSamples.

Lemma small_site_ratings :
  html_listing (ratings_page small_site me)
    (DiscogsHtmlClient._parse_release_ratings_html small_site)
    [scraped_ratings].
Proof.
  split.
  - intros [|[|i]] page Hpage; try discriminate.
    injection Hpage as <-. split; [discriminate|].
    exists "<table>two rows</table>". split; reflexivity.
  - exists "<table></table>". split; reflexivity.
Qed.

Lemma small_site_collection :
  rest_listing (list_collection small_site me) "releases"
    [[release_entry "A"; release_entry "B"]; [release_entry "C"]].
Proof.
  intros [|[|[|i]]] page Hpage; try discriminate; injection Hpage as <-.
  - exists (collection_page [release_entry "A"; release_entry "B"] 2),
      (VDict [("page", VInt 1); ("pages", VInt 2)]).
    repeat split; reflexivity.
  - exists (collection_page [release_entry "C"] 2),
      (VDict [("page", VInt 1); ("pages", VInt 2)]).
    repeat split; reflexivity.
Qed.


Lemma incomplete_row_witness :
  In unrated_row [first_row; unrated_row]
  /\ rating_tags unrated_row = []
  /\ (DiscogsHtmlClient.parse_rows [first_row; unrated_row] = Raise IndexError
      \/ DiscogsHtmlClient.parse_rows [first_row; unrated_row]
         = Raise (KeyError "data-value")).
Proof.
  assert (Hin : In unrated_row [first_row; unrated_row])
    by (right; left; reflexivity).
  split; [exact Hin|split; [reflexivity|]].
  exact (incomplete_row_fails_the_page [first_row; unrated_row] unrated_row
           Hin (or_intror eq_refl)).
Defined.

Lemma parsed_page_witness :
  DiscogsHtmlClient.parse_rows [first_row; second_row] = Ret scraped_ratings
  /\ exists release_anchor rating_tag rating,
       list_last (release_anchors second_row) = Ret release_anchor
       /\ list_last (rating_tags second_row) = Ret rating_tag
       /\ assoc "data-value" rating_tag = Some rating
       /\ nth_error scraped_ratings 1
          = Some (VDict
              [("artists", DiscogsHtmlClient._parse_artists_info second_row);
               ("release",
                VDict [("name", VStr (anchor_text release_anchor));
                       ("url", VStr (URL_BASE
                                     ++ DiscogsHtmlClient.url_short_form
                                          (href release_anchor)))]);
               ("rating", VStr rating)]).
Proof.
  split; [reflexivity|].
  exact (proj2 (parsed_page_follows_the_rows [first_row; second_row]
                  scraped_ratings eq_refl)
           1%nat second_row eq_refl).
Defined.

Lemma ratings_file_witness :
  html_listing (ratings_page small_site me)
    (DiscogsHtmlClient._parse_release_ratings_html small_site)
    [scraped_ratings]
  /\ exists st',
       DiscogsHtmlClient.export_release_ratings small_site 2 me "export" fresh
       = (st', Ret (os_path_join "export" "release-ratings.json"))
       /\ sent st' = (sent fresh ++ page_requests (GetRatings me) 1
                                      (S (List.length [scraped_ratings])))%list
       /\ load_json (os_path_join "export" "release-ratings.json") st'
          = (st', Ret (VList (List.concat [scraped_ratings])))
       /\ forall other, other <> os_path_join "export" "release-ratings.json" ->
            assoc other (files st') = assoc other (files fresh).
Proof.
  split; [exact small_site_ratings|].
  apply (ratings_file_holds_all_pages small_site me "export" [scraped_ratings]
           2 fresh small_site_ratings).
  cbn. lia.
Defined.


Lemma get_busy_witness :
  (forall n, exists r, always_busy n "/releases/1" = Ret r
                       /\ status_code r = 429%Z)
  /\ _get always_busy 3 "/releases/1" idle
     = (waited "/releases/1" idle 3, OutOfFuel).
Proof.
  assert (Hbusy : forall n, exists r, always_busy n "/releases/1" = Ret r
                                      /\ status_code r = 429%Z)
    by (intros n; eexists; split; reflexivity).
  split; [exact Hbusy|].
  exact (get_never_gives_up always_busy "/releases/1" 3 idle Hbusy).
Defined.

Lemma cookie_pieces_witness :
  (exists piece, In piece (split " " "sid=abc;  ck_username=bob")
                 /\ contains "=" piece = false)
  /\ _extract_username_from_cookie "sid=abc;  ck_username=bob"
     = Raise ValueError
  /\ (forall piece, In piece (split " " "sid=abc; ck_username=bob") ->
        contains "=" piece = true)
  /\ exists username,
       _extract_username_from_cookie "sid=abc; ck_username=bob" = Ret username.
Proof.
  assert (Hempty : exists piece,
            In piece (split " " "sid=abc;  ck_username=bob")
            /\ contains "=" piece = false).
  { exists "". split; [right; left; reflexivity|reflexivity]. }
  assert (Hall : forall piece,
            In piece (split " " "sid=abc; ck_username=bob") ->
            contains "=" piece = true).
  { intros piece [<-|[<-|[]]]; reflexivity. }
  split; [exact Hempty|split; [|split; [exact Hall|]]].
  - exact (proj1 (cookie_needs_equals_in_every_piece
                    "sid=abc;  ck_username=bob") Hempty).
  - exact (proj2 (cookie_needs_equals_in_every_piece
                    "sid=abc; ck_username=bob") Hall).
Defined.

Lemma username_witness :
  Forall (fun piece => contains " " piece = false /\ contains "=" piece = true)
         (["sid=abc;"] ++ ["lang=en"])
  /\ Forall (fun piece => piece_key piece <> "ck_username") ["lang=en"]
  /\ _extract_username_from_cookie "sid=abc; ck_username=bob; lang=en"
     = Ret (VStr "bob").
Proof.
  assert (Hpieces : Forall (fun piece => contains " " piece = false
                                         /\ contains "=" piece = true)
                      (["sid=abc;"] ++ ["lang=en"]))
    by (repeat constructor).
  assert (Hafter : Forall (fun piece => piece_key piece <> "ck_username")
                     ["lang=en"])
    by (constructor; [discriminate|constructor]).
  split; [exact Hpieces|split; [exact Hafter|]].
  exact (username_is_read_from_the_cookie ["sid=abc;"] ["lang=en"] "bob" ";"
           Hpieces Hafter eq_refl eq_refl).
Defined.


Lemma collected_records_witness :
  _collect_release_info [release_entry "A"; release_entry "B"]
    = Ret [record_of "A"; record_of "B"]
  /\ List.length [record_of "A"; record_of "B"]
     = List.length [release_entry "A"; release_entry "B"]
  /\ Forall collected [record_of "A"; record_of "B"].
Proof.
  split; [reflexivity|].
  exact (collected_records_have_the_exported_shape
           [release_entry "A"; release_entry "B"]
           [record_of "A"; record_of "B"] eq_refl).
Defined.

Lemma listing_files_witness :
  rest_listing (list_collection small_site me) "releases"
    [[release_entry "A"; release_entry "B"]; [release_entry "C"]]
  /\ export_collection small_site 2 me "export" fresh
     = ({| sent := [GetCollection me 1; GetCollection me 2];
           files := [("export/collection.json",
                      VList [record_of "A"; record_of "B"; record_of "C"])] |},
        Ret "export/collection.json").
Proof.
  split; [exact small_site_collection|].
  apply (proj1 (listing_files_hold_all_pages small_site me "export"
                  [[release_entry "A"; release_entry "B"]; [release_entry "C"]]
                  [record_of "A"; record_of "B"; record_of "C"] 2 fresh
                  ltac:(discriminate) eq_refl (le_n 2))).
  exact small_site_collection.
Defined.


End ExportRuns.

(* ===================================================================== *)
(** ** The whole export, the exported records and the collections on
       sample worlds                                                      *)
(* ===================================================================== *)

Section WholeRuns.
Import Py ExportFromDiscogs ExporterVocabulary ExporterSamples.
Import ExportClients ClientsVocabulary ClientSamples.
Import LoadIntoMusicbrainz Samples LoaderVocabulary CascadeSamples.

Lemma master_option_witness :
  _extract_username_from_cookie "sid=abc; ck_username=me;" = Ret me
  /\ DiscogsHtmlClient.export_release_ratings small_site 2 me "export" fresh
     = (ratings_exported, Ret "export/release-ratings.json")
  /\ assoc "export/release-ratings.json" (files ratings_exported)
     = Some (VList scraped_ratings)
  /\ export python small_site 2 (Ret (VDict [("username", VStr "me")]))
       "sid=abc; ck_username=me;" true "export" fresh
     = (ratings_exported, Raise (NameError "rest_client")).
Proof.
  split; [reflexivity|split; [reflexivity|split; [reflexivity|]]].
  apply (master_option_ends_the_export python small_site 2
           (Ret (VDict [("username", VStr "me")])) "sid=abc; ck_username=me;"
           "export" fresh ratings_exported me
           (VDict [("username", VStr "me")]) (VStr "me")
           "export/release-ratings.json"
           (VDict [("artists",
                    VList [VDict [("name", VStr "Some Artist");
                                  ("url", VStr "https://www.discogs.com/artist/98765")]]);
                   ("release",
                    VDict [("name", VStr "Album Name");
                           ("url", VStr "https://www.discogs.com/release/12345")]);
                   ("rating", VStr "4")])
           [VDict [("artists", VList []);
                   ("release",
                    VDict [("name", VStr "Other");
                           ("url", VStr "https://www.discogs.com/release/777")]);
                   ("rating", VStr "5")]]);
    reflexivity.
Defined.


End WholeRuns.

Section CollectionRuns.
Import Py LoadIntoMusicbrainz Samples LoaderSamples LoaderVocabulary.
Import CascadeVocabulary CascadeSamples.
Import LoadCollections CollectionsVocabulary CollectionSamples.

Lemma other_name (name other id : string) :
  (other =? name) = false -> named_otherwise name (a_collection id other).
Proof. intros Hname. exists (VStr other). now split. Qed.

Lemma owned_listed (with_csrf creates : bool) :
  lists_collections (musicbrainz_web with_csrf creates)
    my_collections
    ([a_collection "c1" "Wishlist"] ++ a_collection "c2" "Owned"
       :: [a_collection "c3" "Owned"]).
Proof. eexists. split; reflexivity. Qed.

Lemma wishlist_is_not_owned :
  Forall (named_otherwise "Owned") [a_collection "c1" "Wishlist"].
Proof. constructor; [now apply other_name|constructor]. Qed.


Lemma existing_collection_witness :
  lists_collections (musicbrainz_web true true)
    (server (account_with my_collections))
    ([a_collection "c1" "Wishlist"] ++ a_collection "c2" "Owned"
       :: [a_collection "c3" "Owned"])
  /\ Forall (named_otherwise "Owned") [a_collection "c1" "Wishlist"]
  /\ import_to_collection python pressings_known (musicbrainz_web true true)
       "Owned" (VList [pressing_4; single_3]) (account_with my_collections)
     = submit_to python pressings_known (a_collection "c2" "Owned")
         (VList [pressing_4; single_3])
         (noted GetCollections (account_with my_collections))
  /\ side (fst (import_to_collection python pressings_known
                  (musicbrainz_web true true) "Owned"
                  (VList [pressing_4; single_3]) (account_with my_collections)))
     = (side (account_with my_collections) ++ [GetCollections])%list
  /\ server (fst (import_to_collection python pressings_known
                    (musicbrainz_web true true) "Owned"
                    (VList [pressing_4; single_3]) (account_with my_collections)))
     = server (account_with my_collections).
Proof.
  split; [exact (owned_listed true true)|split; [exact wishlist_is_not_owned|]].
  exact (existing_collection_is_used_as_it_is (list value) python
           pressings_known (musicbrainz_web true true) "Owned"
           (VList [pressing_4; single_3]) (account_with my_collections)
           [a_collection "c1" "Wishlist"] (a_collection "c2" "Owned")
           [a_collection "c3" "Owned"]
           (owned_listed true true) wishlist_is_not_owned eq_refl).
Defined.

Lemma failed_creation_witness :
  lists_collections (musicbrainz_web true false)
    (server (account_with [a_collection "c1" "Wishlist"]))
    [a_collection "c1" "Wishlist"]
  /\ Forall (named_otherwise "Owned") [a_collection "c1" "Wishlist"]
  /\ snd (create_collection (musicbrainz_web true false) "Owned"
            "release group collection"
            (noted GetCollections (account_with [a_collection "c1" "Wishlist"])))
     = Ret tt
  /\ import_to_collection python pressings_known (musicbrainz_web true false)
       "Owned" (VList [pressing_4; single_3])
       (account_with [a_collection "c1" "Wishlist"])
     = ({| api := [Print "There was an issue creating Owned. Skipping..."];
           side := [GetCollections;
                    WebGet WEB_LOGIN_URL; WebPost WEB_LOGIN_URL login_form;
                    WebGet NEW_COLLECTION_URL;
                    WebPost NEW_COLLECTION_URL creation_form;
                    GetCollections];
           server := [a_collection "c1" "Wishlist"] |},
        Ret tt).
Proof.
  assert (Hlisted : lists_collections (musicbrainz_web true false)
                      [a_collection "c1" "Wishlist"]
                      [a_collection "c1" "Wishlist"])
    by (eexists; split; reflexivity).
  split; [exact Hlisted|split; [exact wishlist_is_not_owned|]].
  split; [reflexivity|].
  exact (failed_creation_is_reported (list value) python pressings_known
           (musicbrainz_web true false) "Owned" (VList [pressing_4; single_3])
           (account_with [a_collection "c1" "Wishlist"])
           {| api := [];
              side := [GetCollections;
                       WebGet WEB_LOGIN_URL; WebPost WEB_LOGIN_URL login_form;
                       WebGet NEW_COLLECTION_URL;
                       WebPost NEW_COLLECTION_URL creation_form];
              server := [a_collection "c1" "Wishlist"] |}
           [a_collection "c1" "Wishlist"] [a_collection "c1" "Wishlist"]
           Hlisted wishlist_is_not_owned eq_refl Hlisted
           wishlist_is_not_owned).
Defined.





Lemma login_witness :
  page_of (musicbrainz_web false true) (server (account_with [])) WEB_LOGIN_URL
    = Ret "<login>"
  /\ find_input (musicbrainz_web false true) "<login>" "csrf_session_key" = None
  /\ create_collection (musicbrainz_web false true) "Owned"
       "release group collection" (account_with [])
     = (noted (WebGet WEB_LOGIN_URL) (account_with []),
        Raise (AttributeError "attrs")).
Proof.
  split; [reflexivity|split; [reflexivity|]].
  exact (login_needs_the_csrf_inputs (list value) (musicbrainz_web false true)
           "Owned" "release group collection" (account_with []) "<login>"
           eq_refl (or_introl eq_refl)).
Defined.

Lemma failed_ratings_witness :
  export_files [pressing_4] [single_3; lost; pressing_4]
    (os_path_join "export" "release-ratings.json")
    = Ret (VList ([single_3] ++ lost :: [pressing_4]))
  /\ Forall (rateable python pressings_known) [single_3]
  /\ (forall tr, snd (lookup_master_mbid python pressings_known lost tr)
                 = Raise (KeyError "artist"))
  /\ snd (import_to_musicbrainz python pressings_known (musicbrainz_web true true)
            (export_files [pressing_4] [single_3; lost; pressing_4])
            "export" "Owned" "Wishlist" true true true
            (account_with my_collections))
     = Raise (KeyError "artist")
  /\ side (fst (import_to_musicbrainz python pressings_known
                  (musicbrainz_web true true)
                  (export_files [pressing_4] [single_3; lost; pressing_4])
                  "export" "Owned" "Wishlist" true true true
                  (account_with my_collections)))
     = side (account_with my_collections)
  /\ server (fst (import_to_musicbrainz python pressings_known
                    (musicbrainz_web true true)
                    (export_files [pressing_4] [single_3; lost; pressing_4])
                    "export" "Owned" "Wishlist" true true true
                    (account_with my_collections)))
     = server (account_with my_collections)
  /\ exists added,
       api (fst (import_to_musicbrainz python pressings_known
                   (musicbrainz_web true true)
                   (export_files [pressing_4] [single_3; lost; pressing_4])
                   "export" "Owned" "Wishlist" true true true
                   (account_with my_collections)))
         = (api (account_with my_collections) ++ added)%list
       /\ forallb reads_only added = true.
Proof.
  split; [reflexivity|].
  split; [exact single_3_rateable|split; [exact lost_raises|]].
  exact (failed_ratings_end_the_import (list value) python pressings_known
           (musicbrainz_web true true)
           (export_files [pressing_4] [single_3; lost; pressing_4])
           "export" "Owned" "Wishlist" true true (account_with my_collections)
           [single_3] lost [pressing_4] (KeyError "artist")
           eq_refl single_3_rateable lost_raises).
Defined.

End CollectionRuns.
